(** * The annotation plotting notebook

    A shallow embedding of the code cell of
    [sm-bbox/sm-bbox-annotation/sm-bbox-annotation-plot.ipynb]: the cell
    lists the annotation files of an S3 prefix and, for each of them, loads
    the image it names, draws its bounding boxes and puts the result into a
    two-column matplotlib grid.

    Line numbers are those of the notebook file.  The cell is straight-line
    Python with one loop and no [try]; it is embedded in a monad of
    exceptions and traces: a computation returns what it did to the world
    outside the cell, in order, and either a value or the exception that
    stopped it, tagged with the line that raised it.

    What lies outside the cell is an input of the model:
    - the S3 store ([s3]): the listing of [json_path] and the objects;
    - the bytes of an object, through what the two decoders the cell calls
      make of them ([blob]): for [json.loads] the Python value it returns,
      of any JSON shape, or the way it fails; for the image codecs the
      picture, if the bytes are one;
    - the names bound in the kernel when the cell starts ([ns]): a notebook
      cell runs in the global namespace of its kernel.  The notebook run
      from a fresh kernel is [ns = ∅].

    [json.loads], [os.path.join], [cv2.imdecode], [cv2.rectangle],
    [plt.subplots] and the axes calls are library code; each is modelled
    from its behaviour on the arguments the cell passes ([os.path] is
    [posixpath]; cv2 is OpenCV 4 with its strict conversion of arguments). *)

From stdpp Require Import gmap strings list.
From Stdlib Require Import ZArith Ascii DecimalString DecimalNat.

(** ** Exceptions *)

Inductive exc : Type :=
| UnicodeDecodeError
| JSONDecodeError
| RecursionError
| NameError (name : string)
| KeyError (key : string)
| TypeError
| ValueError
| IndexError
| OverflowError
| FileNotFoundError
| CvError
(** [s % 3] for a string [s] is string formatting; together with the list
    index it is used as, it raises a [TypeError] for most strings and a
    [ValueError] for some malformed conversion specifiers.  The model does
    not tell them apart. *)
| TypeOrValueError.

(** An exception together with the line that raised it. *)
Record raised : Type := Raised { exc_of : exc; line_of : nat }.

(** ** Data outside the cell *)

(** The Python values [json.loads] returns.  A float carries no value: the
    cell never looks at it. *)
#[warnings="-register-all"]
Inductive pyval : Type :=
| PNone
| PBool (b : bool)
| PInt (n : Z)
| PFloat
| PStr (s : string)
| PList (l : list pyval)
| PDict (m : gmap string pyval).

(** The ways [json.loads] fails on bytes: they are no UTF-8, UTF-16 or
    UTF-32 text; the text is no JSON document; the document is nested more
    deeply than the interpreter recurses; it holds an integer literal longer
    than the interpreter converts (Python 3.11 and later). *)
Inductive loads_error : Type := NotUnicode | NotJSON | TooDeep | IntTooLong.

Inductive parse : Type :=
| Fails (why : loads_error)
| Parses (d : pyval).

(** A picture as stored: its size and its own number of channels
    (1 for grayscale, 3 for colour, 4 with an alpha channel). *)
Record picture : Type :=
  Picture { pic_rows : nat; pic_cols : nat; pic_channels : nat }.

(** The bytes of an S3 object: empty, or what [json.loads] and the image
    codecs make of them ([None]: they are no picture). *)
Inductive blob : Type :=
| Empty
| Bytes (as_json : parse) (as_picture : option picture).

Record s3 : Type :=
  S3 { listing : list string; objects : gmap string blob }.

(** A rectangle for [cv2.rectangle]: its two corners, colour and
    thickness. *)
Record shape : Type :=
  Shape { pt1 : Z * Z; pt2 : Z * Z; color : list Z; thickness : Z }.

(** A decoded image: the array's shape and the rectangles drawn on it. *)
Record image : Type :=
  Image { img_rows : nat; img_cols : nat; img_channels : nat;
          img_shapes : list shape }.

(** cv2 fills a shape iff its thickness is negative ([cv2.FILLED = -1]). *)
Definition filled (s : shape) : bool := (thickness s <? 0)%Z.

(** ** Traces and the monad *)

(** The requests to S3 and to matplotlib, and the rectangles drawn on an
    image. *)
Inductive event : Type :=
| EvLs (path : string)
| EvCat (line : nat) (path : string)
| EvSubplots (nrows ncols : nat)
| EvRectangle (s : shape)
| EvSetTitle (cell : nat * nat) (title : string)
| EvImshow (cell : nat * nat) (img : image)
| EvShow.

Definition M (A : Type) : Type := (list event * (raised + A))%type.

Definition ret {A} (a : A) : M A := ([], inr a).

Definition raise {A} (e : exc) (line : nat) : M A := ([], inl (Raised e line)).

Definition emit (ev : event) : M unit := ([ev], inr tt).

Definition bind {A B} (m : M A) (k : A → M B) : M B :=
  match m with
  | (t, inl e) => (t, inl e)
  | (t, inr a) => let '(t', r) := k a in (t ++ t', r)
  end.

#[global] Instance M_ret : MRet M := @ret.
#[global] Instance M_bind : MBind M := λ A B k m, bind m k.

(** ** Python *)

(** [l[idx] = v] on a list: negative indices count from the end, anything
    out of range raises [IndexError]. *)
Definition list_setitem (l : list Z) (idx v : Z) (line : nat) : M (list Z) :=
  let n := Z.of_nat (length l) in
  if bool_decide (0 ≤ idx < n)%Z then ret (<[Z.to_nat idx := v]> l)
  else if bool_decide (- n ≤ idx < 0)%Z then ret (<[Z.to_nat (n + idx) := v]> l)
  else raise IndexError line.

(** [v[key]] for a string [key]: a dict is looked up, nothing else that
    [json.loads] returns can be subscripted by a string. *)
Definition getitem (v : pyval) (key : string) (line : nat) : M pyval :=
  match v with
  | PDict m =>
      match m !! key with
      | Some x => ret x
      | None => raise (KeyError key) line
      end
  | _ => raise TypeError line
  end.

Fixpoint chars (s : string) : list pyval :=
  match s with
  | EmptyString => []
  | String c s' => PStr (String c EmptyString) :: chars s'
  end.

(** [for x in v]: the elements of a list, the keys of a dict, the
    characters of a string.  (The order of the keys plays no role for the
    cell: its loop body fails on the first.) *)
Definition iterate (v : pyval) (line : nat) : M (list pyval) :=
  match v with
  | PList l => ret l
  | PDict m => ret (PStr <$> (map_to_list m).*1)
  | PStr s => ret (chars s)
  | _ => raise TypeError line
  end.

(** Python's numbers: [bool] is a subclass of [int]. *)
Inductive number : Type := NInt (n : Z) | NFloat.

Definition as_number (v : pyval) : option number :=
  match v with
  | PBool b => Some (NInt (Z.b2z b))
  | PInt n => Some (NInt n)
  | PFloat => Some NFloat
  | _ => None
  end.

Definition as_int (v : pyval) : option Z :=
  match v with
  | PBool b => Some (Z.b2z b)
  | PInt n => Some n
  | _ => None
  end.

(** The integers that convert to a float: those that round to a finite
    double. *)
Definition fits_float (n : Z) : bool := (Z.abs n <? 2 ^ 1024 - 2 ^ 970)%Z.

(** [a + b]: numbers are added, an integer meeting a float is converted
    first; strings and lists are concatenated. *)
Definition py_add (a b : pyval) (line : nat) : M pyval :=
  match as_number a, as_number b with
  | Some (NInt x), Some (NInt y) => ret (PInt (x + y))
  | Some NFloat, Some NFloat => ret PFloat
  | Some (NInt x), Some NFloat | Some NFloat, Some (NInt x) =>
      if fits_float x then ret PFloat else raise OverflowError line
  | _, _ =>
      match a, b with
      | PStr s, PStr t => ret (PStr (s +:+ t))
      | PList l, PList k => ret (PList (l ++ k))
      | _, _ => raise TypeError line
      end
  end.

Fixpoint endswith_sep (s : string) : bool :=
  match s with
  | EmptyString => false
  | String c EmptyString => bool_decide (c = "/"%char)
  | String _ s' => endswith_sep s'
  end.

(** [os.path.join(a, b)] of [posixpath]: an absolute [b] replaces [a]. *)
Definition posix_join (a b : string) : string :=
  if String.prefix "/" b then b
  else if bool_decide (a = EmptyString) || endswith_sep a then a +:+ b
  else a +:+ "/" +:+ b.

(** [os.path.join(a, v)] for a value [v]: only a string is a path. *)
Definition path_join (a : string) (v : pyval) (line : nat) : M string :=
  match v with
  | PStr b => ret (posix_join a b)
  | _ => raise TypeError line
  end.

Fixpoint zeros (n : nat) : string :=
  match n with
  | O => EmptyString
  | S n' => String "0" (zeros n')
  end.

Definition decimal (i : nat) : string := NilZero.string_of_uint (Nat.to_uint i).

(** [format(i, '02')] for [i >= 0]: decimal digits, zeros on the left up to
    the width. *)
Definition format_zero_width (width i : nat) : string :=
  let s := decimal i in zeros (width - String.length s) +:+ s.

(** ** The libraries *)

(** [fs.ls(path)]. *)
Definition fs_ls (w : s3) (path : string) : M (list string) :=
  emit (EvLs path);; ret (listing w).

(** [fs.cat(path)]: the request goes out, a missing object raises. *)
Definition fs_cat (w : s3) (line : nat) (path : string) : M blob :=
  emit (EvCat line path);;
  match objects w !! path with
  | Some b => ret b
  | None => raise FileNotFoundError line
  end.

Definition loads_exc (why : loads_error) : exc :=
  match why with
  | NotUnicode => UnicodeDecodeError
  | NotJSON => JSONDecodeError
  | TooDeep => RecursionError
  | IntTooLong => ValueError
  end.

(** [json.loads(raw)] on bytes: they are decoded, then parsed; an empty
    byte string is an empty text, which is no JSON document. *)
Definition json_loads (raw : blob) (line : nat) : M pyval :=
  match raw with
  | Empty => raise JSONDecodeError line
  | Bytes (Fails why) _ => raise (loads_exc why) line
  | Bytes (Parses d) _ => ret d
  end.

Definition IMREAD_UNCHANGED : Z := (-1)%Z.
Definition IMREAD_GRAYSCALE : Z := 0%Z.
Definition IMREAD_COLOR : Z := 1%Z.
Definition IMREAD_ANYCOLOR : Z := 4%Z.

(** Channels of the array [cv2.imdecode] returns for a picture of [cn]
    channels: unchanged for [IMREAD_UNCHANGED]; three when the colour bit is
    set, or the any-colour bit on a picture that has colour; one otherwise. *)
Definition out_channels (flags : Z) (cn : nat) : nat :=
  if (flags =? IMREAD_UNCHANGED)%Z then cn
  else if Z.testbit flags 0 || (Z.testbit flags 2 && (1 <? cn)) then 3
  else 1.

(** [cv2.imdecode(np.frombuffer(b, dtype=np.uint8), flags)]: an empty buffer
    fails cv2's assertion; bytes that are no image give [None], no
    exception. *)
Definition imdecode (b : blob) (flags : Z) (line : nat) : M (option image) :=
  match b with
  | Empty => raise CvError line
  | Bytes _ None => ret None
  | Bytes _ (Some p) =>
      ret (Some (Image (pic_rows p) (pic_cols p)
                       (out_channels flags (pic_channels p)) []))
  end.

(** The integers cv2 takes for a coordinate: a Python [int] (not a [bool],
    not a float) that fits a C [int]. *)
Definition int32 (n : Z) : bool := (- 2 ^ 31 <=? n)%Z && (n <? 2 ^ 31)%Z.

Definition to_int32 (v : pyval) : option Z :=
  match v with
  | PInt n => if int32 n then Some n else None
  | _ => None
  end.

Definition to_point (p : pyval * pyval) : option (Z * Z) :=
  x ← to_int32 p.1; y ← to_int32 p.2; Some (x, y).

(** The image with more rectangles on it. *)
Definition draw_all (im : image) (ss : list shape) : image :=
  Image (img_rows im) (img_cols im) (img_channels im) (img_shapes im ++ ss).

(** [cv2.rectangle(img, pt1=.., pt2=.., color=.., thickness=..)]: the
    arguments are converted first, and a corner that is no pair of C [int]s
    makes the call raise cv2's error; then the rectangle is drawn on [img]
    in place.  For [None] in place of an image there is nothing to draw on:
    the call raises nothing and leaves [None]. *)
Definition rectangle (img : option image) (p1 p2 : pyval * pyval)
    (color : list Z) (thickness : Z) (line : nat) : M (option image) :=
  match to_point p1, to_point p2 with
  | Some q1, Some q2 =>
      match img with
      | None => ret None
      | Some im =>
          let s := Shape q1 q2 color thickness in
          emit (EvRectangle s);; ret (Some (draw_all im [s]))
      end
  | _, _ => raise CvError line
  end.

(** What [plt.subplots(nrows, ncols)] returns as its second component, with
    the default [squeeze=True]: one Axes for a 1x1 grid, a one-dimensional
    array when there is one row or one column, a two-dimensional array
    otherwise. *)
Inductive axes : Type :=
| AxSingle
| AxVector (n : nat)
| AxGrid (nrows ncols : nat).

Definition subplots (nrows ncols : nat) (line : nat) : M axes :=
  emit (EvSubplots nrows ncols);;
  if (nrows =? 0) || (ncols =? 0) then raise ValueError line
  else if (nrows =? 1) && (ncols =? 1) then ret AxSingle
  else if nrows =? 1 then ret (AxVector ncols)
  else if ncols =? 1 then ret (AxVector nrows)
  else ret (AxGrid nrows ncols).

(** [ax[row][col]]: an Axes object cannot be subscripted. *)
Definition ax_getitem2 (ax : axes) (row col : nat) (line : nat)
  : M (nat * nat) :=
  match ax with
  | AxSingle => raise TypeError line
  | AxVector n =>
      if row <? n then raise TypeError line else raise IndexError line
  | AxGrid r c =>
      if (row <? r) && (col <? c) then ret (row, col)
      else raise IndexError line
  end.

Definition set_title (cell : nat * nat) (title : string) : M unit :=
  emit (EvSetTitle cell title).

(** [this_ax.imshow(img)]: [None] is no image data. *)
Definition imshow (cell : nat * nat) (img : option image) (line : nat)
  : M unit :=
  match img with
  | None => raise TypeError line
  | Some im => emit (EvImshow cell im)
  end.

Definition plt_show : M unit := emit EvShow.

(** ** The cell *)

Module Cell.

(** Names the cell itself binds before line 70: its imports (lines 42-49)
    and its assignments. *)
Definition cell_names : list string :=
  [ "s3fs"; "json"; "plt"; "np"; "cv2"; "json_path"; "img_path"; "fs";
    "json_files"; "nrows"; "ncols"; "w"; "h"; "_"; "ax"; "i";
    "json_fname"; "d" ].

(** Looking a global name up at run time. *)
Definition lookup_name (ns : gset string) (x : string) (line : nat) : M unit :=
  if bool_decide (x ∈ ns) || bool_decide (x ∈ cell_names) then ret tt
  else raise (NameError x) line.

Definition json_path : string := "s3://bucket/dataset/train_annotation/".
Definition img_path : string := "s3://bucket/dataset/train/".

(** Line 59. *)
Definition ncols : nat := 2.
Definition grid_rows (count : nat) : nat := (count + 1) / 2.

(** Line 88. *)
Definition cell_of (i : nat) : nat * nat := (i / 2, i mod 2).

(** Lines 83-84: [color = [0,0,0]; color[cid % 3] = 255].  An integer has a
    remainder, which is the index; the remainder of a float is a float and
    no index; [%] on a string formats it; the other values have no [%]. *)
Definition bbox_color (cid : pyval) : M (list Z) :=
  match cid with
  | PInt n => list_setitem [0; 0; 0]%Z (n mod 3)%Z 255%Z 84
  | PBool b => list_setitem [0; 0; 0]%Z (Z.b2z b mod 3)%Z 255%Z 84
  | PStr _ => raise TypeOrValueError 84
  | PNone | PFloat | PList _ | PDict _ => raise TypeError 84
  end.

(** Lines 78-85, the body of the loop over the boxes. *)
Definition draw_bbox (img : option image) (bbox : pyval) : M (option image) :=
  x_min ← getitem bbox "left" 78;
  y_min ← getitem bbox "top" 78;
  width ← getitem bbox "width" 79;
  x_max ← py_add x_min width 79;
  height ← getitem bbox "height" 79;
  y_max ← py_add y_min height 79;
  cid ← getitem bbox "class_id" 82;
  color ← bbox_color cid;
  rectangle img (x_min, y_min) (x_max, y_max) color 2 85.

(** The loop of line 76 over the boxes. *)
Fixpoint draw_bboxes (img : option image) (l : list pyval)
  : M (option image) :=
  match l with
  | [] => ret img
  | bbox :: l' => img' ← draw_bbox img bbox; draw_bboxes img' l'
  end.

(** Lines 71-73. *)
Definition load_image (w : s3) (img_fname : string) : M (option image) :=
  b ← fs_cat w 71 img_fname;
  imdecode b 1 73.

(** Line 90: [f'[img-{i:02}] {img_fname}']. *)
Definition caption (i : nat) (img_fname : string) : string :=
  "[img-" +:+ format_zero_width 2 i +:+ "] " +:+ img_fname.

(** Lines 66-70: read and parse the annotation, resolve the image path.
    In line 70 the name [os] is looked up before [d['file']] is
    evaluated. *)
Definition open_annotation (ns : gset string) (w : s3) (json_fname : string)
  : M (pyval * string) :=
  raw ← fs_cat w 66 json_fname;
  d ← json_loads raw 66;
  lookup_name ns "os" 70;;
  file ← getitem d "file" 70;
  img_fname ← path_join img_path file 70;
  ret (d, img_fname).

(** Lines 76-85. *)
Definition draw_annotations (d : pyval) (img : option image)
  : M (option image) :=
  annotations ← getitem d "annotations" 76;
  bboxes ← iterate annotations 76;
  draw_bboxes img bboxes.

(** Lines 88-91. *)
Definition place (ax : axes) (i : nat) (img_fname : string)
    (img : option image) : M unit :=
  let '(row, col) := cell_of i in
  this_ax ← ax_getitem2 ax row col 89;
  set_title this_ax (caption i img_fname);;
  imshow this_ax img 91.

(** Lines 66-91, the body of the loop over the annotation files. *)
Definition plot_file (ns : gset string) (w : s3) (ax : axes)
    (i : nat) (json_fname : string) : M unit :=
  '(d, img_fname) ← open_annotation ns w json_fname;
  img ← load_image w img_fname;
  img ← draw_annotations d img;
  place ax i img_fname img.

(** Line 64: [for i, json_fname in enumerate(json_files)]. *)
Fixpoint plot_files (ns : gset string) (w : s3) (ax : axes)
    (i : nat) (files : list string) : M unit :=
  match files with
  | [] => ret tt
  | f :: files' => plot_file ns w ax i f;; plot_files ns w ax (S i) files'
  end.

(** The whole cell, lines 42-93. *)
Definition run_cell (ns : gset string) (w : s3) : M unit :=
  json_files ← fs_ls w json_path;
  ax ← subplots (grid_rows (length json_files)) ncols 61;
  plot_files ns w ax 0 json_files;;
  plt_show.

End Cell.

(** * Reference definitions *)

(** ** Reading the store *)

(** The value the annotation file [f] holds, if it is there and parses. *)
Definition annotation_of (w : s3) (f : string) : option pyval :=
  match objects w !! f with
  | Some (Bytes (Parses d) _) => Some d
  | _ => None
  end.

(** The picture stored at [path], if the bytes there are one. *)
Definition picture_of (w : s3) (path : string) : option picture :=
  match objects w !! path with
  | Some (Bytes _ (Some pic)) => Some pic
  | _ => None
  end.

(** A field of a JSON object. *)
Definition field (d : pyval) (key : string) : option pyval :=
  match d with
  | PDict m => m !! key
  | _ => None
  end.

(** The image name of an annotation: its ["file"], when that is a string. *)
Definition file_of (d : pyval) : option string :=
  match field d "file" with
  | Some (PStr file) => Some file
  | _ => None
  end.

(** What a loop over a value goes through. *)
Definition elements (v : pyval) : option (list pyval) :=
  match v with
  | PList l => Some l
  | PDict m => Some (PStr <$> (map_to_list m).*1)
  | PStr s => Some (chars s)
  | _ => None
  end.

(** The boxes of an annotation. *)
Definition boxes_of (d : pyval) : option (list pyval) :=
  field d "annotations" ≫= elements.

(** ** Boxes *)

Definition exact_int (v : pyval) : option Z :=
  match v with
  | PInt n => Some n
  | _ => None
  end.

(** The rectangle of a box: from [(left, top)] to
    [(left + width, top + height)], in the colour of its class, two pixels
    thick.  It is defined for a JSON object with the five keys, integers
    for [left] and [top], integers (or booleans, which Python adds as 0 and
    1) for the others, and corners that fit cv2's 32-bit coordinates. *)
Definition box_shape (b : pyval) : option shape :=
  left ← field b "left" ≫= exact_int;
  top ← field b "top" ≫= exact_int;
  width ← field b "width" ≫= as_int;
  height ← field b "height" ≫= as_int;
  cid ← field b "class_id" ≫= as_int;
  if int32 left && int32 top && int32 (left + width) && int32 (top + height)
  then Some (Shape (left, top) (left + width, top + height)%Z
                   (<[Z.to_nat (cid mod 3) := 255%Z]> [0; 0; 0]%Z) 2)
  else None.

(** The rectangles drawn when [ss] are asked for on [img]: none when there
    is no image. *)
Definition rectangles (img : option image) (ss : list shape) : list event :=
  match img with
  | Some _ => EvRectangle <$> ss
  | None => []
  end.

(** What [cv2.imdecode(arr, 1)] gives for what the bytes are. *)
Definition decoded (pic : option picture) : option image :=
  (λ p, Image (pic_rows p) (pic_cols p) 3 []) <$> pic.


(** The class of a box, as a number. *)
Definition class_of (b : pyval) : option Z := field b "class_id" ≫= as_int.

(** The colour of a class: channel [cid mod 3] at 255, the others at 0. *)
Definition class_color (cid : Z) : list Z :=
  <[Z.to_nat (cid mod 3) := 255%Z]> [0; 0; 0]%Z.

(** The path of the image of the annotation file [f]. *)
Definition image_path (w : s3) (f : string) : option string :=
  d ← annotation_of w f; file ← file_of d;
  Some (posix_join Cell.img_path file).

(** The annotated image of the annotation file [f]: its picture, decoded to
    three channels, with the rectangles of its boxes, in their order. *)
Definition annotated_image (w : s3) (f : string) : option image :=
  d ← annotation_of w f; path ← image_path w f; l ← boxes_of d;
  pic ← picture_of w path; ss ← mapM box_shape l;
  Some (Image (pic_rows pic) (pic_cols pic) 3 ss).

(** The ways through the loop body: what a file's iteration does and how
    it ends. *)
Inductive outcome (ns : gset string) (w : s3) (ax : axes) (i : nat)
    (f : string) : list event → raised + unit → Prop :=
| NotOpened e :
    Cell.open_annotation ns w f = ([EvCat 66 f], inl e) →
    outcome ns w ax i f [EvCat 66 f] (inl e)
| NotLoaded d file e :
    "os" ∈ ns → annotation_of w f = Some d → file_of d = Some file →
    Cell.load_image w (posix_join Cell.img_path file)
      = ([EvCat 71 (posix_join Cell.img_path file)], inl e) →
    outcome ns w ax i f [EvCat 66 f; EvCat 71 (posix_join Cell.img_path file)]
            (inl e)
| NoBoxes d file j pic x :
    "os" ∈ ns → annotation_of w f = Some d → file_of d = Some file →
    objects w !! posix_join Cell.img_path file = Some (Bytes j pic) →
    boxes_of d = None →
    outcome ns w ax i f [EvCat 66 f; EvCat 71 (posix_join Cell.img_path file)]
            (inl (Raised x 76))
| BadBox d file j pic good b rest ss e :
    "os" ∈ ns → annotation_of w f = Some d → file_of d = Some file →
    objects w !! posix_join Cell.img_path file = Some (Bytes j pic) →
    boxes_of d = Some (good ++ b :: rest) →
    mapM box_shape good = Some ss →
    Cell.draw_bbox (flip draw_all ss <$> decoded pic) b = ([], inl e) →
    outcome ns w ax i f
            (EvCat 66 f :: EvCat 71 (posix_join Cell.img_path file)
               :: rectangles (decoded pic) ss)
            (inl e)
| Drawn d file j pic l ss t r :
    "os" ∈ ns → annotation_of w f = Some d → file_of d = Some file →
    objects w !! posix_join Cell.img_path file = Some (Bytes j pic) →
    boxes_of d = Some l → mapM box_shape l = Some ss →
    Cell.place ax i (posix_join Cell.img_path file) (flip draw_all ss <$> decoded pic)
      = (t, r) →
    outcome ns w ax i f
            (EvCat 66 f :: EvCat 71 (posix_join Cell.img_path file)
               :: rectangles (decoded pic) ss ++ t)
            r.


(** [b] is a box of the annotation file at index [k] of the listing. *)
Definition box_at (w : s3) (k : nat) (b : pyval) : Prop :=
  ∃ f d l,
    listing w !! k = Some f ∧ annotation_of w f = Some d ∧
    boxes_of d = Some l ∧ b ∈ l.

(** [b] is a box of an annotation file of the listing. *)
Definition annotated (w : s3) (b : pyval) : Prop := ∃ k, box_at w k b.

(** ** Captions *)

(** Reading a string of decimal digits as a number. *)
Definition read_decimal (s : string) : option nat :=
  Nat.of_uint <$> NilZero.uint_of_string s.

(** ** The error kinds of the specification *)

(** The cell raises Python's own exceptions; they are read as the kinds of
    the specification as follows: whatever the decode step of line 73 raises
    is a decode error; whatever [json.loads] raises at line 66, a missing
    key, and a value that cannot be subscripted or joined at line 70, is a
    malformed annotation; [fs.cat] not finding the image at line 71 is a
    missing image. *)
Inductive spec_error : Type :=
| MalformedAnnotationError
| ImageNotFoundError
| ImageDecodeError.

Definition spec_error_of (e : raised) : option spec_error :=
  if line_of e =? 73 then Some ImageDecodeError
  else match exc_of e with
       | KeyError _ => Some MalformedAnnotationError
       | FileNotFoundError =>
           if line_of e =? 71 then Some ImageNotFoundError else None
       | NameError _ => None
       | TypeError =>
           if line_of e =? 70 then Some MalformedAnnotationError else None
       | _ =>
           if line_of e =? 66 then Some MalformedAnnotationError else None
       end.

(** An annotation file whose content is no JSON document, or no JSON
    object with the keys ["file"] and ["annotations"]. *)
Definition malformed (b : blob) : bool :=
  match b with
  | Empty | Bytes (Fails _) _ => true
  | Bytes (Parses d) _ =>
      match field d "file", field d "annotations" with
      | Some _, Some _ => false
      | _, _ => true
      end
  end.

(** Bytes that are no picture. *)
Definition undecodable (b : blob) : bool :=
  match b with
  | Bytes _ (Some _) => false
  | _ => true
  end.

(** What is wrong with the annotation file [f], by the specification's
    kinds; [None] when nothing is, or when [f] itself cannot be read. *)
Definition defect (w : s3) (f : string) : option spec_error :=
  match objects w !! f with
  | None => None
  | Some b =>
      if malformed b then Some MalformedAnnotationError
      else match annotation_of w f ≫= file_of with
           | None => Some MalformedAnnotationError
           | Some file =>
               match objects w !! posix_join Cell.img_path file with
               | None => Some ImageNotFoundError
               | Some b' =>
                   if undecodable b' then Some ImageDecodeError else None
               end
           end
  end.

(** ** The grid *)

(** The least number of rows of [b] cells that hold [a] cells. *)
Definition ceil_div (a b : nat) : nat := (a + b - 1) / b.

(** A run put something into the grid cell [cell]: a caption or an image. *)
Definition placed (cell : nat * nat) (tr : list event) : Prop :=
  (∃ title, EvSetTitle cell title ∈ tr) ∨ (∃ im, EvImshow cell im ∈ tr).

(** The cells a trace shows an image in, and the captions it sets, in
    order. *)
Definition shown (tr : list event) : list (nat * nat * image) :=
  omap (λ ev, match ev with
              | EvImshow cell im => Some (cell, im)
              | _ => None
              end) tr.

Definition captions (tr : list event) : list (nat * nat * string) :=
  omap (λ ev, match ev with
              | EvSetTitle cell title => Some (cell, title)
              | _ => None
              end) tr.

(** An annotation file with a name for its image and boxes that have a
    rectangle, whose image exists and decodes. *)
Definition well_formed (w : s3) (f : string) : Prop :=
  ∃ d file l pic,
    annotation_of w f = Some d ∧ file_of d = Some file ∧
    boxes_of d = Some l ∧
    picture_of w (posix_join Cell.img_path file) = Some pic ∧
    Forall (λ b, is_Some (box_shape b)) l.

(** The axes container line 61 obtains for [count] annotation files. *)
Definition axes_for (count : nat) : axes :=
  if Cell.grid_rows count =? 1 then AxVector 2
  else AxGrid (Cell.grid_rows count) 2.

(** ** What a trace reads, and where a run can fail *)

(** The annotation files a trace reads (the [fs.cat] calls of line 66), in
    order. *)
Definition reads (tr : list event) : list string :=
  omap (λ ev, match ev with
              | EvCat 66 path => Some path
              | _ => None
              end) tr.

(** The keys of a box in the order lines 78-82 read them, and the line that
    reads each. *)
Definition box_keys : list string :=
  ["left"; "top"; "width"; "height"; "class_id"].

Definition key_line (key : string) : nat :=
  if bool_decide (key = "left") || bool_decide (key = "top") then 78
  else if bool_decide (key = "width") || bool_decide (key = "height") then 79
  else 82.



(** Strings of decimal digits. *)
Definition is_digit (c : ascii) : bool :=
  (48 <=? nat_of_ascii c) && (nat_of_ascii c <=? 57).

Fixpoint all_digits (s : string) : bool :=
  match s with
  | EmptyString => true
  | String c s' => is_digit c && all_digits s'
  end.

(** ** Sample stores *)

Module Samples.

Definition box (cid left top width height : Z) : pyval :=
  PDict (list_to_map [("class_id", PInt cid); ("left", PInt left);
                      ("top", PInt top); ("width", PInt width);
                      ("height", PInt height)]).

(** The box of the notebook's own example, and one of class 4. *)
Definition box0 : pyval := box 0 300 38 100 52.
Definition box4 : pyval := box 4 10 20 30 40.

Definition annotation (file : string) (boxes : list pyval) : blob :=
  Bytes (Parses (PDict (list_to_map [("file", PStr file);
                                     ("annotations", PList boxes)])))
        None.

Definition jpeg (channels : nat) : blob :=
  Bytes (Fails NotUnicode) (Some (Picture 480 640 channels)).

(** Text that is neither JSON nor an image, and bytes that are not even
    text. *)
Definition garbage : blob := Bytes (Fails NotJSON) None.
Definition binary : blob := Bytes (Fails NotUnicode) None.

Definition os_imported : gset string := {["os"]}.

(** Three annotation files; the images are grayscale, colour and colour
    with alpha. *)
Definition store3 : s3 :=
  S3 ["a.json"; "b.json"; "c.json"]
     (list_to_map
        [("a.json", annotation "a.jpg" [box0; box4]);
         ("b.json", annotation "b.jpg" []);
         ("c.json", annotation "c.jpg" []);
         ("s3://bucket/dataset/train/a.jpg", jpeg 1);
         ("s3://bucket/dataset/train/b.jpg", jpeg 3);
         ("s3://bucket/dataset/train/c.jpg", jpeg 4)]).

(** The same objects, one annotation file listed. *)
Definition store1 : s3 := S3 ["a.json"] (objects store3).

(** The first annotation has no ["annotations"] key; its image is there. *)
Definition store_no_boxes : s3 :=
  S3 ["a.json"; "b.json"; "c.json"]
     (<["a.json" := Bytes (Parses (PDict {["file" := PStr "a.jpg"]})) None]>
        (objects store3)).

(** The image of the first annotation, which has no box, is no picture. *)
Definition store_garbage : s3 :=
  S3 ["b.json"; "a.json"; "c.json"]
     (<["s3://bucket/dataset/train/b.jpg" := garbage]> (objects store3)).

(** The image of the first annotation, which has two boxes, is no
    picture. *)
Definition store_garbage_boxes : s3 :=
  S3 ["a.json"; "b.json"; "c.json"]
     (<["s3://bucket/dataset/train/a.jpg" := garbage]> (objects store3)).

(** The second annotation names an image that is not in the store. *)
Definition store_missing : s3 :=
  S3 ["a.json"; "m.json"; "c.json"]
     (<["m.json" := annotation "missing.jpg" []]> (objects store3)).

(** The only annotation file is no JSON; is not even text. *)
Definition store_bad_json : s3 :=
  S3 ["a.json"] (<["a.json" := garbage]> (objects store3)).

Definition store_binary : s3 :=
  S3 ["a.json"] (<["a.json" := binary]> (objects store3)).

(** Five annotation files. *)
Definition store5 : s3 :=
  S3 ["a.json"; "b.json"; "c.json"; "d.json"; "e.json"]
     (<["d.json" := annotation "b.jpg" []]>
        (<["e.json" := annotation "c.jpg" []]> (objects store3))).






(** The first annotation names its image by an absolute path. *)
Definition store_absolute : s3 :=
  S3 ["a.json"; "b.json"; "c.json"]
     (<["a.json" := annotation "/other/a.jpg" []]> (objects store3)).

End Samples.
(** * The notebook-instance launcher

    [awscli-scripts/smnb-start] is a bash script that starts or stops a
    SageMaker notebook instance, depending on the name it is called by, and
    then shows the status of the instance.  It is embedded as a function
    from what the script is given to what it does: the lines it echoes and
    the command strings it hands to [eval] and [watch], in order, and how it
    ends.

    Given from outside: the name the script runs as (what
    [$(basename ${BASH_SOURCE[0]})] prints), its arguments, the value of
    [NB_NAME] in the environment (the script never initialises it), and
    whether [watch] returns (it runs until it is interrupted).  The exit
    statuses of the [aws] commands are not used by the script.  An unquoted
    [$key] is split into words at spaces, tabs and newlines; pathname
    expansion is taken to match no file, which leaves a word as it is. *)

Module Smnb.

Definition is_ifs (c : ascii) : bool :=
  bool_decide (c = " "%char) || bool_decide (c = "009"%char)
  || bool_decide (c = "010"%char).

(** Word splitting of an unquoted expansion; [cur] is the word being read. *)
Fixpoint split_words (cur s : string) : list string :=
  match s with
  | EmptyString =>
      match cur with EmptyString => [] | _ => [cur] end
  | String c s' =>
      if is_ifs c then
        match cur with
        | EmptyString => split_words EmptyString s'
        | _ => cur :: split_words EmptyString s'
        end
      else split_words (cur +:+ String c EmptyString) s'
  end.

Definition words (s : string) : list string := split_words EmptyString s.

(** [[[ $s =~ .*pat.* ]]] for a literal [pat]: [pat] occurs in [s]. *)
Fixpoint contains (pat s : string) : bool :=
  String.prefix pat s ||
  match s with
  | EmptyString => false
  | String _ s' => contains pat s'
  end.

(** The variables of the script (lines 3-5, and [NB_NAME]). *)
Record vars : Type :=
  Vars { AWS_CLI_OPTS : list string; ALL_FOR_AWS_CLI : nat;
         WATCH : nat; NB_NAME : string }.

Inductive action : Type :=
| Echo (line : string)
| Eval (cmd : string)
| Read (prompt : string)
| Watch (interval : nat) (cmd : string).

(** How the script ends: by [exit], by running off its end with a status
    of its own or with that of its last [eval], or inside [watch]. *)
Inductive ending : Type :=
| Exit (status : nat)
| End (status : nat)
| EndWithStatusOf (cmd : string)
| Interrupted.

Definition usage (name : string) : list action :=
  [ Echo "Watch Amazon SageMaker Notebook instance.";
    Echo ("Usage: " +:+ name
            +:+ " <NB_NAME> --awscli-arg=val -- --awscli-arg val") ].

(** Lines 7-36.  Each round of the loop looks at [$1] and shifts. *)
Fixpoint parse_args (name : string) (args : list string) (v : vars)
  : list action * (nat + vars) :=
  match args with
  | [] => ([], inr v)
  | key :: rest =>
      if bool_decide (key = "-h") || bool_decide (key = "--help") then
        (usage name, inl 0)
      else if bool_decide (key = "-n") || bool_decide (key = "--no-watch") then
        parse_args name rest
          (Vars (AWS_CLI_OPTS v) (ALL_FOR_AWS_CLI v) 0 (NB_NAME v))
      else if bool_decide (key = "--") then
        parse_args name rest (Vars (AWS_CLI_OPTS v) 1 (WATCH v) (NB_NAME v))
      else if String.prefix "-" key then
        parse_args name rest
          (Vars (AWS_CLI_OPTS v ++ words key) (ALL_FOR_AWS_CLI v) (WATCH v)
                (NB_NAME v))
      else if 0 <? ALL_FOR_AWS_CLI v then
        parse_args name rest
          (Vars (AWS_CLI_OPTS v ++ words key) (ALL_FOR_AWS_CLI v) (WATCH v)
                (NB_NAME v))
      else
        parse_args name rest
          (Vars (AWS_CLI_OPTS v) (ALL_FOR_AWS_CLI v) (WATCH v) key)
  end.

(** ["aws ${AWS_CLI_OPTS[@]} sagemaker <verb> --notebook-instance-name
    ${NB_NAME}"]: inside the double quotes of an assignment the array is
    joined with spaces. *)
Definition aws_cmd (v : vars) (verb : string) : string :=
  "aws " +:+ String.concat " " (AWS_CLI_OPTS v) +:+ " sagemaker " +:+ verb
    +:+ " --notebook-instance-name " +:+ NB_NAME v.

(** Lines 38-43. *)
Definition start_smnb (v : vars) : list action :=
  [ Eval (aws_cmd v "start-notebook-instance");
    Echo ("Started " +:+ NB_NAME v) ].

(** Lines 45-50. *)
Definition stop_smnb (v : vars) : list action :=
  [ Eval (aws_cmd v "stop-notebook-instance");
    Echo ("Stopped " +:+ NB_NAME v) ].

(** Lines 53-57. *)
Definition create_presigned_url (v : vars) : list action :=
  [ Eval (aws_cmd v "create-presigned-notebook-instance-url") ].

(** Lines 77 and 83. *)
Definition describe_cmd (v : vars) : string :=
  aws_cmd v "describe-notebook-instance"
    +:+ " | egrep --color=always '^.*NotebookInstanceStatus.*$|$'".

Definition prompt : string :=
  "Press any key to watch... (while watching, press ^C to stop watching)".

(** Lines 3-5: the variables before the arguments are read. *)
Definition initial (env_nb_name : string) : vars := Vars [] 0 1 env_nb_name.

(** Lines 62-74: the task, chosen by the name of the script. *)
Definition task (name : string) (v : vars) : list action :=
  if contains "start" name then
    Echo ("Starting " +:+ NB_NAME v) :: start_smnb v
  else if contains "stop" name then
    Echo ("Stopping " +:+ NB_NAME v) :: stop_smnb v
  else [Echo "Unknown task"].

(** Lines 77-85: the status, once or under [watch]. *)
Definition show_status (v : vars) : list action :=
  if WATCH v <? 1 then [Eval (describe_cmd v)]
  else [Echo EmptyString; Read prompt; Watch 30 (describe_cmd v)].

(** The script, lines 59-87. *)
Definition main (name : string) (args : list string) (env_nb_name : string)
    (watch_returns : bool) : list action * ending :=
  match parse_args name args (initial env_nb_name) with
  | (out, inl status) => (out, Exit status)
  | (out, inr v) =>
      if bool_decide (NB_NAME v = EmptyString) then (out, Exit 0)
      else if negb (WATCH v <? 1) && negb watch_returns then
        (out ++ task name v ++ show_status v, Interrupted)
      else if contains "start" name then
        (out ++ task name v ++ show_status v ++ create_presigned_url v,
         EndWithStatusOf (aws_cmd v "create-presigned-notebook-instance-url"))
      else (out ++ task name v ++ show_status v, End 1)
  end.

(** ** Reading the command line *)

Definition is_help (key : string) : bool :=
  bool_decide (key = "-h") || bool_decide (key = "--help").

Definition is_no_watch (key : string) : bool :=
  bool_decide (key = "-n") || bool_decide (key = "--no-watch").

Definition is_separator (key : string) : bool := bool_decide (key = "--").

(** The arguments before the first [--], and those after it. *)
Fixpoint before_separator (args : list string) : list string :=
  match args with
  | [] => []
  | key :: rest =>
      if is_separator key then [] else key :: before_separator rest
  end.

Fixpoint after_separator (args : list string) : list string :=
  match args with
  | [] => []
  | key :: rest => if is_separator key then rest else after_separator rest
  end.

(** Before the separator: an option for aws starts with a dash and is not
    a flag of the script; anything else is a notebook name. *)
Definition is_option (key : string) : bool :=
  String.prefix "-" key && negb (is_no_watch key).

Definition is_name (key : string) : bool := negb (String.prefix "-" key).

(** After the separator: everything but the script's flags and further
    separators is for aws. *)
Definition is_passed (key : string) : bool :=
  negb (is_no_watch key) && negb (is_separator key).

(** The variables after a command line without a help flag. *)
Definition parsed (args : list string) (env_nb_name : string) : vars :=
  Vars (flat_map words (List.filter is_option (before_separator args))
          ++ flat_map words (List.filter is_passed (after_separator args)))
       (if existsb is_separator args then 1 else 0)
       (if existsb is_no_watch args then 0 else 1)
       (default env_nb_name (last (List.filter is_name (before_separator args)))).

End Smnb.

(** * Properties *)

Import Cell.

(** ** The monad *)

Lemma bind_inv {A B} (m : M A) (k : A → M B) tr r :
  m ≫= k = (tr, r) →
  (∃ e, m = (tr, inl e) ∧ r = inl e) ∨
  (∃ t1 a t2, m = (t1, inr a) ∧ k a = (t2, r) ∧ tr = t1 ++ t2).
Proof.
  unfold mbind, M_bind, bind. destruct m as [t [e|a]].
  - intros [= <- <-]. left. by exists e.
  - destruct (k a) as [t' r'] eqn:Hk. intros [= <- <-].
    right. by exists t, a, t'.
Qed.

Lemma bind_ok {A B} (m : M A) (k : A → M B) t a :
  m = (t, inr a) → m ≫= k = (t ++ (k a).1, (k a).2).
Proof. intros ->. unfold mbind, M_bind, bind. by destruct (k a). Qed.

Lemma bind_fail {A B} (m : M A) (k : A → M B) t e :
  m = (t, inl e) → m ≫= k = (t, inl e).
Proof. by intros ->. Qed.

Lemma bind_ret {A B} (a : A) (k : A → M B) : ret a ≫= k = k a.
Proof. unfold mbind, M_bind, bind, ret. by destruct (k a). Qed.

Lemma bind_raise {A B} e line (k : A → M B) : raise e line ≫= k = raise e line.
Proof. done. Qed.

Ltac inv_bind H :=
  let e := fresh "e" in let t1 := fresh "t" in let a := fresh "a" in
  let t2 := fresh "t" in let Hm := fresh "Hm" in let Hk := fresh "Hk" in
  let Hr := fresh "Hr" in let Ht := fresh "Ht" in
  apply bind_inv in H as [(e & Hm & Hr) | (t1 & a & t2 & Hm & Hk & Ht)];
  [ first [discriminate Hr | injection Hr as <- | subst] | try subst ].

Ltac msimpl :=
  cbv [mbind M_bind mret M_ret bind ret raise emit]; simpl.

(** ** Images *)

Lemma draw_all_nil im : draw_all im [] = im.
Proof. destruct im. unfold draw_all. simpl. by rewrite app_nil_r. Qed.

Lemma draw_all_app im ss1 ss2 :
  draw_all (draw_all im ss1) ss2 = draw_all im (ss1 ++ ss2).
Proof. unfold draw_all. simpl. by rewrite app_assoc. Qed.

Lemma rectangles_app img ss1 ss2 :
  rectangles img (ss1 ++ ss2)
  = rectangles img ss1 ++ rectangles (flip draw_all ss1 <$> img) ss2.
Proof. destruct img; simpl; [apply fmap_app | done]. Qed.

Lemma rectangles_in img ss ev :
  ev ∈ rectangles img ss → ∃ s, ev = EvRectangle s ∧ s ∈ ss.
Proof.
  destruct img as [im|]; simpl; [|by intros ?%elem_of_nil].
  intros (s & -> & Hs)%list_elem_of_fmap. by exists s.
Qed.

(** ** What the primitives can do *)

Lemma getitem_inv v key line tr r :
  getitem v key line = (tr, r) →
  tr = [] ∧
  ((∃ x, field v key = Some x ∧ r = inr x) ∨
   (field v key = None ∧ ∃ e, r = inl (Raised e line) ∧
      (e = KeyError key ∨ e = TypeError))).
Proof.
  unfold getitem, field.
  destruct v as [| | | | | |m]; try (intros [= <- <-]; split; eauto 10).
  destruct (m !! key) as [x|]; intros [= <- <-]; split; eauto 10.
Qed.

Lemma getitem_field v key line x :
  field v key = Some x → getitem v key line = ret x.
Proof.
  unfold getitem, field. destruct v as [| | | | | |m]; try done.
  by intros ->.
Qed.

Lemma iterate_inv v line tr r :
  iterate v line = (tr, r) →
  tr = [] ∧
  ((∃ l, elements v = Some l ∧ r = inr l) ∨
   (elements v = None ∧ r = inl (Raised TypeError line))).
Proof.
  unfold iterate, elements.
  destruct v; intros [= <- <-]; split; eauto.
Qed.

Lemma iterate_elements v line l :
  elements v = Some l → iterate v line = ret l.
Proof. unfold iterate, elements. destruct v; naive_solver. Qed.

Lemma py_add_inv a b line tr r :
  py_add a b line = (tr, r) →
  tr = [] ∧
  ((∃ v, r = inr v) ∨
   (∃ e, r = inl (Raised e line) ∧ (e = TypeError ∨ e = OverflowError))).
Proof.
  unfold py_add. intros H.
  repeat case_match; injection H as <- <-; split; eauto 10.
Qed.

Lemma py_add_int x b line y :
  as_int b = Some y → py_add (PInt x) b line = ret (PInt (x + y)).
Proof. destruct b; try done; by intros [= <-]. Qed.

(** An integer plus something is an integer only if that is one too. *)
Lemma py_add_int_inv x b line tr n :
  py_add (PInt x) b line = (tr, inr (PInt n)) →
  ∃ y, as_int b = Some y ∧ n = (x + y)%Z.
Proof.
  unfold py_add. simpl. intros H.
  destruct b; simpl in H; try done; try (injection H as _ <-; eauto).
  by case_match.
Qed.

Lemma list_setitem_mod3 n line :
  list_setitem [0; 0; 0]%Z (n mod 3)%Z 255%Z line
  = ret (<[Z.to_nat (n mod 3) := 255%Z]> [0; 0; 0]%Z).
Proof.
  unfold list_setitem. simpl length.
  assert (0 ≤ n mod 3 < 3)%Z by (apply Z.mod_pos_bound; lia).
  rewrite bool_decide_eq_true_2; [done | lia].
Qed.

Lemma bbox_color_int cid c :
  as_int cid = Some c →
  bbox_color cid = ret (<[Z.to_nat (c mod 3) := 255%Z]> [0; 0; 0]%Z).
Proof.
  destruct cid; try done; intros [= <-]; apply list_setitem_mod3.
Qed.

Lemma bbox_color_inv cid tr r :
  bbox_color cid = (tr, r) →
  tr = [] ∧
  ((∃ c, as_int cid = Some c ∧
         r = inr (<[Z.to_nat (c mod 3) := 255%Z]> [0; 0; 0]%Z)) ∨
   (as_int cid = None ∧ ∃ e, r = inl (Raised e 84))).
Proof.
  destruct cid as [|b|n| | | |]; simpl;
    try (intros [= <- <-]; split; [done|]; right; eauto).
  - rewrite list_setitem_mod3. intros [= <- <-]. split; [done|]. left. eauto.
  - rewrite list_setitem_mod3. intros [= <- <-]. split; [done|]. left. eauto.
Qed.

Lemma to_int32_inv v n :
  to_int32 v = Some n → v = PInt n ∧ int32 n = true.
Proof.
  destruct v; try done. simpl. case_match eqn:Hn; [|done].
  by intros [= <-].
Qed.

Lemma to_point_inv p q :
  to_point p = Some q →
  p = (PInt q.1, PInt q.2) ∧ int32 q.1 = true ∧ int32 q.2 = true.
Proof.
  unfold to_point. destruct p as [x y]. simpl.
  destruct (to_int32 x) as [n|] eqn:Hx; [|done].
  destruct (to_int32 y) as [k|] eqn:Hy; [|done].
  intros [= <-]. simpl.
  apply to_int32_inv in Hx as [-> ?]. apply to_int32_inv in Hy as [-> ?].
  done.
Qed.

Lemma to_point_ints x y :
  int32 x = true → int32 y = true → to_point (PInt x, PInt y) = Some (x, y).
Proof. unfold to_point. simpl. by intros -> ->. Qed.

Lemma rectangle_inv img p1 p2 col th line tr r :
  rectangle img p1 p2 col th line = (tr, r) →
  (∃ q1 q2, to_point p1 = Some q1 ∧ to_point p2 = Some q2 ∧
            tr = rectangles img [Shape q1 q2 col th] ∧
            r = inr (flip draw_all [Shape q1 q2 col th] <$> img)) ∨
  ((to_point p1 = None ∨ to_point p2 = None) ∧ tr = [] ∧
   r = inl (Raised CvError line)).
Proof.
  unfold rectangle.
  destruct (to_point p1) as [q1|], (to_point p2) as [q2|];
    try (intros [= <- <-]; right; eauto).
  destruct img as [im|]; intros [= <- <-]; left; by exists q1, q2.
Qed.

(** ** One box *)

Lemma box_shape_inv b s :
  box_shape b = Some s →
  ∃ left top vw width vh height vc cid,
    field b "left" = Some (PInt left) ∧ field b "top" = Some (PInt top) ∧
    field b "width" = Some vw ∧ as_int vw = Some width ∧
    field b "height" = Some vh ∧ as_int vh = Some height ∧
    field b "class_id" = Some vc ∧ as_int vc = Some cid ∧
    int32 left = true ∧ int32 top = true ∧
    int32 (left + width) = true ∧ int32 (top + height) = true ∧
    s = Shape (left, top) (left + width, top + height)%Z
              (<[Z.to_nat (cid mod 3) := 255%Z]> [0; 0; 0]%Z) 2.
Proof.
  unfold box_shape. intros H.
  destruct (field b "left") as [[| |left| | | |]|]; try done.
  destruct (field b "top") as [[| |top| | | |]|]; try done.
  destruct (field b "width") as [vw|]; [|done]. simpl in H.
  destruct (as_int vw) as [width|] eqn:Hw; [|done].
  destruct (field b "height") as [vh|]; [|done]. simpl in H.
  destruct (as_int vh) as [height|] eqn:Hh; [|done].
  destruct (field b "class_id") as [vc|]; [|done]. simpl in H.
  destruct (as_int vc) as [cid|] eqn:Hc; [|done]. simpl in H.
  destruct (int32 left) eqn:H1; [|done].
  destruct (int32 top) eqn:H2; [|done].
  destruct (int32 (left + width)) eqn:H3; [|done].
  destruct (int32 (top + height)) eqn:H4; [|done].
  injection H as <-.
  by exists left, top, vw, width, vh, height, vc, cid.
Qed.

Lemma box_shape_intro b left top vw width vh height vc cid :
  field b "left" = Some (PInt left) → field b "top" = Some (PInt top) →
  field b "width" = Some vw → as_int vw = Some width →
  field b "height" = Some vh → as_int vh = Some height →
  field b "class_id" = Some vc → as_int vc = Some cid →
  int32 left = true → int32 top = true →
  int32 (left + width) = true → int32 (top + height) = true →
  box_shape b =
  Some (Shape (left, top) (left + width, top + height)%Z
              (<[Z.to_nat (cid mod 3) := 255%Z]> [0; 0; 0]%Z) 2).
Proof.
  intros Hl Ht Hw Hw' Hh Hh' Hc Hc' H1 H2 H3 H4. unfold box_shape.
  rewrite Hl, Ht, Hw, Hh, Hc. simpl. rewrite Hw', Hh', Hc'. simpl.
  by rewrite H1, H2, H3, H4.
Qed.

(** A box that has a rectangle gets it drawn, if there is an image. *)
Lemma draw_bbox_shape img b s :
  box_shape b = Some s →
  draw_bbox img b = (rectangles img [s], inr (flip draw_all [s] <$> img)).
Proof.
  intros (left & top & vw & width & vh & height & vc & cid
          & Hl & Ht & Hw & Hw' & Hh & Hh' & Hc & Hc'
          & H1 & H2 & H3 & H4 & ->)%box_shape_inv.
  unfold draw_bbox.
  rewrite (getitem_field _ _ _ _ Hl), bind_ret.
  rewrite (getitem_field _ _ _ _ Ht), bind_ret.
  rewrite (getitem_field _ _ _ _ Hw), bind_ret.
  rewrite (py_add_int _ _ _ _ Hw'), bind_ret.
  rewrite (getitem_field _ _ _ _ Hh), bind_ret.
  rewrite (py_add_int _ _ _ _ Hh'), bind_ret.
  rewrite (getitem_field _ _ _ _ Hc), bind_ret.
  rewrite (bbox_color_int _ _ Hc'), bind_ret.
  unfold rectangle. rewrite !to_point_ints by done.
  by destruct img.
Qed.

(** A box that has none stops the run, whether or not there is an image:
    at the line that misses a key, adds, computes the colour or calls
    [cv2.rectangle]. *)
Lemma draw_bbox_inv img b tr r :
  draw_bbox img b = (tr, r) →
  (∃ s, box_shape b = Some s ∧ tr = rectangles img [s] ∧
        r = inr (flip draw_all [s] <$> img)) ∨
  (box_shape b = None ∧ tr = [] ∧
   ∃ e, r = inl e ∧
     ((∃ key, key ∈ box_keys ∧ field b key = None ∧
              line_of e = key_line key ∧
              (exc_of e = KeyError key ∨ exc_of e = TypeError)) ∨
      (line_of e = 79 ∧ (exc_of e = TypeError ∨ exc_of e = OverflowError)) ∨
      (line_of e = 84 ∧ ∃ vc, field b "class_id" = Some vc ∧
                              as_int vc = None) ∨
      (e = Raised CvError 85 ∧
       ∃ vl vt vw vh vc cid,
         field b "left" = Some vl ∧ field b "top" = Some vt ∧
         field b "width" = Some vw ∧ field b "height" = Some vh ∧
         field b "class_id" = Some vc ∧ as_int vc = Some cid))).
Proof.
  destruct (box_shape b) as [s|] eqn:Hs.
  { rewrite (draw_bbox_shape img b s Hs). intros [= <- <-]. left. eauto. }
  intros H. right. split; [done|]. unfold draw_bbox in H.
  (* left *)
  apply bind_inv in H as [(e & Hm & ->) | (? & vl & ? & Hm & H & ->)];
    apply getitem_inv in Hm as [-> [(? & Hl & [= <-]) | (Hl & ? & [=] & Hx)]];
    subst.
  { split; [done|]. eexists. split; [done|]. left. exists "left".
    split; [compute_done|]. do 2 (split; [done|]). simpl. tauto. }
  (* top *)
  apply bind_inv in H as [(e & Hm & ->) | (? & vt & ? & Hm & H & ->)];
    apply getitem_inv in Hm as [-> [(? & Ht & [= <-]) | (Ht & ? & [=] & Hx)]];
    subst.
  { split; [done|]. eexists. split; [done|]. left. exists "top".
    split; [compute_done|]. do 2 (split; [done|]). simpl. tauto. }
  (* width *)
  apply bind_inv in H as [(e & Hm & ->) | (? & vw & ? & Hm & H & ->)];
    apply getitem_inv in Hm as [-> [(? & Hw & [= <-]) | (Hw & ? & [=] & Hx)]];
    subst.
  { split; [done|]. eexists. split; [done|]. left. exists "width".
    split; [compute_done|]. do 2 (split; [done|]). simpl. tauto. }
  (* x_max *)
  apply bind_inv in H as [(e & Hm & ->) | (? & x_max & ? & Hm & H & ->)].
  { apply py_add_inv in Hm as [-> [[? [=]] | (? & [= ->] & Hx)]].
    split; [done|]. eexists. split; [done|]. right; left. by split. }
  pose proof Hm as Hxmax. apply py_add_inv in Hm as [-> _].
  (* height *)
  apply bind_inv in H as [(e & Hm & ->) | (? & vh & ? & Hm & H & ->)];
    apply getitem_inv in Hm as [-> [(? & Hh & [= <-]) | (Hh & ? & [=] & Hx)]];
    subst.
  { split; [done|]. eexists. split; [done|]. left. exists "height".
    split; [compute_done|]. do 2 (split; [done|]). simpl. tauto. }
  (* y_max *)
  apply bind_inv in H as [(e & Hm & ->) | (? & y_max & ? & Hm & H & ->)].
  { apply py_add_inv in Hm as [-> [[? [=]] | (? & [= ->] & Hx)]].
    split; [done|]. eexists. split; [done|]. right; left. by split. }
  pose proof Hm as Hymax. apply py_add_inv in Hm as [-> _].
  (* class_id *)
  apply bind_inv in H as [(e & Hm & ->) | (? & vc & ? & Hm & H & ->)];
    apply getitem_inv in Hm as [-> [(? & Hc & [= <-]) | (Hc & ? & [=] & Hx)]];
    subst.
  { split; [done|]. eexists. split; [done|]. left. exists "class_id".
    split; [compute_done|]. do 2 (split; [done|]). simpl. tauto. }
  (* colour *)
  apply bind_inv in H as [(e & Hm & ->) | (? & col & ? & Hm & H & ->)].
  { apply bbox_color_inv in Hm as [-> [(? & _ & [=]) | (Hci & ? & [= ->])]].
    split; [done|]. eexists. split; [done|]. right; right; left.
    split; [done|]. by exists vc. }
  apply bbox_color_inv in Hm as [-> [(cid & Hci & [= ->]) | (_ & ? & [=])]].
  (* rectangle *)
  apply rectangle_inv in H
    as [(q1 & q2 & Hq1 & Hq2 & _ & _) | (_ & -> & ->)].
  - exfalso.
    apply to_point_inv in Hq1 as ([= -> ->] & H1 & H2).
    apply to_point_inv in Hq2 as ([= -> ->] & H3 & H4).
    apply py_add_int_inv in Hxmax as (width & Hw' & Hx).
    apply py_add_int_inv in Hymax as (height & Hh' & Hy).
    rewrite Hx in H3. rewrite Hy in H4.
    by rewrite (box_shape_intro b _ _ _ _ _ _ _ _ Hl Ht Hw Hw' Hh Hh' Hc Hci
                  H1 H2 H3 H4) in Hs.
  - split; [done|]. eexists. split; [done|]. do 3 right.
    split; [done|]. by exists vl, vt, vw, vh, vc, cid.
Qed.

Lemma key_line_cases key :
  key ∈ box_keys → key_line key = 78 ∨ key_line key = 79 ∨ key_line key = 82.
Proof.
  intros Hin%list_elem_of_In. unfold box_keys in Hin. simpl in Hin.
  destruct Hin as [<-|[<-|[<-|[<-|[<-|[]]]]]]; vm_compute; auto.
Qed.

Lemma draw_bbox_fail_line img b tr e :
  draw_bbox img b = (tr, inl e) →
  tr = [] ∧ box_shape b = None ∧ line_of e ∈ [78; 79; 82; 84; 85].
Proof.
  intros H. apply draw_bbox_inv in H
    as [(? & _ & _ & [=]) | (Hs & -> & e' & [= <-] & He)].
  do 2 (split; [done|]).
  destruct He as [(key & Hk & _ & -> & _) | [[-> _] | [[-> _] | [-> _]]]];
    [|compute_done..].
  destruct (key_line_cases _ Hk) as [-> | [-> | ->]]; compute_done.
Qed.

(** ** The boxes of a file *)

Lemma draw_bboxes_ok l img ss :
  mapM box_shape l = Some ss →
  draw_bboxes img l = (rectangles img ss, inr (flip draw_all ss <$> img)).
Proof.
  revert img ss. induction l as [|b l IH]; intros img ss Hss.
  - injection Hss as <-. simpl.
    destruct img as [im|]; simpl; [by rewrite draw_all_nil | done].
  - simpl in Hss. destruct (box_shape b) as [s|] eqn:Hs; [|done].
    destruct (mapM box_shape l) as [ss'|] eqn:Hl; [|done].
    injection Hss as <-. simpl.
    rewrite (bind_ok _ _ _ _ (draw_bbox_shape img b s Hs)).
    rewrite (IH _ ss' eq_refl). simpl.
    destruct img as [im|]; simpl; [by rewrite draw_all_app | done].
Qed.

Lemma draw_bboxes_inv l img tr r :
  draw_bboxes img l = (tr, r) →
  match r with
  | inr img' =>
      ∃ ss, mapM box_shape l = Some ss ∧ tr = rectangles img ss ∧
            img' = flip draw_all ss <$> img
  | inl e =>
      ∃ good b rest ss,
        l = good ++ b :: rest ∧ mapM box_shape good = Some ss ∧
        tr = rectangles img ss ∧
        draw_bbox (flip draw_all ss <$> img) b = ([], inl e)
  end.
Proof.
  revert img tr r. induction l as [|b l IH]; intros img tr r H; simpl in H.
  - injection H as <- <-. exists []. split; [done|].
    destruct img as [im|]; simpl; [by rewrite draw_all_nil | done].
  - inv_bind H.
    + pose proof Hm as Hf. apply draw_bbox_fail_line in Hf as (-> & _ & _).
      exists [], b, l, []. split; [done|]. split; [done|].
      split; [by destruct img|].
      destruct img as [im|]; simpl; [by rewrite draw_all_nil | done].
    + apply draw_bbox_inv in Hm
        as [(s & Hs & -> & [= ->]) | (_ & _ & ? & [=] & _)].
      apply IH in Hk. destruct r as [e|img'].
      * destruct Hk as (good & b' & rest & ss & -> & Hg & -> & Hd).
        exists (b :: good), b', rest, (s :: ss).
        split; [done|]. split; [simpl; by rewrite Hs, Hg|].
        split; [by destruct img|].
        destruct img as [im|]; simpl in *; [by rewrite draw_all_app in Hd | done].
      * destruct Hk as (ss & Hss & -> & ->). exists (s :: ss).
        split; [simpl; by rewrite Hs, Hss|].
        split; [by destruct img|].
        destruct img as [im|]; simpl; [by rewrite draw_all_app | done].
Qed.

(** ** The stages of the loop body *)

Lemma lookup_os ns line :
  lookup_name ns "os" line =
  if bool_decide ("os" ∈ ns) then ret tt else raise (NameError "os") line.
Proof.
  unfold lookup_name.
  replace (bool_decide ("os" ∈ cell_names)) with false by (by vm_compute).
  by rewrite orb_false_r.
Qed.

Lemma file_of_inv d file :
  file_of d = Some file → field d "file" = Some (PStr file).
Proof.
  unfold file_of. destruct (field d "file") as [[| | | |s| |]|]; try done.
  by intros [= ->].
Qed.

Lemma annotation_of_inv w f d :
  annotation_of w f = Some d → ∃ p, objects w !! f = Some (Bytes (Parses d) p).
Proof.
  unfold annotation_of.
  destruct (objects w !! f) as [[|[k|d'] p]|]; try done.
  intros [= ->]. by exists p.
Qed.

Lemma fs_cat_inv w line path tr r :
  fs_cat w line path = (tr, r) →
  tr = [EvCat line path] ∧
  ((objects w !! path = None ∧ r = inl (Raised FileNotFoundError line)) ∨
   (∃ b, objects w !! path = Some b ∧ r = inr b)).
Proof.
  unfold fs_cat. destruct (objects w !! path) as [b|];
    msimpl; intros [= <- <-]; eauto.
Qed.

Lemma fs_cat_ok w line path b :
  objects w !! path = Some b → fs_cat w line path = ([EvCat line path], inr b).
Proof. intros Ho. unfold fs_cat. rewrite Ho. by msimpl. Qed.

Lemma path_join_inv a v line tr r :
  path_join a v line = (tr, r) →
  tr = [] ∧
  ((∃ b, v = PStr b ∧ r = inr (posix_join a b)) ∨
   ((∀ b, v ≠ PStr b) ∧ r = inl (Raised TypeError line))).
Proof.
  destruct v; intros [= <- <-]; (split; [done|]); eauto.
Qed.

Lemma open_annotation_ok ns w f d file :
  "os" ∈ ns → annotation_of w f = Some d → file_of d = Some file →
  open_annotation ns w f = ([EvCat 66 f], inr (d, posix_join img_path file)).
Proof.
  intros Hos (p & Ho)%annotation_of_inv Hf%file_of_inv.
  unfold open_annotation.
  rewrite (bind_ok _ _ _ _ (fs_cat_ok _ _ _ _ Ho)).
  change (json_loads (Bytes (Parses d) p) 66) with (@ret pyval d).
  rewrite bind_ret, lookup_os, bool_decide_eq_true_2, bind_ret by done.
  rewrite (getitem_field _ _ _ _ Hf), bind_ret. by msimpl.
Qed.

(** Lines 66-70 either stop the file, having read it and nothing else, or
    give the annotation and the path of its image. *)
Lemma open_annotation_inv ns w f tr r :
  open_annotation ns w f = (tr, r) →
  tr = [EvCat 66 f] ∧
  match r with
  | inl e =>
      (objects w !! f = None ∧ e = Raised FileNotFoundError 66) ∨
      (objects w !! f = Some Empty ∧ e = Raised JSONDecodeError 66) ∨
      (∃ why p, objects w !! f = Some (Bytes (Fails why) p) ∧
                e = Raised (loads_exc why) 66) ∨
      (∃ d, annotation_of w f = Some d ∧
            ((("os" ∉ ns) ∧ e = Raised (NameError "os") 70) ∨
             ("os" ∈ ns ∧ file_of d = None ∧ line_of e = 70 ∧
              ((field d "file" = None ∧
                (exc_of e = KeyError "file" ∨ exc_of e = TypeError)) ∨
               (is_Some (field d "file") ∧ exc_of e = TypeError)))))
  | inr (d, img_fname) =>
      ∃ file, "os" ∈ ns ∧ annotation_of w f = Some d ∧
              file_of d = Some file ∧ img_fname = posix_join img_path file
  end.
Proof.
  unfold open_annotation. rewrite lookup_os. intros H.
  apply bind_inv in H as [(e & Hm & ->) | (? & raw & t & Hm & H & ->)];
    apply fs_cat_inv in Hm as [-> [[Ho [=]] | (? & Ho & [= <-])]]; subst.
  { split; [done|]. by left. }
  destruct raw as [|[why|d] p].
  { injection H as <- <-. split; [done|]. right; left. done. }
  { injection H as <- <-. split; [done|]. right; right; left. eauto. }
  assert (annotation_of w f = Some d) as Hd
    by (unfold annotation_of; by rewrite Ho).
  change (json_loads (Bytes (Parses d) p) 66) with (@ret pyval d) in H.
  rewrite bind_ret in H. case_bool_decide as Hos.
  2:{ injection H as <- <-. split; [done|]. do 3 right. exists d.
      split; [done|]. by left. }
  rewrite bind_ret in H.
  apply bind_inv in H as [(e & Hm & ->) | (? & v & ? & Hm & H & ->)];
    apply getitem_inv in Hm as [-> [(? & Hv & [= <-]) | (Hv & ? & [=] & Hx)]];
    subst.
  { split; [done|]. do 3 right. exists d. split; [done|]. right.
    split; [done|]. unfold file_of. rewrite Hv. do 2 (split; [done|]).
    left. split; [done|]. simpl. tauto. }
  apply bind_inv in H as [(e & Hm & ->) | (? & path & ? & Hm & H & ->)];
    apply path_join_inv in Hm as [-> [(file & -> & [=]) | (Hv' & [=])]];
    subst.
  { split; [done|]. do 3 right. exists d. split; [done|]. right.
    split; [done|]. unfold file_of. rewrite Hv.
    split; [destruct v; try done; by destruct (Hv' s)|].
    split; [done|]. right. by split. }
  injection H as <- <-. split; [done|]. exists file.
  do 2 (split; [done|]). unfold file_of. by rewrite Hv.
Qed.

Lemma load_image_inv w path tr r :
  load_image w path = (tr, r) →
  tr = [EvCat 71 path] ∧
  ((objects w !! path = None ∧ r = inl (Raised FileNotFoundError 71)) ∨
   (objects w !! path = Some Empty ∧ r = inl (Raised CvError 73)) ∨
   (∃ j pic, objects w !! path = Some (Bytes j pic) ∧ r = inr (decoded pic))).
Proof.
  unfold load_image, fs_cat, imdecode.
  destruct (objects w !! path) as [[|j [p|]]|] eqn:Ho;
    msimpl; intros [= <- <-]; (split; [done|]); eauto 10.
Qed.

Lemma load_image_bytes w path j pic :
  objects w !! path = Some (Bytes j pic) →
  load_image w path = ([EvCat 71 path], inr (decoded pic)).
Proof.
  intros Ho. unfold load_image, fs_cat. rewrite Ho. by destruct pic.
Qed.

Lemma load_image_empty w path :
  objects w !! path = Some Empty →
  load_image w path = ([EvCat 71 path], inl (Raised CvError 73)).
Proof. intros Ho. unfold load_image, fs_cat. rewrite Ho. by msimpl. Qed.

Lemma load_image_missing w path :
  objects w !! path = None →
  load_image w path = ([EvCat 71 path], inl (Raised FileNotFoundError 71)).
Proof. intros Ho. unfold load_image, fs_cat. rewrite Ho. by msimpl. Qed.

Lemma draw_annotations_boxes d img l :
  boxes_of d = Some l → draw_annotations d img = draw_bboxes img l.
Proof.
  unfold boxes_of, draw_annotations.
  destruct (field d "annotations") as [v|] eqn:Hv; [|done]. simpl.
  intros Hl. rewrite (getitem_field _ _ _ _ Hv), bind_ret.
  by rewrite (iterate_elements _ _ _ Hl), bind_ret.
Qed.

Lemma draw_annotations_inv d img tr r :
  draw_annotations d img = (tr, r) →
  (boxes_of d = None ∧ tr = [] ∧ ∃ x, r = inl (Raised x 76)) ∨
  (∃ l, boxes_of d = Some l ∧ draw_bboxes img l = (tr, r)).
Proof.
  destruct (boxes_of d) as [l|] eqn:Hb.
  { rewrite (draw_annotations_boxes _ _ _ Hb). right. eauto. }
  unfold draw_annotations, boxes_of in *. intros H. left. split; [done|].
  apply bind_inv in H as [(e & Hm & ->) | (? & v & ? & Hm & H & ->)];
    apply getitem_inv in Hm as [-> [(? & Hv & [= <-]) | (Hv & ? & [=] & Hx)]];
    subst; [eauto|].
  rewrite Hv in Hb. simpl in Hb.
  apply bind_inv in H as [(e & Hm & ->) | (? & l & ? & Hm & H & ->)];
    apply iterate_inv in Hm as [-> [(? & Hl & [= <-]) | (Hl & [=])]];
    subst; [eauto|]. by rewrite Hl in Hb.
Qed.

Lemma place_inv ax i img_fname img tr r :
  place ax i img_fname img = (tr, r) →
  (tr = [] ∧ ∃ x, r = inl (Raised x 89) ∧ (x = TypeError ∨ x = IndexError) ∧
   (x = TypeError → ax = AxSingle ∨ ∃ n, ax = AxVector n)) ∨
  (∃ nr nc, ax = AxGrid nr nc ∧ (cell_of i).1 < nr ∧ (cell_of i).2 < nc ∧
     ((img = None ∧ tr = [EvSetTitle (cell_of i) (caption i img_fname)] ∧
       r = inl (Raised TypeError 91)) ∨
      (∃ im, img = Some im ∧
             tr = [EvSetTitle (cell_of i) (caption i img_fname);
                   EvImshow (cell_of i) im] ∧ r = inr tt))).
Proof.
  unfold place, ax_getitem2, set_title, imshow.
  destruct (cell_of i) as [row col] eqn:Hc. simpl.
  destruct ax as [|n|nr nc].
  - msimpl. intros [= <- <-]. left. eauto 10.
  - destruct (row <? n); msimpl; intros [= <- <-]; left;
      (split; [done|]); eexists; (split; [done|]); naive_solver.
  - destruct (row <? nr) eqn:Hr, (col <? nc) eqn:Hcl; msimpl.
    2-4: intros [= <- <-]; left; (split; [done|]); eexists;
         (split; [done|]); naive_solver.
    apply Nat.ltb_lt in Hr, Hcl.
    destruct img as [im|]; msimpl; intros [= <- <-]; right;
      exists nr, nc; eauto 10.
Qed.

Lemma place_grid_ok nr nc i path im :
  (cell_of i).1 < nr → (cell_of i).2 < nc →
  place (AxGrid nr nc) i path (Some im) =
  ([EvSetTitle (cell_of i) (caption i path); EvImshow (cell_of i) im],
   inr tt).
Proof.
  unfold place, ax_getitem2. destruct (cell_of i) as [row col]. simpl.
  intros Hr%Nat.ltb_lt Hc%Nat.ltb_lt. rewrite Hr, Hc. by msimpl.
Qed.

Lemma place_null_grid nr nc i path :
  (cell_of i).1 < nr → (cell_of i).2 < nc →
  place (AxGrid nr nc) i path None =
  ([EvSetTitle (cell_of i) (caption i path)], inl (Raised TypeError 91)).
Proof.
  unfold place, ax_getitem2. destruct (cell_of i) as [row col]. simpl.
  intros Hr%Nat.ltb_lt Hc%Nat.ltb_lt. rewrite Hr, Hc. by msimpl.
Qed.

(** ** The loop body *)

Lemma plot_file_open_fail ns w ax i f tr e :
  open_annotation ns w f = (tr, inl e) →
  plot_file ns w ax i f = (tr, inl e).
Proof. intros H. unfold plot_file. by rewrite (bind_fail _ _ _ _ H). Qed.

Lemma plot_file_opened ns w ax i f d file :
  "os" ∈ ns → annotation_of w f = Some d → file_of d = Some file →
  plot_file ns w ax i f =
  let path := posix_join img_path file in
  let rest := img ← load_image w path;
              img ← draw_annotations d img;
              place ax i path img in
  (EvCat 66 f :: rest.1, rest.2).
Proof.
  intros Hos Hd Hf. unfold plot_file.
  by rewrite (bind_ok _ _ _ _ (open_annotation_ok _ _ _ _ _ Hos Hd Hf)).
Qed.

Lemma plot_file_outcome ns w ax i f tr r :
  plot_file ns w ax i f = (tr, r) → outcome ns w ax i f tr r.
Proof.
  unfold plot_file. intros H.
  inv_bind H.
  { pose proof Hm as Ho. apply open_annotation_inv in Ho as [-> _].
    by apply NotOpened. }
  destruct a as [d path].
  apply open_annotation_inv in Hm as [-> (file & Hos & Hd & Hf & ->)].
  inv_bind Hk.
  { pose proof Hm as Ho. apply load_image_inv in Ho as [-> _].
    by eapply NotLoaded. }
  apply load_image_inv in Hm
    as [-> [[_ [=]] | [[_ [=]] | (j & pic & Hi & [= ->])]]].
  inv_bind Hk0.
  { apply draw_annotations_inv in Hm
      as [(Hb & -> & x & [= ->]) | (l & Hb & Hdr)].
    - by eapply NoBoxes.
    - apply draw_bboxes_inv in Hdr
        as (good & b & rest & ss & -> & Hg & -> & Hdb).
      by eapply BadBox. }
  apply draw_annotations_inv in Hm
    as [(_ & _ & x & [=]) | (l & Hb & Hdr)].
  apply draw_bboxes_inv in Hdr as (ss & Hss & -> & ->).
  simpl. by eapply Drawn.
Qed.

(** ** What a trace shows *)

Lemma shown_app t1 t2 : shown (t1 ++ t2) = shown t1 ++ shown t2.
Proof. apply omap_app. Qed.

Lemma captions_app t1 t2 : captions (t1 ++ t2) = captions t1 ++ captions t2.
Proof. apply omap_app. Qed.

Lemma reads_app t1 t2 : reads (t1 ++ t2) = reads t1 ++ reads t2.
Proof. apply omap_app. Qed.

Lemma omap_rectangles {A} (g : event → option A) img ss :
  (∀ s, g (EvRectangle s) = None) → omap g (rectangles img ss) = [].
Proof.
  intros Hg. destruct img as [im|]; [|done]. simpl.
  induction ss as [|s ss IH]; [done|]. simpl. by rewrite Hg.
Qed.

Lemma shown_rectangles img ss : shown (rectangles img ss) = [].
Proof. by apply omap_rectangles. Qed.

Lemma captions_rectangles img ss : captions (rectangles img ss) = [].
Proof. by apply omap_rectangles. Qed.

Lemma reads_rectangles img ss : reads (rectangles img ss) = [].
Proof. by apply omap_rectangles. Qed.

Lemma shown_drawn ss : shown (EvRectangle <$> ss) = [].
Proof. apply (shown_rectangles (Some (Image 0 0 0 [])) ss). Qed.

Lemma captions_drawn ss : captions (EvRectangle <$> ss) = [].
Proof. apply (captions_rectangles (Some (Image 0 0 0 [])) ss). Qed.

Lemma reads_drawn ss : reads (EvRectangle <$> ss) = [].
Proof. apply (reads_rectangles (Some (Image 0 0 0 [])) ss). Qed.

Lemma shown_in tr x : x ∈ shown tr ↔ EvImshow x.1 x.2 ∈ tr.
Proof.
  destruct x as [cell im]. unfold shown. rewrite list_elem_of_omap. split.
  - intros (ev & Hin & Hev). destruct ev; try done.
    by simplify_eq.
  - intros Hin. by exists (EvImshow cell im).
Qed.

Lemma captions_in tr x : x ∈ captions tr ↔ EvSetTitle x.1 x.2 ∈ tr.
Proof.
  destruct x as [cell title]. unfold captions. rewrite list_elem_of_omap. split.
  - intros (ev & Hin & Hev). destruct ev; try done.
    by simplify_eq.
  - intros Hin. by exists (EvSetTitle cell title).
Qed.

Lemma mapM_in {A B} (g : A → option B) l ss s :
  mapM g l = Some ss → s ∈ ss → ∃ b, b ∈ l ∧ g b = Some s.
Proof.
  intros Hm Hs. apply mapM_Some_1 in Hm.
  destruct (proj1 (list_elem_of_lookup _ _) Hs) as [k Hk].
  destruct (Forall2_lookup_r _ _ _ _ _ Hm Hk) as (b & Hb & Hgb).
  exists b. split; [by eapply list_elem_of_lookup_2 | done].
Qed.

(** ** A file that is shown *)

Lemma picture_of_bytes w path j pic :
  objects w !! path = Some (Bytes j (Some pic)) → picture_of w path = Some pic.
Proof. unfold picture_of. by intros ->. Qed.

Lemma picture_of_inv w path pic :
  picture_of w path = Some pic →
  ∃ j, objects w !! path = Some (Bytes j (Some pic)).
Proof.
  unfold picture_of. destruct (objects w !! path) as [[|j [p|]]|]; try done.
  intros [= ->]. by exists j.
Qed.

(** The whole trace of an iteration that succeeds. *)
Lemma plot_file_ok_inv ns w ax i f t :
  plot_file ns w ax i f = (t, inr tt) →
  ∃ d file l pic ss nr nc,
    "os" ∈ ns ∧ annotation_of w f = Some d ∧ file_of d = Some file ∧
    boxes_of d = Some l ∧
    picture_of w (posix_join img_path file) = Some pic ∧
    mapM box_shape l = Some ss ∧
    ax = AxGrid nr nc ∧ (cell_of i).1 < nr ∧ (cell_of i).2 < nc ∧
    t = EvCat 66 f :: EvCat 71 (posix_join img_path file)
          :: (EvRectangle <$> ss)
          ++ [EvSetTitle (cell_of i) (caption i (posix_join img_path file));
              EvImshow (cell_of i)
                       (Image (pic_rows pic) (pic_cols pic) 3 ss)].
Proof.
  intros H%plot_file_outcome. inversion H as [| | | |d file j pic l ss t' r'
    Hos Hd Hf Hi Hb Hss Hp]; subst.
  apply place_inv in Hp
    as [(_ & ? & [=] & _) | (nr & nc & -> & Hr & Hc & Hp)].
  destruct Hp as [(_ & _ & [=]) | (im & Him & -> & _)].
  destruct pic as [p|]; [|done]. injection Him as <-.
  exists d, file, l, p, ss, nr, nc.
  do 4 (split; [done|]). split; [by eapply picture_of_bytes|].
  do 4 (split; [done|]). done.
Qed.

Lemma plot_file_ok ns w i f d file l pic ss nr nc :
  "os" ∈ ns → annotation_of w f = Some d → file_of d = Some file →
  boxes_of d = Some l →
  picture_of w (posix_join img_path file) = Some pic →
  mapM box_shape l = Some ss →
  (cell_of i).1 < nr → (cell_of i).2 < nc →
  plot_file ns w (AxGrid nr nc) i f =
  (EvCat 66 f :: EvCat 71 (posix_join img_path file)
     :: (EvRectangle <$> ss)
     ++ [EvSetTitle (cell_of i) (caption i (posix_join img_path file));
         EvImshow (cell_of i) (Image (pic_rows pic) (pic_cols pic) 3 ss)],
   inr tt).
Proof.
  intros Hos Hd Hf Hb (j & Hi)%picture_of_inv Hss Hr Hc.
  rewrite (plot_file_opened _ _ _ _ _ _ _ Hos Hd Hf). cbv zeta.
  rewrite (bind_ok _ _ _ _ (load_image_bytes _ _ _ _ Hi)).
  rewrite (draw_annotations_boxes _ _ _ Hb).
  rewrite (bind_ok _ _ _ _ (draw_bboxes_ok _ _ _ Hss)). simpl.
  by rewrite (place_grid_ok _ _ _ _ _ Hr Hc).
Qed.

(** What an iteration shows and captions: one image and one caption when
    it succeeds; no image and at most one caption when it fails. *)
Lemma shown_cat line path t : shown (EvCat line path :: t) = shown t.
Proof. done. Qed.

Lemma captions_cat line path t :
  captions (EvCat line path :: t) = captions t.
Proof. done. Qed.

Lemma plot_file_shown ns w ax i f t r :
  plot_file ns w ax i f = (t, r) →
  match r with
  | inr _ => ∃ x c, shown t = [x] ∧ captions t = [c]
  | inl _ => shown t = [] ∧ length (captions t) ≤ 1
  end.
Proof.
  destruct r as [e|[]].
  - intros H%plot_file_outcome.
    inversion H as [| | | |d file j pic l ss t' r' Hos Hd Hf Hi Hb Hss Hp];
      subst; rewrite ?shown_cat, ?captions_cat, ?shown_app, ?captions_app,
               ?shown_rectangles, ?captions_rectangles; simpl;
      try (split; [done | lia]).
    apply place_inv in Hp
      as [(-> & _) | (nr & nc & -> & Hr & Hc & Hp)]; [simpl; split; [done|lia]|].
    destruct Hp as [(_ & -> & _) | (im & _ & _ & [=])]. simpl. split; [done|lia].
  - intros (d & file & l & pic & ss & nr & nc & _ & _ & _ & _ & _ & _ & _
            & _ & _ & ->)%plot_file_ok_inv.
    rewrite !shown_cat, !captions_cat, shown_app, captions_app.
    rewrite shown_drawn, captions_drawn. simpl. eauto.
Qed.

(** Every caption of an iteration is that of its file and index. *)
Lemma plot_file_caption ns w ax i f t r cell title :
  plot_file ns w ax i f = (t, r) → EvSetTitle cell title ∈ t →
  ∃ d file nr nc,
    "os" ∈ ns ∧ annotation_of w f = Some d ∧ file_of d = Some file ∧
    ax = AxGrid nr nc ∧ (cell_of i).1 < nr ∧ (cell_of i).2 < nc ∧
    cell = cell_of i ∧ title = caption i (posix_join img_path file).
Proof.
  intros H%plot_file_outcome Hin.
  inversion H as [e Ho|d file e Hos Hd Hf Hl|d file j pic x Hos Hd Hf Hi Hb
                  |d file j pic good b rest ss e Hos Hd Hf Hi Hb Hg Hdb
                  |d file j pic l ss t' r' Hos Hd Hf Hi Hb Hss Hp]; subst.
  - by apply list_elem_of_singleton in Hin.
  - apply elem_of_cons in Hin as [[=]|Hin].
    by apply list_elem_of_singleton in Hin.
  - apply elem_of_cons in Hin as [[=]|Hin].
    by apply list_elem_of_singleton in Hin.
  - apply elem_of_cons in Hin as [[=]|Hin].
    apply elem_of_cons in Hin as [[=]|Hin].
    by apply rectangles_in in Hin as (? & [=] & _).
  - apply elem_of_cons in Hin as [[=]|Hin].
    apply elem_of_cons in Hin as [[=]|Hin].
    apply elem_of_app in Hin as [Hin|Hin];
      [by apply rectangles_in in Hin as (? & [=] & _)|].
    apply place_inv in Hp
      as [(-> & _) | (nr & nc & -> & Hr & Hc & Hp)];
      [by apply elem_of_nil in Hin|].
    exists d, file, nr, nc. do 6 (split; [done|]).
    destruct Hp as [(_ & -> & _) | (im & _ & -> & _)].
    + by apply list_elem_of_singleton in Hin as [= -> ->].
    + apply elem_of_cons in Hin as [[= -> ->]|Hin]; [done|].
      by apply list_elem_of_singleton in Hin.
Qed.

(** Every rectangle of an iteration is that of a box of its file. *)
Lemma plot_file_rectangle ns w ax i f t r s :
  plot_file ns w ax i f = (t, r) → EvRectangle s ∈ t →
  ∃ d l b, annotation_of w f = Some d ∧ boxes_of d = Some l ∧ b ∈ l ∧
           box_shape b = Some s.
Proof.
  intros H%plot_file_outcome Hin.
  inversion H as [e Ho|d file e Hos Hd Hf Hl|d file j pic x Hos Hd Hf Hi Hb
                  |d file j pic good b rest ss e Hos Hd Hf Hi Hb Hg Hdb
                  |d file j pic l ss t' r' Hos Hd Hf Hi Hb Hss Hp]; subst.
  - by apply list_elem_of_singleton in Hin.
  - apply elem_of_cons in Hin as [[=]|Hin].
    by apply list_elem_of_singleton in Hin.
  - apply elem_of_cons in Hin as [[=]|Hin].
    by apply list_elem_of_singleton in Hin.
  - apply elem_of_cons in Hin as [[=]|Hin].
    apply elem_of_cons in Hin as [[=]|Hin].
    apply rectangles_in in Hin as (? & [= <-] & Hs).
    destruct (mapM_in _ _ _ _ Hg Hs) as (b' & Hb' & Hbs).
    exists d, (good ++ b :: rest), b'. do 2 (split; [done|]).
    split; [|done]. apply elem_of_app. by left.
  - apply elem_of_cons in Hin as [[=]|Hin].
    apply elem_of_cons in Hin as [[=]|Hin].
    apply elem_of_app in Hin as [Hin|Hin].
    + apply rectangles_in in Hin as (? & [= <-] & Hs).
      destruct (mapM_in _ _ _ _ Hss Hs) as (b' & Hb' & Hbs).
      by exists d, l, b'.
    + apply place_inv in Hp
        as [(-> & _) | (nr & nc & -> & Hr & Hc & Hp)];
        [by apply elem_of_nil in Hin|].
      destruct Hp as [(_ & -> & _) | (im & _ & -> & _)].
      * by apply list_elem_of_singleton in Hin.
      * apply elem_of_cons in Hin as [[=]|Hin].
        by apply list_elem_of_singleton in Hin.
Qed.

(** Every request of an iteration is for its file or for the image it
    names. *)
Lemma plot_file_cat ns w ax i f t r line path :
  plot_file ns w ax i f = (t, r) → EvCat line path ∈ t →
  (line = 66 ∧ path = f) ∨
  (line = 71 ∧ ∃ d file, annotation_of w f = Some d ∧ file_of d = Some file ∧
                         path = posix_join img_path file).
Proof.
  intros H%plot_file_outcome Hin.
  inversion H as [e Ho|d file e Hos Hd Hf Hl|d file j pic x Hos Hd Hf Hi Hb
                  |d file j pic good b rest ss e Hos Hd Hf Hi Hb Hg Hdb
                  |d file j pic l ss t' r' Hos Hd Hf Hi Hb Hss Hp]; subst.
  - apply list_elem_of_singleton in Hin as [= -> ->]. by left.
  - apply elem_of_cons in Hin as [[= -> ->]|Hin]; [by left|].
    apply list_elem_of_singleton in Hin as [= -> ->].
    right. split; [done|]. by exists d, file.
  - apply elem_of_cons in Hin as [[= -> ->]|Hin]; [by left|].
    apply list_elem_of_singleton in Hin as [= -> ->].
    right. split; [done|]. by exists d, file.
  - apply elem_of_cons in Hin as [[= -> ->]|Hin]; [by left|].
    apply elem_of_cons in Hin as [[= -> ->]|Hin];
      [right; split; [done|]; by exists d, file|].
    by apply rectangles_in in Hin as (? & [=] & _).
  - apply elem_of_cons in Hin as [[= -> ->]|Hin]; [by left|].
    apply elem_of_cons in Hin as [[= -> ->]|Hin];
      [right; split; [done|]; by exists d, file|].
    apply elem_of_app in Hin as [Hin|Hin];
      [by apply rectangles_in in Hin as (? & [=] & _)|].
    apply place_inv in Hp
      as [(-> & _) | (nr & nc & -> & Hr & Hc & Hp)];
      [by apply elem_of_nil in Hin|].
    destruct Hp as [(_ & -> & _) | (im & _ & -> & _)].
    + by apply list_elem_of_singleton in Hin.
    + apply elem_of_cons in Hin as [[=]|Hin].
      by apply list_elem_of_singleton in Hin.
Qed.

Lemma plot_file_reads ns w ax i f tr r :
  plot_file ns w ax i f = (tr, r) → reads tr = [f].
Proof.
  intros H%plot_file_outcome.
  inversion H as [e Ho|d file e Hos Hd Hf Hl|d file j pic x Hos Hd Hf Hi Hb
                  |d file j pic good b rest ss e Hos Hd Hf Hi Hb Hg Hdb
                  |d file j pic l ss t' r' Hos Hd Hf Hi Hb Hss Hp]; subst;
    try done.
  - change (reads (EvCat 66 f :: EvCat 71 (posix_join img_path file)
                     :: rectangles (decoded pic) ss))
      with (f :: reads (rectangles (decoded pic) ss)).
    by rewrite reads_rectangles.
  - change (reads (EvCat 66 f :: EvCat 71 (posix_join img_path file)
                     :: rectangles (decoded pic) ss ++ t'))
      with (f :: reads (rectangles (decoded pic) ss ++ t')).
    rewrite reads_app, reads_rectangles. simpl. f_equal.
    apply place_inv in Hp
      as [(-> & _) | (nr & nc & -> & Hr & Hc & Hp)]; [done|].
    by destruct Hp as [(_ & -> & _) | (im & _ & -> & _)].
Qed.

(** ** The loop and the cell *)

Lemma plot_files_in ns w ax files i tr r ev :
  plot_files ns w ax i files = (tr, r) → ev ∈ tr →
  ∃ k f t' r', files !! k = Some f ∧
               plot_file ns w ax (i + k) f = (t', r') ∧ ev ∈ t'.
Proof.
  revert i tr r. induction files as [|f files IH]; intros i tr r H Hev.
  - injection H as <- <-. by apply elem_of_nil in Hev.
  - simpl in H. inv_bind H.
    + exists 0, f, tr, (inl e). by rewrite Nat.add_0_r.
    + apply elem_of_app in Hev. destruct Hev as [Hev|Hev].
      * exists 0, f, t, (inr a). by rewrite Nat.add_0_r.
      * destruct (IH _ _ _ Hk Hev) as (k & g & t' & r' & Hg & Hp & Hin).
        exists (S k), g, t', r'. split; [done|].
        by replace (i + S k) with (S i + k) by lia.
Qed.

Lemma plot_files_app_fail ns w ax pre f post i tr_pre tr_f e :
  plot_files ns w ax i pre = (tr_pre, inr tt) →
  plot_file ns w ax (i + length pre) f = (tr_f, inl e) →
  plot_files ns w ax i (pre ++ f :: post) = (tr_pre ++ tr_f, inl e).
Proof.
  revert i tr_pre. induction pre as [|g pre IH]; intros i tr_pre Hpre Hf.
  - injection Hpre as <-. simpl in *. rewrite Nat.add_0_r in Hf.
    by rewrite (bind_fail _ _ _ _ Hf).
  - simpl in *. inv_bind Hpre. destruct a.
    rewrite (bind_ok _ _ _ _ Hm).
    replace (i + S (length pre)) with (S i + length pre) in Hf by lia.
    rewrite (IH _ _ Hk Hf). simpl. by rewrite app_assoc.
Qed.


(** The images a run of the loop shows, in order: the [k]-th belongs to the
    [k]-th file, whose iteration succeeded; when the loop succeeds there is
    one for every file. *)
Lemma plot_files_shown ns w ax files i tr r :
  plot_files ns w ax i files = (tr, r) →
  (∀ k x, shown tr !! k = Some x →
     ∃ f t, files !! k = Some f ∧
            plot_file ns w ax (i + k) f = (t, inr tt) ∧
            shown t = [x] ∧ ∀ ev, ev ∈ t → ev ∈ tr) ∧
  length (shown tr) ≤ length files ∧
  (r = inr tt → length (shown tr) = length files).
Proof.
  revert i tr r. induction files as [|f files IH]; intros i tr r H.
  - injection H as <- <-. done.
  - simpl in H. inv_bind H.
    + apply plot_file_shown in Hm as [Hs _]. rewrite Hs.
      split; [done|]. split; [simpl; lia | done].
    + destruct a. pose proof Hm as Hpf.
      apply plot_file_shown in Hm as (x0 & c0 & Hs & _).
      destruct (IH _ _ _ Hk) as (IH1 & IH2 & IH3).
      rewrite shown_app, Hs. split; [|split].
      * intros [|k] x Hx.
        -- injection Hx as <-. exists f, t. rewrite Nat.add_0_r.
           do 3 (split; [done|]). intros ev Hev. apply elem_of_app. by left.
        -- destruct (IH1 k x Hx) as (g & t' & Hg & Hp & Hsh & Hin).
           exists g, t'. split; [done|].
           replace (i + S k) with (S i + k) by lia.
           do 2 (split; [done|]). intros ev Hev. apply elem_of_app.
           right. by apply Hin.
      * simpl. lia.
      * intros Hr. simpl. by rewrite (IH3 Hr).
Qed.

(** The captions a run of the loop sets, in order: the [k]-th is that of
    the [k]-th file. *)
Lemma plot_files_captions ns w ax files i tr r :
  plot_files ns w ax i files = (tr, r) →
  (∀ k c, captions tr !! k = Some c →
     ∃ f t r', files !! k = Some f ∧
               plot_file ns w ax (i + k) f = (t, r') ∧
               EvSetTitle c.1 c.2 ∈ t) ∧
  length (captions tr) ≤ length files ∧
  (r = inr tt → length (captions tr) = length files).
Proof.
  revert i tr r. induction files as [|f files IH]; intros i tr r H.
  - injection H as <- <-. done.
  - simpl in H. inv_bind H.
    + pose proof Hm as Hpf. apply plot_file_shown in Hm as [_ Hc].
      split; [|split; [simpl; lia | done]].
      intros [|k] c Hk.
      * exists f, tr, (inl e). rewrite Nat.add_0_r. do 2 (split; [done|]).
        apply captions_in. by eapply list_elem_of_lookup_2.
      * apply lookup_lt_Some in Hk. lia.
    + destruct a. pose proof Hm as Hpf.
      apply plot_file_shown in Hm as (x0 & c0 & _ & Hc).
      destruct (IH _ _ _ Hk) as (IH1 & IH2 & IH3).
      rewrite captions_app, Hc. split; [|split].
      * intros [|k] c Hx.
        -- injection Hx as <-. exists f, t, (inr tt). rewrite Nat.add_0_r.
           do 2 (split; [done|]). apply captions_in. rewrite Hc.
           apply list_elem_of_here.
        -- destruct (IH1 k c Hx) as (g & t' & r' & Hg & Hp & Hin).
           exists g, t', r'. split; [done|].
           by replace (i + S k) with (S i + k) by lia.
      * simpl. lia.
      * intros Hr. simpl. by rewrite (IH3 Hr).
Qed.

Lemma plot_files_reads ns w ax files i tr r :
  plot_files ns w ax i files = (tr, r) →
  reads tr `prefix_of` files ∧ (r = inr tt → reads tr = files).
Proof.
  revert i tr r. induction files as [|f files IH]; intros i tr r H.
  - injection H as <- <-. split; [by exists []|done].
  - simpl in H. inv_bind H.
    + rewrite (plot_file_reads _ _ _ _ _ _ _ Hm).
      split; [by exists files|done].
    + rewrite reads_app, (plot_file_reads _ _ _ _ _ _ _ Hm).
      destruct (IH _ _ _ Hk) as [[rest Hpre] Hall]. split.
      * exists rest. simpl. by rewrite Hpre at 1.
      * intros Hr. simpl. by rewrite (Hall Hr).
Qed.

Lemma grid_rows_pos n : 0 < n → 0 < grid_rows n.
Proof. intros. unfold grid_rows. apply Nat.div_str_pos. lia. Qed.

Lemma subplots_grid n :
  0 < n →
  subplots (grid_rows n) ncols 61 =
  ([EvSubplots (grid_rows n) ncols], inr (axes_for n)).
Proof.
  intros Hn%grid_rows_pos. unfold subplots, axes_for, ncols.
  destruct (grid_rows n) as [|[|m]]; [lia|done|done].
Qed.

Lemma run_cell_empty ns w :
  listing w = [] →
  run_cell ns w =
  ([EvLs json_path; EvSubplots 0 2], inl (Raised ValueError 61)).
Proof. unfold run_cell, fs_ls. by intros ->. Qed.

Lemma run_cell_eq ns w t r :
  listing w ≠ [] →
  plot_files ns w (axes_for (length (listing w))) 0 (listing w) = (t, r) →
  run_cell ns w =
  (EvLs json_path :: EvSubplots (grid_rows (length (listing w))) ncols ::
     t ++ match r with inl _ => [] | inr _ => [EvShow] end, r).
Proof.
  intros Hne Hp. unfold run_cell, fs_ls, plt_show.
  assert (0 < length (listing w)) as Hn by (destruct (listing w); simpl; [done|lia]).
  pose proof (subplots_grid _ Hn) as Hs.
  msimpl. rewrite Hs. simpl. rewrite Hp.
  destruct r as [e|[]]; simpl; [by rewrite app_nil_r | done].
Qed.

Lemma run_cell_inv ns w tr r :
  run_cell ns w = (tr, r) → listing w ≠ [] →
  ∃ t, plot_files ns w (axes_for (length (listing w))) 0 (listing w) = (t, r) ∧
       tr = EvLs json_path :: EvSubplots (grid_rows (length (listing w))) ncols
              :: t ++ match r with inl _ => [] | inr _ => [EvShow] end.
Proof.
  intros H Hne.
  destruct (plot_files ns w (axes_for (length (listing w))) 0 (listing w))
    as [t r'] eqn:Hp.
  rewrite (run_cell_eq ns w t r' Hne Hp) in H. injection H as <- <-.
  by exists t.
Qed.

(** Every event of a run is the listing, the grid, the final
    [plt.show()] of a run that succeeds, or comes from the iteration of a
    listed file. *)
Lemma run_cell_in ns w tr r ev :
  run_cell ns w = (tr, r) → ev ∈ tr →
  ev = EvLs json_path ∨
  ev = EvSubplots (grid_rows (length (listing w))) ncols ∨
  (ev = EvShow ∧ r = inr tt) ∨
  ∃ k f t' r',
    listing w !! k = Some f ∧
    plot_file ns w (axes_for (length (listing w))) k f = (t', r') ∧ ev ∈ t'.
Proof.
  intros H Hev. destruct (listing w) as [|f l] eqn:Hl.
  - rewrite (run_cell_empty _ _ Hl) in H. injection H as <- <-.
    apply elem_of_cons in Hev. destruct Hev as [->|Hev]; [by left|].
    apply list_elem_of_singleton in Hev as ->. right; left. reflexivity.
  - assert (listing w ≠ []) as Hne by (by rewrite Hl).
    destruct (run_cell_inv _ _ _ _ H Hne) as (t & Hp & ->). rewrite <- Hl.
    apply elem_of_cons in Hev. destruct Hev as [->|Hev]; [left; reflexivity|].
    apply elem_of_cons in Hev.
    destruct Hev as [->|Hev]; [right; left; reflexivity|].
    apply elem_of_app in Hev. destruct Hev as [Hev|Hev].
    + do 3 right.
      destruct (plot_files_in _ _ _ _ _ _ _ _ Hp Hev)
        as (k & g & t' & r' & Hg & Hpf & Hin).
      exists k, g, t', r'. split; [exact Hg|]. split; [exact Hpf | exact Hin].
    + destruct r as [e|[]]; [by apply elem_of_nil in Hev|].
      apply list_elem_of_singleton in Hev as ->. right; right; left. done.
Qed.

Lemma run_cell_show ns w tr r :
  run_cell ns w = (tr, r) → EvShow ∈ tr → r = inr tt.
Proof.
  intros H Hs.
  destruct (run_cell_in _ _ _ _ _ H Hs)
    as [[=] | [[=] | [[_ ->] | (k & f & t' & r' & Hk & Hp & Hin)]]]; [done|].
  apply plot_file_outcome in Hp.
  inversion Hp as [e Ho|d file e Hos Hd Hf Hl|d file j pic x Hos Hd Hf Hi Hb
                  |d file j pic good b rest ss e Hos Hd Hf Hi Hb Hg Hdb
                  |d file j pic l ss t'' r'' Hos Hd Hf Hi Hb Hss Hpl]; subst;
    repeat (apply elem_of_cons in Hin as [[=]|Hin]);
    try (by apply elem_of_nil in Hin);
    try (by apply rectangles_in in Hin as (? & [=] & _)).
  apply elem_of_app in Hin as [Hin|Hin];
    [by apply rectangles_in in Hin as (? & [=] & _)|].
  apply place_inv in Hpl
    as [(-> & _) | (nr & nc & _ & Hr & Hc & Hpl)];
    [by apply elem_of_nil in Hin|].
  destruct Hpl as [(_ & -> & _) | (im & _ & -> & _)];
    repeat (apply elem_of_cons in Hin as [[=]|Hin]);
    by apply elem_of_nil in Hin.
Qed.

(** The traces of the iterations make up the trace of the run. *)
Lemma run_cell_trace ns w tr r :
  run_cell ns w = (tr, r) →
  ∃ t r', plot_files ns w (axes_for (length (listing w))) 0 (listing w)
            = (t, r') ∧
          (r = inr tt → r' = inr tt) ∧
          shown tr = shown t ∧ captions tr = captions t ∧
          reads tr = reads t ∧ (∀ ev, ev ∈ t → ev ∈ tr).
Proof.
  intros H. destruct (decide (listing w = [])) as [Hl|Hne].
  - rewrite (run_cell_empty _ _ Hl) in H. injection H as <- <-.
    exists [], (inr tt). rewrite Hl. split; [done|]. do 4 (split; [done|]).
    by intros ev ?%elem_of_nil.
  - destruct (run_cell_inv _ _ _ _ H Hne) as (t & Hp & ->).
    exists t, r. do 2 (split; [done|]).
    assert (∀ A (g : event → option A),
              g (EvLs json_path) = None →
              g (EvSubplots (grid_rows (length (listing w))) ncols) = None →
              g EvShow = None →
              omap g (EvLs json_path
                        :: EvSubplots (grid_rows (length (listing w))) ncols
                        :: t ++ match r with
                                | inl _ => []
                                | inr _ => [EvShow]
                                end) = omap g t) as Hg.
    { intros A g H1 H2 H3. simpl. rewrite H1, H2, omap_app.
      destruct r as [e|[]]; simpl; [|rewrite H3]; by rewrite app_nil_r. }
    split; [by apply Hg|]. split; [by apply Hg|]. split; [by apply Hg|].
    intros ev Hev. do 2 apply list_elem_of_further. apply elem_of_app. by left.
Qed.

(** The images a run shows, in order: the [k]-th is the annotated image of
    the [k]-th file of the listing, in the cell of [k]; its rectangles have
    been drawn, its caption set.  A run that succeeds shows one image for
    every file. *)
Lemma run_cell_shown ns w tr r :
  run_cell ns w = (tr, r) →
  (∀ k cell im, shown tr !! k = Some (cell, im) →
     ∃ f d file l pic,
       listing w !! k = Some f ∧ cell = cell_of k ∧ "os" ∈ ns ∧
       annotation_of w f = Some d ∧ file_of d = Some file ∧
       boxes_of d = Some l ∧
       picture_of w (posix_join img_path file) = Some pic ∧
       mapM box_shape l = Some (img_shapes im) ∧
       im = Image (pic_rows pic) (pic_cols pic) 3 (img_shapes im) ∧
       (∀ s, s ∈ img_shapes im → EvRectangle s ∈ tr) ∧
       EvSetTitle cell (caption k (posix_join img_path file)) ∈ tr ∧
       EvImshow cell im ∈ tr) ∧
  length (shown tr) ≤ length (listing w) ∧
  (r = inr tt → length (shown tr) = length (listing w)).
Proof.
  intros H.
  destruct (run_cell_trace _ _ _ _ H) as (t & r' & Hp & Hr & Hs & _ & _ & Hin).
  rewrite Hs. destruct (plot_files_shown _ _ _ _ _ _ _ Hp) as (H1 & H2 & H3).
  split; [|split; [done|]].
  - intros k cell im Hk.
    destruct (H1 k _ Hk) as (f & t' & Hf & Hpf & Hsh & Hsub).
    simpl in Hpf.
    apply plot_file_ok_inv in Hpf
      as (d & file & l & pic & ss & nr & nc & Hos & Hd & Hfi & Hb & Hpic
          & Hss & _ & _ & _ & ->).
    rewrite !shown_cat, shown_app, shown_drawn in Hsh. simpl in Hsh.
    injection Hsh as <- <-. simpl.
    exists f, d, file, l, pic. do 9 (split; [done|]).
    split; [|split].
    + intros s Hs'. apply Hin, Hsub.
      do 2 apply list_elem_of_further. apply elem_of_app. left.
      by apply list_elem_of_fmap_2.
    + apply Hin, Hsub. do 2 apply list_elem_of_further.
      apply elem_of_app. right. apply list_elem_of_here.
    + apply Hin, Hsub. do 2 apply list_elem_of_further.
      apply elem_of_app. right. apply list_elem_of_further, list_elem_of_here.
  - intros Hok. by apply H3, Hr.
Qed.

(** The captions a run sets, in order: the [k]-th is that of the [k]-th
    file of the listing, set on the cell of [k], which lies in the grid. *)
Lemma run_cell_captions ns w tr r :
  run_cell ns w = (tr, r) →
  (∀ k cell title, captions tr !! k = Some (cell, title) →
     ∃ f d file nr,
       listing w !! k = Some f ∧ cell = cell_of k ∧ "os" ∈ ns ∧
       annotation_of w f = Some d ∧ file_of d = Some file ∧
       title = caption k (posix_join img_path file) ∧
       axes_for (length (listing w)) = AxGrid nr 2 ∧
       (cell_of k).1 < nr) ∧
  length (captions tr) ≤ length (listing w) ∧
  (r = inr tt → length (captions tr) = length (listing w)).
Proof.
  intros H.
  destruct (run_cell_trace _ _ _ _ H) as (t & r' & Hp & Hr & _ & Hs & _ & Hin).
  rewrite Hs. destruct (plot_files_captions _ _ _ _ _ _ _ Hp) as (H1 & H2 & H3).
  split; [|split; [done|]].
  - intros k cell title Hk.
    destruct (H1 k _ Hk) as (f & t' & r'' & Hf & Hpf & Hc).
    simpl in Hpf, Hc.
    destruct (plot_file_caption _ _ _ _ _ _ _ _ _ Hpf Hc)
      as (d & file & nr & nc & Hos & Hd & Hfi & Hax & Hrow & _ & -> & ->).
    exists f, d, file, nr. do 6 (split; [done|]). split; [|done].
    unfold axes_for in *. case_match; [done|]. by injection Hax as <- <-.
  - intros Hok. by apply H3, Hr.
Qed.

(** A rectangle in the trace of a run is that of a box of a listed
    annotation file. *)
Lemma run_cell_rectangle ns w tr r s :
  run_cell ns w = (tr, r) → EvRectangle s ∈ tr →
  ∃ b, annotated w b ∧ box_shape b = Some s.
Proof.
  intros H Hs.
  destruct (run_cell_in _ _ _ _ _ H Hs)
    as [[=] | [[=] | [[[=] _] | (k & f & t' & r' & Hk & Hp & Hin)]]].
  destruct (plot_file_rectangle _ _ _ _ _ _ _ _ Hp Hin)
    as (d & l & b & Hd & Hb & Hbl & Hbs).
  exists b. split; [|done]. by exists k, f, d, l.
Qed.

Lemma run_cell_set_title ns w tr r cell title :
  run_cell ns w = (tr, r) → EvSetTitle cell title ∈ tr →
  ∃ i f d file nr,
    listing w !! i = Some f ∧ annotation_of w f = Some d ∧
    file_of d = Some file ∧ "os" ∈ ns ∧ cell = cell_of i ∧
    title = caption i (posix_join img_path file) ∧
    axes_for (length (listing w)) = AxGrid nr 2.
Proof.
  intros H Hs.
  destruct (run_cell_in _ _ _ _ _ H Hs)
    as [[=] | [[=] | [[[=] _] | (k & f & t' & r' & Hk & Hp & Hin)]]].
  destruct (plot_file_caption _ _ _ _ _ _ _ _ _ Hp Hin)
    as (d & file & nr & nc & Hos & Hd & Hfi & Hax & _ & _ & -> & ->).
  exists k, f, d, file, nr. do 6 (split; [done|]).
  unfold axes_for in *. case_match; [done|]. by injection Hax as <- <-.
Qed.

(** ** Colours and rectangles *)

Lemma mod3_cases (cid : Z) :
  (cid mod 3 = 0 ∨ cid mod 3 = 1 ∨ cid mod 3 = 2)%Z.
Proof. pose proof (Z.mod_pos_bound cid 3). lia. Qed.

Lemma class_color_channels cid :
  class_color cid !! Z.to_nat (cid mod 3) = Some 255%Z ∧
  (∀ j, j < 3 → j ≠ Z.to_nat (cid mod 3) → class_color cid !! j = Some 0%Z).
Proof.
  unfold class_color. split.
  - destruct (mod3_cases cid) as [-> | [-> | ->]]; done.
  - intros j Hj Hne.
    destruct (mod3_cases cid) as [Hm | [Hm | Hm]]; rewrite Hm in *;
      destruct j as [|[|[|j]]]; simpl in *; done || lia.
Qed.

Lemma bbox_color_period c : bbox_color (PInt (c + 3)) = bbox_color (PInt c).
Proof.
  simpl. replace ((c + 3) mod 3)%Z with (c mod 3)%Z; [done|].
  replace (c + 3)%Z with (c + 1 * 3)%Z by lia. by rewrite Z.mod_add.
Qed.

Lemma bbox_color_classes k :
  bbox_color (PInt (3 * k)) = ret [255; 0; 0]%Z ∧
  bbox_color (PInt (3 * k + 1)) = ret [0; 255; 0]%Z ∧
  bbox_color (PInt (3 * k + 2)) = ret [0; 0; 255]%Z.
Proof.
  rewrite !(bbox_color_int (PInt _) _ eq_refl).
  replace ((3 * k) mod 3)%Z with 0%Z
    by (rewrite Z.mul_comm, Z.mod_mul; lia).
  replace ((3 * k + 1) mod 3)%Z with 1%Z
    by (rewrite Z.add_comm, Z.mul_comm, Z.mod_add; done).
  replace ((3 * k + 2) mod 3)%Z with 2%Z
    by (rewrite Z.add_comm, Z.mul_comm, Z.mod_add; done).
  done.
Qed.

Lemma box_shape_class b s :
  box_shape b = Some s →
  ∃ vc cid, field b "class_id" = Some vc ∧ as_int vc = Some cid ∧
            class_of b = Some cid ∧ color s = class_color cid ∧
            bbox_color vc = ret (color s).
Proof.
  intros (left & top & vw & width & vh & height & vc & cid
          & _ & _ & _ & _ & _ & _ & Hc & Hc' & _ & _ & _ & _ & ->)%box_shape_inv.
  exists vc, cid. do 2 (split; [done|]).
  split; [unfold class_of; rewrite Hc; done|]. split; [done|].
  by apply bbox_color_int.
Qed.

Lemma shapes_classes (l : list pyval) (ss : list shape) :
  mapM box_shape l = Some ss →
  ∃ cids : list Z,
    mapM class_of l = Some cids ∧ color <$> ss = class_color <$> cids.
Proof.
  revert ss. induction l as [|b l IH]; intros ss Hss.
  - injection Hss as <-. by exists [].
  - simpl in Hss. destruct (box_shape b) as [s|] eqn:Hs; [|done].
    destruct (mapM box_shape l) as [ss'|] eqn:Hl; [|done].
    injection Hss as <-.
    destruct (box_shape_class _ _ Hs) as (vc & cid & _ & _ & Hc & Hcol & _).
    destruct (IH ss' eq_refl) as (cids & Hcids & Hcols).
    exists (cid :: cids). split; [simpl; by rewrite Hc, Hcids|].
    rewrite !fmap_cons. by rewrite Hcol, Hcols.
Qed.

(** C1. Every rectangle a run draws is the rectangle of a box of a listed
    annotation file, in the colour the cell computes from the class id of
    that very box: [0, 0, 0] with the entry at index [class_id mod 3] set to
    255, so that channel is 255 and the two others are 0.  Every image a
    run shows carries the rectangles of the boxes of its file, in order,
    each in the colour of its class, and each of them has been drawn.  The
    colour has period three in the class id: [c] and [c + 3] get the same
    colour, the ids 0, 3, 6, ... highlight the first channel, 1, 4, 7, ...
    the second and 2, 5, 8, ... the third. *)
Theorem drawn_color_round_robin ns w tr r :
  run_cell ns w = (tr, r) →
  (∀ s, EvRectangle s ∈ tr →
     ∃ b vc cid,
       annotated w b ∧ box_shape b = Some s ∧
       field b "class_id" = Some vc ∧ as_int vc = Some cid ∧
       bbox_color vc = ret (color s) ∧
       color s = <[Z.to_nat (cid mod 3) := 255%Z]> [0; 0; 0]%Z ∧
       color s !! Z.to_nat (cid mod 3) = Some 255%Z ∧
       (∀ j, j < 3 → j ≠ Z.to_nat (cid mod 3) → color s !! j = Some 0%Z)) ∧
  (∀ k cell im, shown tr !! k = Some (cell, im) →
     ∃ f d l cids,
       listing w !! k = Some f ∧ annotation_of w f = Some d ∧
       boxes_of d = Some l ∧ mapM class_of l = Some cids ∧
       color <$> img_shapes im
         = (λ cid, <[Z.to_nat (cid mod 3) := 255%Z]> [0; 0; 0]%Z) <$> cids ∧
       (∀ s, s ∈ img_shapes im → EvRectangle s ∈ tr)) ∧
  (∀ c, bbox_color (PInt (c + 3)) = bbox_color (PInt c)) ∧
  (∀ k, bbox_color (PInt (3 * k)) = ret [255; 0; 0]%Z ∧
        bbox_color (PInt (3 * k + 1)) = ret [0; 255; 0]%Z ∧
        bbox_color (PInt (3 * k + 2)) = ret [0; 0; 255]%Z).
Proof.
  intros H. split; [|split; [|split]].
  - intros s Hs.
    destruct (run_cell_rectangle _ _ _ _ _ H Hs) as (b & Hb & Hbs).
    destruct (box_shape_class _ _ Hbs) as (vc & cid & Hc & Hc' & _ & Hcol & Hbc).
    exists b, vc, cid. do 5 (split; [done|]). split; [done|].
    rewrite Hcol. apply class_color_channels.
  - intros k cell im Hk.
    destruct (run_cell_shown _ _ _ _ H) as (Hsh & _).
    destruct (Hsh k cell im Hk)
      as (f & d & file & l & pic & Hf & _ & _ & Hd & _ & Hb & _ & Hss & _
          & Hdrawn & _).
    destruct (shapes_classes _ _ Hss) as (cids & Hcids & Hcols).
    by exists f, d, l, cids.
  - apply bbox_color_period.
  - apply bbox_color_classes.
Qed.

(** The second box of [a.json] in [store3] has class 4: its rectangle is
    drawn with the second channel, on the image shown first. *)
Lemma drawn_color_round_robin_witness :
  EvRectangle (Shape (10, 20)%Z (40, 60)%Z [0; 255; 0]%Z 2)
    ∈ (run_cell Samples.os_imported Samples.store3).1 ∧
  (∃ b vc cid,
     annotated Samples.store3 b ∧
     box_shape b = Some (Shape (10, 20)%Z (40, 60)%Z [0; 255; 0]%Z 2) ∧
     field b "class_id" = Some vc ∧ as_int vc = Some cid ∧
     bbox_color vc = ret [0; 255; 0]%Z ∧
     [0; 255; 0]%Z = <[Z.to_nat (cid mod 3) := 255%Z]> [0; 0; 0]%Z ∧
     [0; 255; 0]%Z !! Z.to_nat (cid mod 3) = Some 255%Z ∧
     (∀ j, j < 3 → j ≠ Z.to_nat (cid mod 3) →
           [0; 255; 0]%Z !! j = Some 0%Z)) ∧
  (∃ f d l cids,
     listing Samples.store3 !! 0 = Some f ∧
     annotation_of Samples.store3 f = Some d ∧
     boxes_of d = Some l ∧ mapM class_of l = Some cids ∧
     [[255; 0; 0]; [0; 255; 0]]%Z
       = (λ cid, <[Z.to_nat (cid mod 3) := 255%Z]> [0; 0; 0]%Z) <$> cids).
Proof.
  destruct (drawn_color_round_robin Samples.os_imported Samples.store3
              (run_cell Samples.os_imported Samples.store3).1
              (run_cell Samples.os_imported Samples.store3).2)
    as (Hdrawn & Hshown & _); [apply surjective_pairing|].
  assert (EvRectangle (Shape (10, 20)%Z (40, 60)%Z [0; 255; 0]%Z 2)
            ∈ (run_cell Samples.os_imported Samples.store3).1) as Hin
    by (vm_compute; repeat constructor).
  split; [exact Hin|]. split; [exact (Hdrawn _ Hin)|].
  destruct (Hshown 0 (0, 0)
              (Image 480 640 3
                 [Shape (300, 38)%Z (400, 90)%Z [255; 0; 0]%Z 2;
                  Shape (10, 20)%Z (40, 60)%Z [0; 255; 0]%Z 2]))
    as (f & d & l & cids & Hf & Hd & Hl & Hc & Hcol & _);
    [vm_compute; reflexivity|].
  by exists f, d, l, cids.
Defined.

(** C6. Every rectangle a run draws is the rectangle of a box of a listed
    annotation file: it goes from the corner [(left, top)] to the corner
    [(left + width, top + height)] of that box, with thickness 2, which for
    cv2 is an outline, not a filled shape.  Every image a run shows carries
    exactly one such rectangle for each box of its file, in the order of the
    boxes, and each of them has been drawn.  On an image that decoded, a box
    whose corners are within the coordinates cv2 takes gets exactly this
    rectangle drawn. *)
Theorem drawn_rectangle_corners ns w tr r :
  run_cell ns w = (tr, r) →
  (∀ s, EvRectangle s ∈ tr →
     ∃ b left top vw width vh height,
       annotated w b ∧ box_shape b = Some s ∧
       field b "left" = Some (PInt left) ∧ field b "top" = Some (PInt top) ∧
       field b "width" = Some vw ∧ as_int vw = Some width ∧
       field b "height" = Some vh ∧ as_int vh = Some height ∧
       pt1 s = (left, top) ∧
       pt2 s = ((left + width)%Z, (top + height)%Z) ∧
       thickness s = 2%Z ∧ filled s = false) ∧
  (∀ k cell im, shown tr !! k = Some (cell, im) →
     ∃ f d l,
       listing w !! k = Some f ∧ annotation_of w f = Some d ∧
       boxes_of d = Some l ∧
       mapM box_shape l = Some (img_shapes im) ∧
       length (img_shapes im) = length l ∧
       (∀ s, s ∈ img_shapes im →
             EvRectangle s ∈ tr ∧ thickness s = 2%Z ∧ filled s = false)) ∧
  (∀ im b left top width height cid,
     field b "left" = Some (PInt left) → field b "top" = Some (PInt top) →
     field b "width" = Some (PInt width) →
     field b "height" = Some (PInt height) →
     field b "class_id" = Some (PInt cid) →
     int32 left = true → int32 top = true →
     int32 (left + width) = true → int32 (top + height) = true →
     ∃ s, draw_bbox (Some im) b
            = ([EvRectangle s], inr (Some (draw_all im [s]))) ∧
          pt1 s = (left, top) ∧
          pt2 s = ((left + width)%Z, (top + height)%Z) ∧
          thickness s = 2%Z ∧ filled s = false).
Proof.
  intros H. split; [|split].
  - intros s Hs.
    destruct (run_cell_rectangle _ _ _ _ _ H Hs) as (b & Hb & Hbs).
    destruct (box_shape_inv _ _ Hbs)
      as (left & top & vw & width & vh & height & vc & cid
          & ? & ? & ? & ? & ? & ? & _ & _ & _ & _ & _ & _ & ->).
    by exists b, left, top, vw, width, vh, height.
  - intros k cell im Hk.
    destruct (run_cell_shown _ _ _ _ H) as (Hsh & _).
    destruct (Hsh k cell im Hk)
      as (f & d & file & l & pic & Hf & _ & _ & Hd & _ & Hb & _ & Hss & _
          & Hdrawn & _).
    exists f, d, l. do 4 (split; [done|]).
    split; [symmetry; by eapply length_mapM|].
    intros s Hs. split; [by apply Hdrawn|].
    destruct (mapM_in _ _ _ _ Hss Hs) as (b & _ & Hbs).
    by destruct (box_shape_inv _ _ Hbs)
      as (? & ? & ? & ? & ? & ? & ? & ? & _ & _ & _ & _ & _ & _ & _ & _ & _
          & _ & _ & _ & ->).
  - intros im b left top width height cid Hl Ht Hw Hh Hc H1 H2 H3 H4.
    exists (Shape (left, top) (left + width, top + height)%Z
                  (<[Z.to_nat (cid mod 3) := 255%Z]> [0; 0; 0]%Z) 2).
    split; [|done]. apply (draw_bbox_shape (Some im)).
    by apply (box_shape_intro b left top (PInt width) width
                (PInt height) height (PInt cid) cid).
Qed.

(** The run on [store3]: the box of the notebook's example is drawn from
    (300, 38) to (400, 90), and the image shown first carries the
    rectangles of the two boxes of [a.json]. *)
Lemma drawn_rectangle_corners_witness :
  EvRectangle (Shape (300, 38)%Z (400, 90)%Z [255; 0; 0]%Z 2)
    ∈ (run_cell Samples.os_imported Samples.store3).1 ∧
  (∃ b left top vw width vh height,
     annotated Samples.store3 b ∧
     box_shape b = Some (Shape (300, 38)%Z (400, 90)%Z [255; 0; 0]%Z 2) ∧
     field b "left" = Some (PInt left) ∧ field b "top" = Some (PInt top) ∧
     field b "width" = Some vw ∧ as_int vw = Some width ∧
     field b "height" = Some vh ∧ as_int vh = Some height ∧
     (300, 38)%Z = (left, top) ∧
     (400, 90)%Z = ((left + width)%Z, (top + height)%Z) ∧
     2%Z = 2%Z ∧ false = false) ∧
  (∃ f d l,
     listing Samples.store3 !! 0 = Some f ∧
     annotation_of Samples.store3 f = Some d ∧ boxes_of d = Some l ∧
     mapM box_shape l
       = Some [Shape (300, 38)%Z (400, 90)%Z [255; 0; 0]%Z 2;
               Shape (10, 20)%Z (40, 60)%Z [0; 255; 0]%Z 2] ∧
     2 = length l).
Proof.
  destruct (drawn_rectangle_corners Samples.os_imported Samples.store3
              (run_cell Samples.os_imported Samples.store3).1
              (run_cell Samples.os_imported Samples.store3).2)
    as (Hdrawn & Hshown & _); [apply surjective_pairing|].
  assert (EvRectangle (Shape (300, 38)%Z (400, 90)%Z [255; 0; 0]%Z 2)
            ∈ (run_cell Samples.os_imported Samples.store3).1) as Hin
    by (vm_compute; repeat constructor).
  split; [exact Hin|]. split; [exact (Hdrawn _ Hin)|].
  destruct (Hshown 0 (0, 0)
              (Image 480 640 3
                 [Shape (300, 38)%Z (400, 90)%Z [255; 0; 0]%Z 2;
                  Shape (10, 20)%Z (40, 60)%Z [0; 255; 0]%Z 2]))
    as (f & d & l & Hf & Hd & Hl & Hss & Hlen & _);
    [vm_compute; reflexivity|].
  by exists f, d, l.
Defined.

(** ** Captions *)

Lemma decimal_nonempty i : ∃ c s, decimal i = String c s.
Proof. unfold decimal. destruct (Nat.to_uint i); simpl; eauto. Qed.

Lemma read_decimal_decimal i : read_decimal (decimal i) = Some i.
Proof.
  unfold read_decimal, decimal. pose proof (Unsigned.of_to i) as Hi.
  destruct (Nat.to_uint i) as [|d|d|d|d|d|d|d|d|d|d] eqn:Hd;
    [ by rewrite <- Hi | rewrite NilZero.usu by done; simpl; by rewrite Hi .. ].
Qed.

Lemma read_zeros k s :
  Nat.of_uint <$> NilEmpty.uint_of_string (zeros k +:+ s) =
  Nat.of_uint <$> NilEmpty.uint_of_string s.
Proof.
  induction k as [|k IH]; [done|]. rewrite <- IH. simpl.
  by destruct (NilEmpty.uint_of_string (zeros k +:+ s)).
Qed.

Lemma read_decimal_zeros k c s :
  read_decimal (zeros k +:+ String c s) = read_decimal (String c s).
Proof.
  unfold read_decimal.
  replace (NilZero.uint_of_string (zeros k +:+ String c s))
    with (NilEmpty.uint_of_string (zeros k +:+ String c s))
    by (by destruct k).
  apply read_zeros.
Qed.

Lemma length_append (s1 s2 : string) :
  String.length (s1 +:+ s2) = String.length s1 + String.length s2.
Proof. induction s1 as [|c s1 IH]; simpl; [done | by rewrite IH]. Qed.

Lemma length_zeros k : String.length (zeros k) = k.
Proof. induction k as [|k IH]; simpl; [done | by rewrite IH]. Qed.

Lemma format_zero_width_spec width i :
  String.length (format_zero_width width i) =
    width `max` String.length (decimal i) ∧
  read_decimal (format_zero_width width i) = Some i.
Proof.
  unfold format_zero_width. split.
  - rewrite length_append, length_zeros. lia.
  - destruct (decimal_nonempty i) as (c & s & Hs). rewrite Hs at 2.
    rewrite read_decimal_zeros, <- Hs. apply read_decimal_decimal.
Qed.

(** C7. Every caption a run sets on a grid cell belongs to the annotation
    file at some index [i] of the listing and is exactly ["[img-"], the
    index, ["] "] and the resolved image path, where the index is written in
    decimal with zeros on the left up to two characters: it has
    [max 2 (number of digits)] characters, reads back as [i], and for
    [i < 10] is a zero followed by the one digit.  For [i = 2] the caption
    is ["[img-02] "] followed by the resolved path. *)
Theorem caption_format ns w tr r cell title :
  run_cell ns w = (tr, r) → EvSetTitle cell title ∈ tr →
  ∃ i f d file,
    listing w !! i = Some f ∧
    annotation_of w f = Some d ∧ file_of d = Some file ∧
    cell = cell_of i ∧
    title = "[img-" +:+ format_zero_width 2 i +:+ "] "
              +:+ posix_join img_path file ∧
    String.length (format_zero_width 2 i) =
      2 `max` String.length (decimal i) ∧
    read_decimal (format_zero_width 2 i) = Some i ∧
    (i < 10 → ∃ c, decimal i = String c EmptyString ∧
                   format_zero_width 2 i = String "0" (String c EmptyString)) ∧
    (i = 2 → title = "[img-02] " +:+ posix_join img_path file).
Proof.
  intros H Hs.
  destruct (run_cell_set_title _ _ _ _ _ _ H Hs)
    as (i & f & d & file & nr & Hi & Hd & Hf & _ & -> & -> & _).
  exists i, f, d, file. do 5 (split; [done|]).
  destruct (format_zero_width_spec 2 i) as [Hlen Hread].
  do 2 (split; [done|]). split.
  - intros Hlt.
    do 10 (destruct i as [|i]; [eexists; split; reflexivity|]). lia.
  - by intros ->.
Qed.

(** The third file of [store3]. *)
Lemma caption_format_witness :
  EvSetTitle (1, 0) "[img-02] s3://bucket/dataset/train/c.jpg"
    ∈ (run_cell Samples.os_imported Samples.store3).1 ∧
  ∃ i f d file,
    listing Samples.store3 !! i = Some f ∧
    annotation_of Samples.store3 f = Some d ∧ file_of d = Some file ∧
    (1, 0) = cell_of i ∧
    "[img-02] s3://bucket/dataset/train/c.jpg"
      = "[img-" +:+ format_zero_width 2 i +:+ "] "
          +:+ posix_join img_path file ∧
    String.length (format_zero_width 2 i) =
      2 `max` String.length (decimal i) ∧
    read_decimal (format_zero_width 2 i) = Some i ∧
    (i < 10 → ∃ c, decimal i = String c EmptyString ∧
                   format_zero_width 2 i = String "0" (String c EmptyString)) ∧
    (i = 2 → "[img-02] s3://bucket/dataset/train/c.jpg"
               = "[img-02] " +:+ posix_join img_path file).
Proof.
  assert (EvSetTitle (1, 0) "[img-02] s3://bucket/dataset/train/c.jpg"
            ∈ (run_cell Samples.os_imported Samples.store3).1) as Hin
    by (vm_compute; repeat constructor).
  split; [exact Hin|].
  apply (caption_format Samples.os_imported Samples.store3
           (run_cell Samples.os_imported Samples.store3).1
           (run_cell Samples.os_imported Samples.store3).2).
  - apply surjective_pairing.
  - exact Hin.
Defined.

(** ** Decoding *)

(** C8. The decode step (lines 71-73) returns an image exactly when the
    fetched bytes are a picture, and the image then has three channels and
    the picture's size, whatever the number of channels of the picture
    itself (one for grayscale, three for colour, four with alpha). *)
Theorem decode_three_channels w path tr img :
  load_image w path = (tr, inr (Some img)) ↔
  tr = [EvCat 71 path] ∧
  ∃ j p, objects w !! path = Some (Bytes j (Some p)) ∧
         img = Image (pic_rows p) (pic_cols p) 3 [] ∧ img_channels img = 3.
Proof.
  split.
  - intros H. apply load_image_inv in H as [-> H]. split; [done|].
    destruct H as [[_ [=]] | [[_ [=]] | (j & [p|] & Ho & [= ->])]].
    by exists j, p.
  - intros (-> & j & p & Ho & -> & _).
    by rewrite (load_image_bytes _ _ _ _ Ho).
Qed.

(** The grayscale picture of [store3] decodes to three channels. *)
Lemma decode_three_channels_witness :
  load_image Samples.store3 "s3://bucket/dataset/train/a.jpg"
    = ([EvCat 71 "s3://bucket/dataset/train/a.jpg"],
       inr (Some (Image 480 640 3 []))) ∧
  pic_channels (Picture 480 640 1) = 1.
Proof.
  split; [|done].
  apply (decode_three_channels Samples.store3
           "s3://bucket/dataset/train/a.jpg").
  split; [done|]. exists (Fails NotUnicode), (Picture 480 640 1).
  split; [by vm_compute | done].
Defined.

(** ** The grid *)

Lemma grid_rows_ceil count :
  grid_rows count = ceil_div count 2 ∧
  count ≤ 2 * grid_rows count < count + 2.
Proof.
  unfold grid_rows, ceil_div.
  replace (count + 2 - 1) with (count + 1) by lia. split; [done|].
  pose proof (Nat.div_mod_eq (count + 1) 2).
  pose proof (Nat.mod_upper_bound (count + 1) 2). lia.
Qed.

Lemma cell_of_bounds count i :
  i < count → (cell_of i).1 < grid_rows count ∧ (cell_of i).2 < 2.
Proof.
  intros Hi. unfold cell_of. cbn [fst snd].
  destruct (grid_rows_ceil count) as [_ Hc].
  pose proof (Nat.mod_upper_bound i 2).
  split; [|lia]. apply Nat.Div0.div_lt_upper_bound; lia.
Qed.

Lemma cell_of_unique row col :
  col < 2 → cell_of (2 * row + col) = (row, col).
Proof.
  intros Hc. unfold cell_of. f_equal.
  - symmetry. by apply (Nat.div_unique _ 2 row col).
  - symmetry. by apply (Nat.mod_unique _ 2 row col).
Qed.

Lemma cell_of_index i : 2 * (cell_of i).1 + (cell_of i).2 = i ∧ (cell_of i).2 < 2.
Proof.
  unfold cell_of. cbn [fst snd].
  pose proof (Nat.div_mod_eq i 2). pose proof (Nat.mod_upper_bound i 2). lia.
Qed.

Lemma run_cell_subplots ns w tr r :
  run_cell ns w = (tr, r) →
  EvSubplots (grid_rows (length (listing w))) 2 ∈ tr.
Proof.
  intros H. destruct (decide (listing w = [])) as [Hl|Hne].
  - rewrite (run_cell_empty _ _ Hl) in H. injection H as <- <-. rewrite Hl.
    apply list_elem_of_further, list_elem_of_here.
  - destruct (run_cell_inv _ _ _ _ H Hne) as (t & _ & ->).
    apply list_elem_of_further, list_elem_of_here.
Qed.

(** Whatever a run puts into a cell, it puts there for a listed file, into
    the cell of its index, in a grid of two dimensions. *)
Lemma run_cell_placed ns w tr r cell :
  run_cell ns w = (tr, r) → placed cell tr →
  ∃ i f nr,
    listing w !! i = Some f ∧ cell = cell_of i ∧ "os" ∈ ns ∧
    axes_for (length (listing w)) = AxGrid nr 2.
Proof.
  intros H [[title Hs] | [im Hs]].
  - destruct (run_cell_set_title _ _ _ _ _ _ H Hs)
      as (i & f & _ & _ & nr & Hi & _ & _ & Hos & -> & _ & Hax).
    by exists i, f, nr.
  - apply (shown_in tr (cell, im)) in Hs.
    apply list_elem_of_lookup in Hs as [k Hk].
    destruct (run_cell_shown _ _ _ _ H) as (Hsh & _).
    destruct (Hsh k cell im Hk)
      as (f & d & file & l & pic & Hf & -> & Hos & _ & _ & _ & _ & _ & _
          & _ & Hcap & _).
    destruct (run_cell_set_title _ _ _ _ _ _ H Hcap)
      as (_ & _ & _ & _ & nr & _ & _ & _ & _ & _ & _ & Hax).
    by exists k, f, nr.
Qed.

Lemma annotated_image_intro w f d file l pic ss :
  annotation_of w f = Some d → file_of d = Some file → boxes_of d = Some l →
  picture_of w (posix_join img_path file) = Some pic →
  mapM box_shape l = Some ss →
  annotated_image w f = Some (Image (pic_rows pic) (pic_cols pic) 3 ss).
Proof.
  intros Hd Hf Hb Hp Hss. unfold annotated_image, image_path.
  rewrite Hd. simpl. rewrite Hf. simpl. rewrite Hb. simpl. rewrite Hp. simpl.
  by rewrite Hss.
Qed.

Lemma image_path_intro w f d file :
  annotation_of w f = Some d → file_of d = Some file →
  image_path w f = Some (posix_join img_path file).
Proof. intros Hd Hf. unfold image_path. rewrite Hd. simpl. by rewrite Hf. Qed.

(** C4, as the code has it: the column count is not a parameter, it is
    fixed at 2.  A run asks for a grid of [ceil(count / 2)] rows, that is
    the least number of rows of two cells that hold [count] cells, and two
    columns.  The images it shows and the captions it sets follow the
    listing: the [i]-th image shown is the annotated image of the file at
    index [i], the [i]-th caption is that of the file at index [i], and both
    go to the cell [(i div 2, i mod 2)], which lies inside the grid; a run
    that succeeds shows an image and sets a caption for every file.  With
    five annotation files the grid has three rows and nothing is put into
    cell [(2, 1)]. *)
Theorem grid_layout_two_columns ns w tr r :
  run_cell ns w = (tr, r) →
  ncols = 2 ∧
  grid_rows (length (listing w)) = ceil_div (length (listing w)) 2 ∧
  length (listing w) ≤ 2 * grid_rows (length (listing w))
    < length (listing w) + 2 ∧
  EvSubplots (grid_rows (length (listing w))) 2 ∈ tr ∧
  (∀ i cell im, shown tr !! i = Some (cell, im) →
     cell = (i / 2, i mod 2) ∧
     cell.1 < grid_rows (length (listing w)) ∧ cell.2 < 2 ∧
     ∃ f, listing w !! i = Some f ∧ annotated_image w f = Some im) ∧
  (∀ i cell title, captions tr !! i = Some (cell, title) →
     cell = (i / 2, i mod 2) ∧
     cell.1 < grid_rows (length (listing w)) ∧ cell.2 < 2 ∧
     ∃ f path, listing w !! i = Some f ∧ image_path w f = Some path ∧
               title = caption i path) ∧
  (r = inr tt →
     length (shown tr) = length (listing w) ∧
     length (captions tr) = length (listing w)) ∧
  (∀ cell, placed cell tr →
     ∃ i, i < length (listing w) ∧ cell = (i / 2, i mod 2)) ∧
  (length (listing w) = 5 →
     grid_rows (length (listing w)) = 3 ∧ ¬ placed (2, 1) tr).
Proof.
  intros H. split; [done|].
  destruct (grid_rows_ceil (length (listing w))) as [Hc Hb].
  do 2 (split; [done|]). split; [by eapply run_cell_subplots|].
  destruct (run_cell_shown _ _ _ _ H) as (Hsh & _ & Hshn).
  destruct (run_cell_captions _ _ _ _ H) as (Hcap & _ & Hcapn).
  assert (∀ cell, placed cell tr →
     ∃ i, i < length (listing w) ∧ cell = (i / 2, i mod 2)) as Hp.
  { intros cell Hcell.
    destruct (run_cell_placed _ _ _ _ _ H Hcell) as (i & f & _ & Hi & -> & _).
    exists i. split; [by eapply lookup_lt_Some | done]. }
  split; [|split; [|split; [|split; [done|]]]].
  - intros i cell im Hi.
    destruct (Hsh i cell im Hi)
      as (f & d & file & l & pic & Hf & -> & _ & Hd & Hfi & Hbx & Hpic & Hss
          & Him & _).
    split; [done|].
    destruct (cell_of_bounds (length (listing w)) i) as [? ?];
      [by eapply lookup_lt_Some|].
    do 2 (split; [done|]). exists f. split; [done|]. rewrite Him.
    by eapply annotated_image_intro.
  - intros i cell title Hi.
    destruct (Hcap i cell title Hi)
      as (f & d & file & nr & Hf & -> & _ & Hd & Hfi & -> & _).
    split; [done|].
    destruct (cell_of_bounds (length (listing w)) i) as [? ?];
      [by eapply lookup_lt_Some|].
    do 2 (split; [done|]). exists f, (posix_join img_path file).
    split; [done|]. split; [by eapply image_path_intro | done].
  - intros Hr. split; [by apply Hshn | by apply Hcapn].
  - intros H5. rewrite H5. split; [done|].
    intros (i & Hi & Hcell)%Hp. rewrite H5 in Hi.
    do 5 (destruct i as [|i]; [done|]). lia.
Qed.

(** Five files: the run succeeds, the fifth image goes to cell (2, 0) and is
    that of [e.json]. *)
Lemma grid_layout_two_columns_witness :
  (run_cell Samples.os_imported Samples.store5).2 = inr tt ∧
  (shown (run_cell Samples.os_imported Samples.store5).1).*1
    = [(0, 0); (0, 1); (1, 0); (1, 1); (2, 0)] ∧
  ((2, 0) = (4 / 2, 4 mod 2) ∧ (2, 0).1 < grid_rows 5 ∧ (2, 0).2 < 2 ∧
   ∃ f, listing Samples.store5 !! 4 = Some f ∧
        annotated_image Samples.store5 f = Some (Image 480 640 3 [])) ∧
  (grid_rows 5 = 3 ∧
   ¬ placed (2, 1) (run_cell Samples.os_imported Samples.store5).1).
Proof.
  destruct (grid_layout_two_columns Samples.os_imported Samples.store5
              (run_cell Samples.os_imported Samples.store5).1
              (run_cell Samples.os_imported Samples.store5).2)
    as (_ & _ & _ & _ & Hsh & _ & _ & _ & H5); [apply surjective_pairing|].
  split; [by vm_compute|]. split; [by vm_compute|].
  split; [apply (Hsh 4 (2, 0) (Image 480 640 3 [])); by vm_compute|].
  by apply H5.
Defined.

(** The claim for any column count fails at three columns: the cell has
    two, and the file at index 2 is addressed to (1, 0), not (0, 2). *)
Lemma grid_any_columns_counterexample :
  ¬ (∀ count columns i,
       0 < columns → i < count →
       ncols = columns ∧ grid_rows count = ceil_div count columns ∧
       cell_of i = (i / columns, i mod columns)).
Proof.
  intros H. destruct (H 3 3 2) as (_ & _ & Hcell); [lia | lia |].
  discriminate Hcell.
Qed.

(** ** One-row grids *)

Lemma well_formed_shapes w f :
  well_formed w f →
  ∃ d file l pic ss,
    annotation_of w f = Some d ∧ file_of d = Some file ∧
    boxes_of d = Some l ∧
    picture_of w (posix_join img_path file) = Some pic ∧
    mapM box_shape l = Some ss.
Proof.
  intros (d & file & l & pic & Hd & Hf & Hb & Hp & Hl).
  assert (is_Some (mapM box_shape l)) as [ss Hss]
    by (by apply mapM_is_Some).
  by exists d, file, l, pic, ss.
Qed.

(** A well-formed file, once [os] resolves, gets as far as the grid. *)
Lemma plot_file_well_formed ns w ax i f :
  "os" ∈ ns → well_formed w f →
  ∃ file ss im,
    plot_file ns w ax i f =
    (EvCat 66 f :: EvCat 71 (posix_join img_path file)
       :: (EvRectangle <$> ss)
       ++ (place ax i (posix_join img_path file) (Some im)).1,
     (place ax i (posix_join img_path file) (Some im)).2).
Proof.
  intros Hos (d & file & l & pic & ss & Hd & Hf & Hb & Hp & Hss)%well_formed_shapes.
  apply picture_of_inv in Hp as [j Hi].
  exists file, ss, (Image (pic_rows pic) (pic_cols pic) 3 ss).
  rewrite (plot_file_opened _ _ _ _ _ _ _ Hos Hd Hf). cbv zeta.
  rewrite (bind_ok _ _ _ _ (load_image_bytes _ _ _ _ Hi)).
  rewrite (draw_annotations_boxes _ _ _ Hb).
  rewrite (bind_ok _ _ _ _ (draw_bboxes_ok _ _ _ Hss)). simpl.
  by destruct (place ax i (posix_join img_path file) _).
Qed.

Lemma plot_files_ok_grid ns w ax i f files t :
  plot_files ns w ax i (f :: files) = (t, inr tt) → ∃ nr nc, ax = AxGrid nr nc.
Proof.
  simpl. intros H. inv_bind H. destruct a.
  apply plot_file_ok_inv in Hm
    as (? & ? & ? & ? & ? & nr & nc & _ & _ & _ & _ & _ & _ & -> & _).
  eauto.
Qed.

Lemma axes_for_one_row count :
  count = 1 ∨ count = 2 → grid_rows count = 1 ∧ axes_for count = AxVector 2.
Proof. by intros [-> | ->]. Qed.

(** C10. With one or two annotation files the grid has one row, so
    [plt.subplots] returns a one-dimensional array of two Axes and
    [ax[row][col]] raises a type error for every index of the listing: the
    run fails, puts nothing into any cell and never reaches [plt.show()];
    with a well-formed first file and [os] resolved the failure is that type
    error of line 89.  Conversely, a run that puts anything into a cell has
    at least two rows, that is at least three annotation files. *)
Theorem single_row_grid_fails ns w tr r :
  run_cell ns w = (tr, r) →
  (length (listing w) = 1 ∨ length (listing w) = 2 →
     grid_rows (length (listing w)) = 1 ∧
     EvSubplots 1 2 ∈ tr ∧
     axes_for (length (listing w)) = AxVector 2 ∧
     (∀ i, i < length (listing w) →
        ax_getitem2 (AxVector 2) (cell_of i).1 (cell_of i).2 89
          = raise TypeError 89) ∧
     (∃ e, r = inl e) ∧ (∀ cell, ¬ placed cell tr) ∧ (EvShow ∉ tr) ∧
     (∀ f, listing w !! 0 = Some f → "os" ∈ ns → well_formed w f →
           r = inl (Raised TypeError 89))) ∧
  (∀ cell, placed cell tr →
     2 ≤ grid_rows (length (listing w)) ∧ 3 ≤ length (listing w)).
Proof.
  intros H. split.
  - intros Hcount. destruct (axes_for_one_row _ Hcount) as [Hrows Hax].
    assert (listing w ≠ []) as Hne by (intros Hl; rewrite Hl in Hcount; simpl in *; lia).
    destruct (run_cell_inv _ _ _ _ H Hne) as (t & Hp & Htr).
    rewrite Hax in Hp.
    assert (∃ e, r = inl e) as [e ->].
    { destruct r as [e|[]]; [by eexists|].
      destruct (listing w) as [|f l]; [done|].
      apply plot_files_ok_grid in Hp as (? & ? & [=]). }
    split; [done|]. split.
    { pose proof (run_cell_subplots _ _ _ _ H) as Hs. by rewrite Hrows in Hs. }
    split; [done|]. split.
    { intros i Hi. destruct Hcount as [Hc|Hc]; rewrite Hc in Hi;
        do 2 (destruct i as [|i]; [done|]); lia. }
    split; [by eexists|]. split.
    { intros cell Hcell.
      destruct (run_cell_placed _ _ _ _ _ H Hcell) as (_ & _ & nr & _ & _ & _ & Hg).
      by rewrite Hax in Hg. }
    split.
    { intros Hs. by apply (run_cell_show _ _ _ _ H) in Hs. }
    intros f Hf Hos Hwf.
    destruct (listing w) as [|f' l] eqn:Hl; [done|]. injection Hf as ->.
    destruct (plot_file_well_formed ns w (AxVector 2) 0 f Hos Hwf)
      as (file & ss & im & Hpf).
    simpl in Hp. change (place (AxVector 2) 0 (posix_join img_path file) (Some im))
      with (@raise unit TypeError 89) in Hpf.
    rewrite (bind_fail _ _ _ _ Hpf) in Hp. by injection Hp as _ <-.
  - intros cell Hcell.
    destruct (run_cell_placed _ _ _ _ _ H Hcell) as (i & f & nr & Hi & _ & _ & Hg).
    apply lookup_lt_Some in Hi.
    assert (0 < length (listing w)) as Hpos%grid_rows_pos by lia.
    destruct (grid_rows_ceil (length (listing w))) as [_ Hb].
    unfold axes_for in Hg. case_match eqn:Hr; [done|].
    apply Nat.eqb_neq in Hr. lia.
Qed.

Lemma store3_well_formed f :
  f ∈ listing Samples.store3 → well_formed Samples.store3 f.
Proof.
  intros Hf. repeat (apply elem_of_cons in Hf as [->|Hf]);
    [| | |by apply elem_of_nil in Hf].
  - exists (PDict (list_to_map [("file", PStr "a.jpg");
                                ("annotations",
                                 PList [Samples.box0; Samples.box4])])),
      "a.jpg", [Samples.box0; Samples.box4], (Picture 480 640 1).
    do 4 (split; [by vm_compute|]).
    repeat (apply Forall_cons_2; [eexists; vm_compute; reflexivity|]).
    apply Forall_nil_2.
  - exists (PDict (list_to_map [("file", PStr "b.jpg");
                                ("annotations", PList [])])),
      "b.jpg", [], (Picture 480 640 3).
    do 4 (split; [by vm_compute|]). apply Forall_nil_2.
  - exists (PDict (list_to_map [("file", PStr "c.jpg");
                                ("annotations", PList [])])),
      "c.jpg", [], (Picture 480 640 4).
    do 4 (split; [by vm_compute|]). apply Forall_nil_2.
Qed.

(** One well-formed file fails at the cell access; with three files the
    third is placed in row 1 of a two-row grid. *)
Lemma single_row_grid_fails_witness :
  (run_cell Samples.os_imported Samples.store1).2
    = inl (Raised TypeError 89) ∧
  (placed (1, 0) (run_cell Samples.os_imported Samples.store3).1 ∧
   2 ≤ grid_rows 3 ∧ 3 ≤ 3).
Proof.
  split.
  - destruct (single_row_grid_fails Samples.os_imported Samples.store1
                (run_cell Samples.os_imported Samples.store1).1
                (run_cell Samples.os_imported Samples.store1).2)
      as [Hone _]; [apply surjective_pairing|].
    destruct Hone as (_ & _ & _ & _ & _ & _ & _ & Hwf); [by left|].
    apply (Hwf "a.json"); [done | by vm_compute |].
    apply store3_well_formed. apply list_elem_of_here.
  - destruct (single_row_grid_fails Samples.os_imported Samples.store3
                (run_cell Samples.os_imported Samples.store3).1
                (run_cell Samples.os_imported Samples.store3).2)
      as [_ Hplaced]; [apply surjective_pairing|].
    assert (placed (1, 0) (run_cell Samples.os_imported Samples.store3).1)
      as Hp by (left; eexists; vm_compute; repeat constructor).
    split; [exact Hp|]. by apply Hplaced in Hp.
Defined.

(** ** Failures *)

(** C2, as the code has it: a file that [json.loads] does not take fails at
    line 66, before anything else is done for it.  The two keys are looked
    up where they are used, not while parsing: once [os] has resolved, a
    value without a ["file"] (a JSON value that is no object, or an object
    without the key), or with a ["file"] that is no string, fails at line
    70, before the image is fetched; a missing ["annotations"] key is only
    met at line 76, after the image has been requested, and it is the
    failure of the file only if the image was found and was not empty. *)
Theorem malformed_annotation_failures ns w ax i f b :
  objects w !! f = Some b → malformed b = true →
  ∃ tr e,
    plot_file ns w ax i f = (tr, inl e) ∧
    match b with
    | Empty =>
        tr = [EvCat 66 f] ∧ e = Raised JSONDecodeError 66 ∧
        spec_error_of e = Some MalformedAnnotationError
    | Bytes (Fails why) _ =>
        tr = [EvCat 66 f] ∧ e = Raised (loads_exc why) 66 ∧
        spec_error_of e = Some MalformedAnnotationError
    | Bytes (Parses d) _ =>
        "os" ∈ ns →
        match field d "file" with
        | None =>
            tr = [EvCat 66 f] ∧
            e = Raised (match d with
                        | PDict _ => KeyError "file"
                        | _ => TypeError
                        end) 70 ∧
            spec_error_of e = Some MalformedAnnotationError
        | Some (PStr file) =>
            tr = [EvCat 66 f; EvCat 71 (posix_join img_path file)] ∧
            match objects w !! posix_join img_path file with
            | None => e = Raised FileNotFoundError 71
            | Some Empty => e = Raised CvError 73
            | Some (Bytes _ _) => e = Raised (KeyError "annotations") 76
            end
        | Some _ =>
            tr = [EvCat 66 f] ∧ e = Raised TypeError 70 ∧
            spec_error_of e = Some MalformedAnnotationError
        end
    end.
Proof.
  intros Ho Hb.
  destruct b as [|[why|d] p].
  - exists [EvCat 66 f], (Raised JSONDecodeError 66). split; [|done].
    apply plot_file_open_fail. unfold open_annotation.
    by rewrite (bind_ok _ _ _ _ (fs_cat_ok _ _ _ _ Ho)).
  - exists [EvCat 66 f], (Raised (loads_exc why) 66). split.
    + apply plot_file_open_fail. unfold open_annotation.
      by rewrite (bind_ok _ _ _ _ (fs_cat_ok _ _ _ _ Ho)).
    + do 2 (split; [done|]). by destruct why.
  - assert (annotation_of w f = Some d) as Hd
      by (unfold annotation_of; by rewrite Ho).
    destruct (decide ("os" ∈ ns)) as [Hos|Hos].
    2:{ exists [EvCat 66 f], (Raised (NameError "os") 70). split; [|done].
        apply plot_file_open_fail. unfold open_annotation.
        rewrite (bind_ok _ _ _ _ (fs_cat_ok _ _ _ _ Ho)).
        change (json_loads (Bytes (Parses d) p) 66) with (@ret pyval d).
        by rewrite bind_ret, lookup_os, bool_decide_eq_false_2. }
    assert (∀ k : pyval * string → M unit,
              (open_annotation ns w f ≫= k)
              = (([EvCat 66 f], inr tt) : M unit) ≫= λ _,
                x ← getitem d "file" 70; p' ← path_join img_path x 70;
                k (d, p')) as Hopen.
    { intros k. unfold open_annotation.
      rewrite (bind_ok _ _ _ _ (fs_cat_ok _ _ _ _ Ho)).
      change (json_loads (Bytes (Parses d) p) 66) with (@ret pyval d).
      rewrite bind_ret, lookup_os, bool_decide_eq_true_2, bind_ret by done.
      cbn [fst snd]. msimpl.
      destruct (getitem d "file" 70) as [t0 [e0|x0]]; [done|].
      destruct (path_join img_path x0 70) as [t1 [e1|x1]]; [done|].
      simpl. destruct (k (d, x1)) as [t2 r2]. simpl.
      by rewrite <- !app_assoc. }
    unfold plot_file. rewrite Hopen. clear Hopen.
    simpl in Hb. destruct (field d "file") as [v|] eqn:Hv.
    + rewrite (getitem_field _ _ _ _ Hv), bind_ret.
      destruct v as [| | | |file| |];
        try (eexists _, _; split; [reflexivity|]; by intros _).
      change (path_join img_path (PStr file) 70)
        with (@ret string (posix_join img_path file)).
      rewrite bind_ret.
      destruct (field d "annotations") as [?|] eqn:Ha; [done|].
      assert (∀ img, draw_annotations d img
                     = raise (KeyError "annotations") 76) as Hdraw.
      { intros img. unfold draw_annotations, getitem.
        unfold field in Ha, Hv. destruct d; try done. by rewrite Ha. }
      destruct (objects w !! posix_join img_path file) as [[|j pic]|] eqn:Hi.
      * rewrite (bind_fail _ _ _ _ (load_image_empty _ _ Hi)).
        eexists _, _. split; [reflexivity|]. by intros _.
      * rewrite (bind_ok _ _ _ _ (load_image_bytes _ _ _ _ Hi)), Hdraw.
        eexists _, _. split; [reflexivity|]. by intros _.
      * rewrite (bind_fail _ _ _ _ (load_image_missing _ _ Hi)).
        eexists _, _. split; [reflexivity|]. by intros _.
    + unfold getitem. unfold field in Hv.
      destruct d; try (eexists _, _; split; [reflexivity|]; by intros _).
      rewrite Hv. eexists _, _; split; [reflexivity|]; by intros _.
Qed.

(** An annotation without ["annotations"]: the image is fetched, then the
    key is missed. *)
Lemma malformed_annotation_failures_witness :
  ∃ tr e,
    plot_file Samples.os_imported Samples.store_no_boxes (AxGrid 2 2)
      0 "a.json" = (tr, inl e) ∧
    tr = [EvCat 66 "a.json"; EvCat 71 "s3://bucket/dataset/train/a.jpg"] ∧
    e = Raised (KeyError "annotations") 76.
Proof.
  destruct (malformed_annotation_failures Samples.os_imported
              Samples.store_no_boxes (AxGrid 2 2) 0 "a.json"
              (Bytes (Parses (PDict {["file" := PStr "a.jpg"]})) None))
    as (tr & e & Hrun & Hout); [by vm_compute | done |].
  exists tr, e. split; [done|]. by apply Hout.
Defined.

(** The claim that every malformed annotation fails before any image fetch
    fails for an annotation that only lacks ["annotations"]. *)
Lemma malformed_before_fetch_counterexample :
  ¬ (∀ ns w ax i f b,
       objects w !! f = Some b → malformed b = true →
       ∃ tr e,
         plot_file ns w ax i f = (tr, inl e) ∧
         spec_error_of e = Some MalformedAnnotationError ∧
         ∀ path, EvCat 71 path ∉ tr).
Proof.
  intros H.
  destruct (H Samples.os_imported Samples.store_no_boxes (AxGrid 2 2)
              0 "a.json"
              (Bytes (Parses (PDict {["file" := PStr "a.jpg"]})) None))
    as (tr & e & Hrun & _ & Hfetch); [by vm_compute | done |].
  vm_compute in Hrun. injection Hrun as <- _.
  apply (Hfetch "s3://bucket/dataset/train/a.jpg").
  apply list_elem_of_further, list_elem_of_here.
Qed.

Lemma spec_error_after_decode e :
  73 < line_of e → spec_error_of e ≠ Some ImageDecodeError.
Proof.
  intros Hl. unfold spec_error_of.
  rewrite (proj2 (Nat.eqb_neq _ _)) by lia.
  destruct (exc_of e); repeat case_match; done.
Qed.

(** With no image, the rest of the loop body draws nothing, shows nothing
    and fails after line 73: at the lookup of ["annotations"], at a box
    that has no rectangle, at the cell access, or at [imshow] once the
    caption is set. *)
Lemma null_image_fails d ax i path tr r :
  (draw_annotations d None ≫= place ax i path) = (tr, r) →
  ∃ e, r = inl e ∧ line_of e ∈ [76; 78; 79; 82; 84; 85; 89; 91] ∧
       (∀ s, EvRectangle s ∉ tr) ∧ (∀ cell im, EvImshow cell im ∉ tr) ∧
       (line_of e = 85 ∨ line_of e = 84 →
        ∃ l b, boxes_of d = Some l ∧ b ∈ l ∧ box_shape b = None) ∧
       (∀ l nr nc,
          boxes_of d = Some l → Forall (λ b, is_Some (box_shape b)) l →
          ax = AxGrid nr nc →
          (cell_of i).1 < nr → (cell_of i).2 < nc →
          tr = [EvSetTitle (cell_of i) (caption i path)] ∧
          e = Raised TypeError 91).
Proof.
  intros H.
  assert (∀ l nr nc,
          boxes_of d = Some l → Forall (λ b, is_Some (box_shape b)) l →
          ax = AxGrid nr nc →
          (cell_of i).1 < nr → (cell_of i).2 < nc →
          tr = [EvSetTitle (cell_of i) (caption i path)] ∧
          r = inl (Raised TypeError 91)) as Hlast.
  { intros l nr nc Hb Hl -> Hr Hc.
    assert (is_Some (mapM box_shape l)) as [ss Hss]
      by (by apply mapM_is_Some).
    rewrite (draw_annotations_boxes _ _ _ Hb) in H.
    rewrite (bind_ok _ _ _ _ (draw_bboxes_ok _ None _ Hss)) in H.
    simpl in H. rewrite (place_null_grid _ _ _ _ Hr Hc) in H.
    by injection H as <- <-. }
  inv_bind H.
  - apply draw_annotations_inv in Hm
      as [(Hb & -> & x & [= ->]) | (l & Hb & Hd)].
    + exists (Raised x 76). split; [done|]. split; [compute_done|].
      split; [by intros s ?%elem_of_nil|].
      split; [by intros cell im ?%elem_of_nil|]. split.
      * simpl. intros [?|?]; lia.
      * intros l nr nc Hl. by rewrite Hl in Hb.
    + apply draw_bboxes_inv in Hd
        as (good & b & rest & ss & -> & Hg & -> & Hdb).
      simpl in Hdb.
      apply draw_bbox_fail_line in Hdb as (_ & Hbs & Hline).
      exists e. split; [done|]. split.
      { repeat (apply elem_of_cons in Hline as [->|Hline]);
          [compute_done..|by apply elem_of_nil in Hline]. }
      split; [by intros s ?%elem_of_nil|].
      split; [by intros cell im ?%elem_of_nil|]. split.
      * intros _. exists (good ++ b :: rest), b. split; [done|].
        split; [|done]. apply elem_of_app. right. apply list_elem_of_here.
      * intros l nr nc Hl Hall Hax Hr Hc.
        destruct (Hlast l nr nc Hl Hall Hax Hr Hc) as [Htr He].
        by injection He as ->.
  - apply draw_annotations_inv in Hm
      as [(_ & _ & x & [=]) | (l & Hb & Hd)].
    apply draw_bboxes_inv in Hd as (ss & Hss & -> & ->). simpl in Hk.
    apply place_inv in Hk
      as [(-> & x & -> & Hx & _) | (nr & nc & -> & Hr & Hc & Hp)].
    + exists (Raised x 89). split; [done|]. split; [compute_done|].
      split; [by intros s ?%elem_of_nil|].
      split; [by intros cell im ?%elem_of_nil|]. split.
      * simpl. intros [?|?]; lia.
      * intros l' nr nc Hl Hall Hax Hr Hc.
        by destruct (Hlast l' nr nc Hl Hall Hax Hr Hc) as [_ [=]].
    + destruct Hp as [(_ & -> & ->) | (? & [=] & _)].
      exists (Raised TypeError 91). split; [done|]. split; [compute_done|].
      split; [by intros s [=]%list_elem_of_singleton|].
      split; [by intros cell im [=]%list_elem_of_singleton|]. split.
      * simpl. intros [?|?]; lia.
      * intros l' nr' nc' Hl Hall Hax Hr' Hc'.
        by destruct (Hlast l' nr' nc' Hl Hall Hax Hr' Hc') as [_ [= ]].
Qed.

Lemma undecodable_image_outcome_aux ns w ax i f d file j :
  "os" ∈ ns → annotation_of w f = Some d → file_of d = Some file →
  objects w !! posix_join img_path file = Some (Bytes j None) →
  ∃ tr e,
    plot_file ns w ax i f =
      (EvCat 66 f :: EvCat 71 (posix_join img_path file) :: tr, inl e) ∧
    73 < line_of e ∧ spec_error_of e ≠ Some ImageDecodeError ∧
    (∀ l nr nc,
       boxes_of d = Some l → Forall (λ b, is_Some (box_shape b)) l →
       ax = AxGrid nr nc →
       (cell_of i).1 < nr → (cell_of i).2 < nc →
       tr = [EvSetTitle (cell_of i)
               (caption i (posix_join img_path file))] ∧
       e = Raised TypeError 91) ∧
    (∀ s, EvRectangle s ∉ tr) ∧ (∀ cell im, EvImshow cell im ∉ tr).
Proof.
  intros Hos Hd Hf Hi. rewrite (plot_file_opened _ _ _ _ _ _ _ Hos Hd Hf).
  cbv zeta. rewrite (bind_ok _ _ _ _ (load_image_bytes _ _ _ _ Hi)).
  destruct (draw_annotations d (decoded None)
              ≫= place ax i (posix_join img_path file)) as [tr r] eqn:Hrest.
  destruct (null_image_fails _ _ _ _ _ _ Hrest)
    as (e & -> & Hline & Hrect & Hshow & _ & Hlast).
  exists tr, e. simpl. split; [done|].
  assert (73 < line_of e) as Hlt.
  { repeat (apply elem_of_cons in Hline as [->|Hline]);
      [lia..|by apply elem_of_nil in Hline]. }
  split; [done|]. split; [by apply spec_error_after_decode|]. done.
Qed.

(** C3, as the code has it: [cv2.imdecode] raises only for an empty byte
    string.  For bytes that are not empty and not a picture the decode step
    raises nothing and returns [None]; the run goes on with that null
    image, on which no rectangle is drawn and which is never shown, and the
    file fails later, at a line after 73.  When nothing else is wrong with
    the file (its boxes have their rectangles, its cell is in the grid), the
    caption is set and [imshow] raises a type error at line 91. *)
Theorem undecodable_image_outcome ns w ax i f d file b :
  "os" ∈ ns → annotation_of w f = Some d → file_of d = Some file →
  objects w !! posix_join img_path file = Some b →
  undecodable b = true →
  match b with
  | Empty =>
      load_image w (posix_join img_path file) =
        ([EvCat 71 (posix_join img_path file)], inl (Raised CvError 73)) ∧
      plot_file ns w ax i f =
        ([EvCat 66 f; EvCat 71 (posix_join img_path file)],
         inl (Raised CvError 73))
  | Bytes _ _ =>
      load_image w (posix_join img_path file) =
        ([EvCat 71 (posix_join img_path file)], inr None) ∧
      ∃ tr e,
        plot_file ns w ax i f =
          (EvCat 66 f :: EvCat 71 (posix_join img_path file) :: tr, inl e) ∧
        73 < line_of e ∧ spec_error_of e ≠ Some ImageDecodeError ∧
        (∀ s, EvRectangle s ∉ tr) ∧ (∀ cell im, EvImshow cell im ∉ tr) ∧
        (∀ l nr nc,
           boxes_of d = Some l → Forall (λ b, is_Some (box_shape b)) l →
           ax = AxGrid nr nc →
           (cell_of i).1 < nr → (cell_of i).2 < nc →
           tr = [EvSetTitle (cell_of i)
                   (caption i (posix_join img_path file))] ∧
           e = Raised TypeError 91)
  end.
Proof.
  intros Hos Hd Hf Hi Hb. rewrite (plot_file_opened _ _ _ _ _ _ _ Hos Hd Hf).
  destruct b as [|j [pic|]]; [|done|].
  - split; [by apply load_image_empty|]. cbv zeta.
    by rewrite (bind_fail _ _ _ _ (load_image_empty _ _ Hi)).
  - split; [by apply (load_image_bytes _ _ j None)|].
    destruct (undecodable_image_outcome_aux ns w ax i f d file j
                Hos Hd Hf Hi)
      as (tr & e & Hrun & Hlt & Hspec & Hlast & Hrect & Hshow).
    rewrite (plot_file_opened _ _ _ _ _ _ _ Hos Hd Hf) in Hrun.
    by exists tr, e.
Qed.

(** An annotation with two boxes whose image is garbage: nothing is drawn,
    the caption is set, then [imshow] fails. *)
Lemma undecodable_image_outcome_witness :
  load_image Samples.store_garbage_boxes "s3://bucket/dataset/train/a.jpg" =
    ([EvCat 71 "s3://bucket/dataset/train/a.jpg"], inr None) ∧
  plot_file Samples.os_imported Samples.store_garbage_boxes (AxGrid 2 2)
    0 "a.json" =
    ([EvCat 66 "a.json"; EvCat 71 "s3://bucket/dataset/train/a.jpg";
      EvSetTitle (0, 0) "[img-00] s3://bucket/dataset/train/a.jpg"],
     inl (Raised TypeError 91)).
Proof.
  destruct (undecodable_image_outcome Samples.os_imported
              Samples.store_garbage_boxes (AxGrid 2 2) 0 "a.json"
              (PDict (list_to_map [("file", PStr "a.jpg");
                                   ("annotations",
                                    PList [Samples.box0; Samples.box4])]))
              "a.jpg" Samples.garbage)
    as (Hload & tr & e & Hrun & _ & _ & _ & _ & Hlast);
    [done | by vm_compute | by vm_compute | by vm_compute | done |].
  split; [exact Hload|].
  destruct (Hlast [Samples.box0; Samples.box4] 2 2) as [-> ->];
    [by vm_compute | | done | simpl; lia | simpl; lia | exact Hrun].
  repeat (apply Forall_cons_2; [eexists; vm_compute; reflexivity|]).
  apply Forall_nil_2.
Defined.

(** The claim that the decode step raises on every undecodable input fails
    for bytes that are not empty: it returns [None]. *)
Lemma decode_raises_counterexample :
  ¬ (∀ w path b,
       objects w !! path = Some b → undecodable b = true →
       ∃ tr e, load_image w path = (tr, inl e)).
Proof.
  intros H.
  destruct (H Samples.store_garbage "s3://bucket/dataset/train/b.jpg"
              Samples.garbage) as (tr & e & Hrun);
    [by vm_compute | done |].
  vm_compute in Hrun. discriminate Hrun.
Qed.

Lemma axes_for_grid count :
  3 ≤ count → axes_for count = AxGrid (grid_rows count) 2.
Proof.
  intros Hc. destruct (grid_rows_ceil count) as [_ Hb].
  unfold axes_for. case_match eqn:Hr; [|done].
  apply Nat.eqb_eq in Hr. lia.
Qed.

(** C5, as the code has it: there is no [try] in the cell, so the first
    file whose processing raises aborts the run with that very exception:
    the run has done what the files before it needed and what the failing
    file got to, it has read nothing of the files after it, it has shown
    the images of the files before it and no other, and [plt.show()] is not
    reached.  Once [os] has resolved, an annotation naming an image that is
    not in the store fails the run at the fetch of line 71 with the store's
    [FileNotFoundError], read as [ImageNotFoundError]; image bytes that are
    not empty and do not decode fail it after the decode step, with an
    error that is no decode error: when nothing else is wrong with the file
    and the grid has two rows, the type error of [imshow]. *)
Theorem first_failure_aborts_run ns w pre f post tr_pre tr_f e :
  listing w = pre ++ f :: post →
  plot_files ns w (axes_for (length (listing w))) 0 pre = (tr_pre, inr tt) →
  plot_file ns w (axes_for (length (listing w))) (length pre) f
    = (tr_f, inl e) →
  run_cell ns w =
    (EvLs json_path :: EvSubplots (grid_rows (length (listing w))) 2
       :: tr_pre ++ tr_f, inl e) ∧
  (EvShow ∉ (run_cell ns w).1) ∧
  reads (run_cell ns w).1 = pre ++ [f] ∧
  length (shown (run_cell ns w).1) = length pre ∧
  (∀ d file,
     "os" ∈ ns → annotation_of w f = Some d → file_of d = Some file →
     objects w !! posix_join img_path file = None →
     tr_f = [EvCat 66 f; EvCat 71 (posix_join img_path file)] ∧
     e = Raised FileNotFoundError 71 ∧
     spec_error_of e = Some ImageNotFoundError) ∧
  (∀ d file j,
     "os" ∈ ns → annotation_of w f = Some d → file_of d = Some file →
     objects w !! posix_join img_path file = Some (Bytes j None) →
     73 < line_of e ∧ spec_error_of e ≠ Some ImageDecodeError ∧
     (∀ l, boxes_of d = Some l → Forall (λ b, is_Some (box_shape b)) l →
           3 ≤ length (listing w) → e = Raised TypeError 91)).
Proof.
  intros Hl Hpre Hf.
  assert (run_cell ns w =
    (EvLs json_path :: EvSubplots (grid_rows (length (listing w))) 2
       :: tr_pre ++ tr_f, inl e)) as Hrun.
  { rewrite (run_cell_eq ns w (tr_pre ++ tr_f) (inl e)).
    - by rewrite app_nil_r.
    - rewrite Hl. by destruct pre.
    - rewrite Hl at 2. by apply plot_files_app_fail. }
  split; [done|]. split; [|split; [|split; [|split]]].
  - intros Hs. by apply (run_cell_show ns w _ (run_cell ns w).2) in Hs;
      [rewrite Hrun in Hs | apply surjective_pairing].
  - rewrite Hrun. cbn [fst].
    change (reads (EvLs json_path
                     :: EvSubplots (grid_rows (length (listing w))) 2
                     :: tr_pre ++ tr_f))
      with (reads (tr_pre ++ tr_f)).
    rewrite reads_app, (plot_file_reads _ _ _ _ _ _ _ Hf).
    by rewrite (proj2 (plot_files_reads _ _ _ _ _ _ _ Hpre)).
  - rewrite Hrun. cbn [fst].
    change (shown (EvLs json_path
                     :: EvSubplots (grid_rows (length (listing w))) 2
                     :: tr_pre ++ tr_f))
      with (shown (tr_pre ++ tr_f)).
    rewrite shown_app, length_app.
    destruct (plot_file_shown _ _ _ _ _ _ _ Hf) as [-> _].
    destruct (plot_files_shown _ _ _ _ _ _ _ Hpre) as (_ & _ & Hn).
    rewrite (Hn eq_refl). simpl. lia.
  - intros d file Hos Hd Hfi Hi.
    rewrite (plot_file_opened _ _ _ _ _ _ _ Hos Hd Hfi) in Hf. cbv zeta in Hf.
    rewrite (bind_fail _ _ _ _ (load_image_missing _ _ Hi)) in Hf.
    by injection Hf as <- <-.
  - intros d file j Hos Hd Hfi Hi.
    destruct (undecodable_image_outcome_aux ns w
                (axes_for (length (listing w))) (length pre) f d file j
                Hos Hd Hfi Hi) as (tr & e' & Hrun' & Hlt & Hspec & Hlast & _).
    rewrite Hf in Hrun'. injection Hrun' as -> <-.
    do 2 (split; [done|]). intros l Hb Hall Hcount.
    assert (length pre < length (listing w)) as Hk
      by (rewrite Hl, length_app; simpl; lia).
    destruct (cell_of_bounds _ _ Hk) as [Hr Hc].
    by destruct (Hlast l _ _ Hb Hall (axes_for_grid _ Hcount) Hr Hc).
Qed.

(** The second of three files names a missing image: the first file is
    plotted, the third is never read. *)
Lemma first_failure_aborts_run_witness :
  run_cell Samples.os_imported Samples.store_missing =
    (EvLs json_path :: EvSubplots 2 2
       :: (plot_files Samples.os_imported Samples.store_missing
             (AxGrid 2 2) 0 ["a.json"]).1
       ++ [EvCat 66 "m.json";
           EvCat 71 "s3://bucket/dataset/train/missing.jpg"],
     inl (Raised FileNotFoundError 71)) ∧
  (EvShow ∉ (run_cell Samples.os_imported Samples.store_missing).1) ∧
  reads (run_cell Samples.os_imported Samples.store_missing).1
    = ["a.json"; "m.json"] ∧
  length (shown (run_cell Samples.os_imported Samples.store_missing).1) = 1.
Proof.
  destruct (first_failure_aborts_run Samples.os_imported
              Samples.store_missing ["a.json"] "m.json" ["c.json"]
              (plot_files Samples.os_imported Samples.store_missing
                 (AxGrid 2 2) 0 ["a.json"]).1
              [EvCat 66 "m.json";
               EvCat 71 "s3://bucket/dataset/train/missing.jpg"]
              (Raised FileNotFoundError 71))
    as (Hrun & Hshow & Hreads & Hshown & _);
    [done | by vm_compute | by vm_compute |].
  split; [exact Hrun|]. split; [exact Hshow|].
  split; [exact Hreads | exact Hshown].
Defined.

(** The claim that the run fails with the error kind of the first file's
    defect fails for an undecodable image: the run fails with the type
    error of [imshow]. *)
Lemma failure_kind_counterexample :
  ¬ (∀ ns w f rest k,
       listing w = f :: rest → defect w f = Some k →
       ∃ tr e, run_cell ns w = (tr, inl e) ∧ spec_error_of e = Some k ∧
               (EvShow ∉ tr)).
Proof.
  intros H.
  destruct (H Samples.os_imported Samples.store_garbage "b.json"
              ["a.json"; "c.json"] ImageDecodeError)
    as (tr & e & Hrun & Hkind & _); [done | by vm_compute |].
  vm_compute in Hrun. injection Hrun as _ <-. discriminate Hkind.
Qed.

(** ** The unbound name *)

(** C9, as the code has it: [os] is not among the names the cell binds.
    When it is not bound in the kernel either, a run over a non-empty
    listing ends in its first iteration, having only listed the prefix,
    asked for the grid and read the first annotation file: no image is
    fetched, nothing is put into a cell and [plt.show()] is not reached.
    The exception is the [NameError] of line 70 if [json.loads] takes the
    first annotation file; if it does not, or the file cannot be read, it
    is the error of line 66, which comes first. *)
Theorem os_unbound_first_iteration ns w f rest tr r :
  "os" ∉ ns → listing w = f :: rest → run_cell ns w = (tr, r) →
  ("os" ∉ cell_names) ∧
  tr = [EvLs json_path; EvSubplots (grid_rows (length (listing w))) 2;
        EvCat 66 f] ∧
  (∀ path, EvCat 71 path ∉ tr) ∧ (∀ cell, ¬ placed cell tr) ∧
  (EvShow ∉ tr) ∧
  match objects w !! f with
  | Some (Bytes (Parses d) _) => r = inl (Raised (NameError "os") 70)
  | Some (Bytes (Fails why) _) => r = inl (Raised (loads_exc why) 66)
  | Some Empty => r = inl (Raised JSONDecodeError 66)
  | None => r = inl (Raised FileNotFoundError 66)
  end.
Proof.
  intros Hos Hl H. split; [compute_done|].
  assert (∃ e, open_annotation ns w f = ([EvCat 66 f], inl e) ∧
               match objects w !! f with
               | Some (Bytes (Parses d) _) => e = Raised (NameError "os") 70
               | Some (Bytes (Fails why) _) => e = Raised (loads_exc why) 66
               | Some Empty => e = Raised JSONDecodeError 66
               | None => e = Raised FileNotFoundError 66
               end) as (e & Hopen & He).
  { unfold open_annotation, fs_cat, json_loads.
    rewrite lookup_os, bool_decide_eq_false_2 by done.
    destruct (objects w !! f) as [[|[why|d] p]|]; msimpl; by eexists. }
  rewrite (run_cell_eq ns w [EvCat 66 f] (inl e)) in H.
  - injection H as <- <-. split; [done|].
    split; [|split; [|split]].
    + intros path Hin. by repeat (apply elem_of_cons in Hin as [[=] | Hin]);
        apply elem_of_nil in Hin.
    + intros cell [[t Hin] | [im Hin]];
        by repeat (apply elem_of_cons in Hin as [[=] | Hin]);
          apply elem_of_nil in Hin.
    + intros Hin. by repeat (apply elem_of_cons in Hin as [[=] | Hin]);
        apply elem_of_nil in Hin.
    + by destruct (objects w !! f) as [[|[why|d] p]|]; subst.
  - by rewrite Hl.
  - rewrite Hl at 2. simpl.
    by rewrite (bind_fail _ _ _ _ (plot_file_open_fail _ _ _ _ _ _ _ Hopen)).
Qed.

(** The fresh kernel on [store3]; and on a first annotation file that is no
    text: the decoding error comes first. *)
Lemma os_unbound_first_iteration_witness :
  (run_cell ∅ Samples.store3).1 =
    [EvLs json_path; EvSubplots 2 2; EvCat 66 "a.json"] ∧
  (run_cell ∅ Samples.store3).2 = inl (Raised (NameError "os") 70) ∧
  (run_cell ∅ Samples.store_binary).2 = inl (Raised UnicodeDecodeError 66).
Proof.
  destruct (os_unbound_first_iteration ∅ Samples.store3 "a.json"
              ["b.json"; "c.json"]
              (run_cell ∅ Samples.store3).1 (run_cell ∅ Samples.store3).2)
    as (_ & Htr & _ & _ & _ & Hr);
    [by vm_compute | done | apply surjective_pairing |].
  destruct (os_unbound_first_iteration ∅ Samples.store_binary "a.json" []
              (run_cell ∅ Samples.store_binary).1
              (run_cell ∅ Samples.store_binary).2)
    as (_ & _ & _ & _ & _ & Hr');
    [by vm_compute | done | apply surjective_pairing |].
  split; [exact Htr|]. split; [exact Hr | exact Hr'].
Defined.

(** The claim that every run over a non-empty listing fails with the
    [NameError] fails when the first annotation file is no JSON. *)
Lemma os_unbound_counterexample :
  ¬ (∀ w, listing w ≠ [] →
          ∃ tr, run_cell ∅ w = (tr, inl (Raised (NameError "os") 70))).
Proof.
  intros H. destruct (H Samples.store_bad_json) as [tr Hrun]; [done|].
  vm_compute in Hrun. discriminate Hrun.
Qed.

(** * Further properties of the cell *)

(** X1. The image a run shows in a cell is the decoded picture of the
    annotation file at the index of that cell, with three channels and the
    picture's size, carrying exactly one rectangle per box of the
    annotation, in the annotation's order, and nothing else. *)
Theorem shown_image_boxes_in_order ns w tr r cell im :
  run_cell ns w = (tr, r) → EvImshow cell im ∈ tr →
  ∃ i f d file l pic,
    listing w !! i = Some f ∧ cell = cell_of i ∧
    annotation_of w f = Some d ∧ file_of d = Some file ∧
    boxes_of d = Some l ∧
    picture_of w (posix_join img_path file) = Some pic ∧
    mapM box_shape l = Some (img_shapes im) ∧
    length (img_shapes im) = length l ∧
    img_rows im = pic_rows pic ∧ img_cols im = pic_cols pic ∧
    img_channels im = 3.
Proof.
  intros H Hev. apply (shown_in tr (cell, im)) in Hev.
  apply list_elem_of_lookup in Hev as [k Hk].
  destruct (run_cell_shown _ _ _ _ H) as (Hsh & _).
  destruct (Hsh k cell im Hk)
    as (f & d & file & l & pic & Hf & -> & _ & Hd & Hfi & Hb & Hp & Hss
        & Him & _).
  exists k, f, d, file, l, pic. do 7 (split; [done|]).
  split; [symmetry; by eapply length_mapM|]. by rewrite Him.
Qed.

Lemma shown_image_boxes_in_order_witness :
  EvImshow (0, 0)
    (Image 480 640 3
       [Shape (300, 38)%Z (400, 90)%Z [255; 0; 0]%Z 2;
        Shape (10, 20)%Z (40, 60)%Z [0; 255; 0]%Z 2])
    ∈ (run_cell Samples.os_imported Samples.store3).1 ∧
  ∃ i f d file l pic,
    listing Samples.store3 !! i = Some f ∧ (0, 0) = cell_of i ∧
    annotation_of Samples.store3 f = Some d ∧ file_of d = Some file ∧
    boxes_of d = Some l ∧
    picture_of Samples.store3 (posix_join img_path file) = Some pic ∧
    mapM box_shape l
      = Some [Shape (300, 38)%Z (400, 90)%Z [255; 0; 0]%Z 2;
              Shape (10, 20)%Z (40, 60)%Z [0; 255; 0]%Z 2] ∧
    2 = length l ∧ 480 = pic_rows pic ∧ 640 = pic_cols pic ∧ 3 = 3.
Proof.
  assert (EvImshow (0, 0)
            (Image 480 640 3
               [Shape (300, 38)%Z (400, 90)%Z [255; 0; 0]%Z 2;
                Shape (10, 20)%Z (40, 60)%Z [0; 255; 0]%Z 2])
            ∈ (run_cell Samples.os_imported Samples.store3).1) as Hin
    by (vm_compute; repeat constructor).
  split; [exact Hin|].
  apply (shown_image_boxes_in_order Samples.os_imported Samples.store3
           (run_cell Samples.os_imported Samples.store3).1
           (run_cell Samples.os_imported Samples.store3).2 (0, 0)
           (Image 480 640 3
              [Shape (300, 38)%Z (400, 90)%Z [255; 0; 0]%Z 2;
               Shape (10, 20)%Z (40, 60)%Z [0; 255; 0]%Z 2])).
  - apply surjective_pairing.
  - exact Hin.
Defined.





(** ** Runs that succeed *)

Lemma plot_files_success ns w nr files i :
  "os" ∈ ns → Forall (well_formed w) files → i + length files ≤ 2 * nr →
  ∃ t, plot_files ns w (AxGrid nr 2) i files = (t, inr tt) ∧
       ∀ k f, files !! k = Some f → placed (cell_of (i + k)) t.
Proof.
  intros Hos. revert i. induction files as [|f files IH]; intros i Hwf Hlen.
  - exists []. split; [done|]. by intros k f Hk.
  - apply Forall_cons in Hwf as [Hf Hwf]. simpl in Hlen.
    destruct (plot_file_well_formed ns w (AxGrid nr 2) i f Hos Hf)
      as (file & ss & im & Hpf).
    destruct (cell_of_index i) as [Hi Hc].
    rewrite place_grid_ok in Hpf by lia. simpl in Hpf.
    destruct (IH (S i) Hwf) as (t' & Hrest & Hplaced); [lia|].
    eexists. split.
    + simpl. rewrite (bind_ok _ _ _ _ Hpf), Hrest. simpl. reflexivity.
    + intros [|k] g Hk.
      * rewrite Nat.add_0_r. left. eexists.
        apply list_elem_of_further, list_elem_of_further.
        apply elem_of_app. left. apply elem_of_app. right.
        apply list_elem_of_here.
      * simpl in Hk. replace (i + S k) with (S i + k) by lia.
        destruct (Hplaced k g Hk) as [[title Hin] | [im' Hin]];
          [left; exists title | right; exists im'];
          (apply list_elem_of_further, list_elem_of_further;
           apply elem_of_app; by right).
Qed.

(** X3. With [os] bound, at least three annotation files and every listed
    file well formed (a name for its image, boxes that have a rectangle,
    an image that exists and decodes), the run succeeds and ends with
    [plt.show()]; it fills the grid row by row: the cell in row [row] and
    column [col] gets a caption or an image exactly when [col < 2] and
    [2 * row + col < count], so that only the last cell of the last row can
    stay empty, and it does when the count is odd. *)
Theorem well_formed_run_fills_grid ns w :
  "os" ∈ ns → 3 ≤ length (listing w) → Forall (well_formed w) (listing w) →
  ∃ tr,
    run_cell ns w = (tr, inr tt) ∧ last tr = Some EvShow ∧
    (∀ row col,
       placed (row, col) tr ↔ col < 2 ∧ 2 * row + col < length (listing w)) ∧
    2 * grid_rows (length (listing w)) - length (listing w)
      = length (listing w) mod 2.
Proof.
  intros Hos Hcount Hwf.
  destruct (grid_rows_ceil (length (listing w))) as [_ Hb].
  pose proof (axes_for_grid _ Hcount) as Hax.
  destruct (plot_files_success ns w (grid_rows (length (listing w)))
              (listing w) 0 Hos Hwf) as (t & Hp & Hplaced); [lia|].
  assert (listing w ≠ []) as Hne
    by (intros Hl; rewrite Hl in Hcount; simpl in *; lia).
  rewrite <- Hax in Hp.
  pose proof (run_cell_eq ns w t (inr tt) Hne Hp) as Hrun.
  eexists. split; [exact Hrun|]. split; [|split].
  - change (EvLs json_path
              :: EvSubplots (grid_rows (length (listing w))) ncols
              :: t ++ [EvShow])
      with ((EvLs json_path
               :: EvSubplots (grid_rows (length (listing w))) ncols :: t)
              ++ [EvShow]).
    apply last_snoc.
  - intros row col. split.
    + intros Hcell.
      destruct (run_cell_placed _ _ _ _ _ Hrun Hcell)
        as (i & f & nr' & Hi & Hc & _).
      apply lookup_lt_Some in Hi. destruct (cell_of_index i) as [Hidx Hlt].
      rewrite <- Hc in Hidx, Hlt. simpl in *. lia.
    + intros [Hc Hi].
      destruct (lookup_lt_is_Some_2 (listing w) (2 * row + col) Hi) as [f Hf].
      specialize (Hplaced _ _ Hf). rewrite Nat.add_0_l in Hplaced.
      rewrite (cell_of_unique _ _ Hc) in Hplaced.
      destruct Hplaced as [[title Hin] | [im Hin]];
        [left; exists title | right; exists im];
        (apply list_elem_of_further, list_elem_of_further;
         apply elem_of_app; by left).
  - unfold grid_rows.
    pose proof (Nat.div_mod_eq (length (listing w) + 1) 2).
    pose proof (Nat.mod_upper_bound (length (listing w) + 1) 2).
    pose proof (Nat.div_mod_eq (length (listing w)) 2).
    pose proof (Nat.mod_upper_bound (length (listing w)) 2).
    assert ((length (listing w) + 1) mod 2
            = 1 - length (listing w) mod 2) as Hm.
    { replace (length (listing w) + 1) with (1 + length (listing w)) by lia.
      rewrite <- Nat.Div0.add_mod_idemp_r.
      destruct (length (listing w) mod 2) as [|[|m]] eqn:Hmod;
        [done|done|lia]. }
    lia.
Qed.

(** Three well-formed files: cells (0,0), (0,1) and (1,0) are filled,
    (1,1) stays empty. *)
Lemma well_formed_run_fills_grid_witness :
  ∃ tr,
    run_cell Samples.os_imported Samples.store3 = (tr, inr tt) ∧
    last tr = Some EvShow ∧
    (∀ row col, placed (row, col) tr ↔ col < 2 ∧ 2 * row + col < 3) ∧
    2 * grid_rows 3 - 3 = 3 mod 2.
Proof.
  apply (well_formed_run_fills_grid Samples.os_imported Samples.store3).
  - vm_compute. repeat constructor.
  - simpl. lia.
  - apply Forall_forall. intros f Hf. by apply store3_well_formed.
Defined.

(** ** What a run reads *)

(** X4. An empty annotation directory does not give an empty figure: the
    run fails at [plt.subplots] (line 61), which is asked for zero rows,
    before any object is read, whether or not [os] is bound. *)
Theorem empty_listing_fails ns w tr r :
  listing w = [] → run_cell ns w = (tr, r) →
  tr = [EvLs json_path; EvSubplots 0 2] ∧
  (∃ e, r = inl e ∧ line_of e = 61) ∧
  (∀ line path, EvCat line path ∉ tr) ∧ (EvShow ∉ tr).
Proof.
  intros Hl H. rewrite (run_cell_empty _ _ Hl) in H. injection H as <- <-.
  split; [done|]. split; [by eexists|]. split.
  - intros line path Hin.
    apply elem_of_cons in Hin. destruct Hin as [[=]|Hin].
    by apply list_elem_of_singleton in Hin.
  - intros Hin. apply elem_of_cons in Hin. destruct Hin as [[=]|Hin].
    by apply list_elem_of_singleton in Hin.
Qed.

Lemma empty_listing_fails_witness :
  (run_cell ∅ (S3 [] (objects Samples.store3))).1
    = [EvLs json_path; EvSubplots 0 2] ∧
  ∃ e, (run_cell ∅ (S3 [] (objects Samples.store3))).2 = inl e ∧
       line_of e = 61.
Proof.
  destruct (empty_listing_fails ∅ (S3 [] (objects Samples.store3))
              (run_cell ∅ (S3 [] (objects Samples.store3))).1
              (run_cell ∅ (S3 [] (objects Samples.store3))).2)
    as (Htr & He & _); [done | apply surjective_pairing |].
  split; [exact Htr | exact He].
Defined.

(** X5. A run reads the annotation files in the order of the listing, each
    at most once and none skipped: the files read form an initial segment of
    the listing, which is the whole listing when the run succeeds. *)
Theorem reads_follow_listing ns w tr r :
  run_cell ns w = (tr, r) →
  reads tr `prefix_of` listing w ∧ (r = inr tt → reads tr = listing w).
Proof.
  intros H.
  destruct (run_cell_trace _ _ _ _ H) as (t & r' & Hp & Hr & _ & _ & -> & _).
  destruct (plot_files_reads _ _ _ _ _ _ _ Hp) as [Hpre Hall].
  split; [done|]. intros Hok. by apply Hall, Hr.
Qed.

Lemma reads_follow_listing_witness :
  reads (run_cell Samples.os_imported Samples.store_missing).1
    `prefix_of` ["a.json"; "m.json"; "c.json"] ∧
  reads (run_cell Samples.os_imported Samples.store3).1
    = listing Samples.store3.
Proof.
  split.
  - by destruct (reads_follow_listing Samples.os_imported
                   Samples.store_missing
                   (run_cell Samples.os_imported Samples.store_missing).1
                   (run_cell Samples.os_imported Samples.store_missing).2)
      as [Hpre _]; [apply surjective_pairing|].
  - destruct (reads_follow_listing Samples.os_imported Samples.store3
                (run_cell Samples.os_imported Samples.store3).1
                (run_cell Samples.os_imported Samples.store3).2)
      as [_ Hall]; [apply surjective_pairing|].
    apply Hall. vm_compute. reflexivity.
Defined.

(** X6. Every image a run fetches is named by the ["file"] key of a listed
    annotation: a relative name is fetched under the image directory, an
    absolute name (one that starts with a slash) is fetched as it is, the
    image directory being dropped. *)
Theorem fetched_image_path ns w tr r line path :
  run_cell ns w = (tr, r) → EvCat line path ∈ tr → line ≠ 66 →
  line = 71 ∧
  ∃ i f d file,
    listing w !! i = Some f ∧
    annotation_of w f = Some d ∧ file_of d = Some file ∧
    path = posix_join img_path file ∧
    path = (if String.prefix "/" file then file else img_path +:+ file).
Proof.
  intros H Hev Hline.
  destruct (run_cell_in _ _ _ _ _ H Hev)
    as [[=] | [[=] | [[[=] _] | (k & f & t' & r' & Hk & Hp & Hin)]]].
  destruct (plot_file_cat _ _ _ _ _ _ _ _ _ Hp Hin)
    as [[-> _] | (-> & d & file & Hd & Hf & ->)]; [done|].
  split; [done|]. exists k, f, d, file. do 4 (split; [done|]).
  unfold posix_join. by destruct (String.prefix "/" file).
Qed.

(** An annotation naming [/other/a.jpg] has that very path fetched. *)
Lemma fetched_image_path_witness :
  EvCat 71 "/other/a.jpg"
    ∈ (run_cell Samples.os_imported Samples.store_absolute).1 ∧
  71 = 71 ∧
  ∃ i f d file,
    listing Samples.store_absolute !! i = Some f ∧
    annotation_of Samples.store_absolute f = Some d ∧
    file_of d = Some file ∧
    "/other/a.jpg" = posix_join img_path file ∧
    "/other/a.jpg"
      = (if String.prefix "/" file then file else img_path +:+ file).
Proof.
  assert (EvCat 71 "/other/a.jpg"
            ∈ (run_cell Samples.os_imported Samples.store_absolute).1) as Hin
    by (vm_compute; repeat constructor).
  split; [exact Hin|].
  apply (fetched_image_path Samples.os_imported Samples.store_absolute
           (run_cell Samples.os_imported Samples.store_absolute).1
           (run_cell Samples.os_imported Samples.store_absolute).2).
  - apply surjective_pairing.
  - exact Hin.
  - lia.
Defined.

(** ** Captions identify their file *)

Lemma all_digits_app s1 s2 :
  all_digits (s1 +:+ s2) = all_digits s1 && all_digits s2.
Proof.
  induction s1 as [|c s1 IH]; [done|]. simpl. by rewrite IH, andb_assoc.
Qed.

Lemma all_digits_zeros k : all_digits (zeros k) = true.
Proof. induction k as [|k IH]; [done|]. simpl. by rewrite IH. Qed.

Lemma all_digits_uint d : all_digits (NilEmpty.string_of_uint d) = true.
Proof. induction d; simpl; by rewrite ?IHd. Qed.

Lemma all_digits_format width i :
  all_digits (format_zero_width width i) = true.
Proof.
  unfold format_zero_width, decimal.
  rewrite all_digits_app, all_digits_zeros. simpl.
  destruct (Nat.to_uint i) eqn:Hd; [done | apply all_digits_uint ..].
Qed.

Lemma digits_span a b x y :
  all_digits a = true → all_digits b = true →
  a +:+ String "]" x = b +:+ String "]" y → a = b ∧ x = y.
Proof.
  revert b. induction a as [|c a IH]; intros [|c' b] Ha Hb H; simpl in *.
  - by injection H as ->.
  - injection H as <- _. by rewrite andb_false_l in Hb.
  - injection H as -> _. by rewrite andb_false_l in Ha.
  - injection H as -> H.
    apply andb_true_iff in Ha as [_ Ha]. apply andb_true_iff in Hb as [_ Hb].
    destruct (IH b Ha Hb H) as [-> ->]. done.
Qed.

(** X7. The caption determines the file: two captions are equal only for
    the same index and the same image path, so no two files of a run share
    a caption, and the index can be read back from the caption. *)
Theorem caption_injective i j p q :
  caption i p = caption j q ↔ i = j ∧ p = q.
Proof.
  split; [|by intros [-> ->]].
  unfold caption. intros H. simpl in H. injection H as H.
  apply digits_span in H as [Hd Hp]; [|apply all_digits_format ..].
  injection Hp as ->. split; [|done].
  destruct (format_zero_width_spec 2 i) as [_ Hi].
  destruct (format_zero_width_spec 2 j) as [_ Hj].
  rewrite Hd in Hi. rewrite Hi in Hj. by injection Hj.
Qed.

Lemma caption_injective_witness :
  caption 7 "s3://bucket/dataset/train/a.jpg"
    ≠ caption 17 "s3://bucket/dataset/train/a.jpg".
Proof.
  intros H.
  apply (proj1 (caption_injective 7 17 "s3://bucket/dataset/train/a.jpg"
                  "s3://bucket/dataset/train/a.jpg")) in H.
  destruct H as [H _]. discriminate H.
Defined.

(** ** Where a run can fail *)




(** * The notebook-instance launcher *)

Import Smnb.

Lemma parse_args_help name args v :
  existsb is_help args = true → parse_args name args v = (usage name, inl 0).
Proof.
  revert v. induction args as [|key args IH]; intros v H; [done|].
  simpl in *. unfold is_help in H at 1.
  destruct (bool_decide (key = "-h") || bool_decide (key = "--help"));
    [done|].
  simpl in H. repeat case_match; by apply IH.
Qed.

(** X9. A help flag anywhere on the command line wins: the script prints
    its two help lines and exits with status 0, and issues no command,
    whatever else it is given, even after [--]. *)
Theorem help_wins name args env_nb_name watch_returns key :
  key ∈ args → key = "-h" ∨ key = "--help" →
  main name args env_nb_name watch_returns = (usage name, Exit 0) ∧
  (∀ cmd, Eval cmd ∉ usage name) ∧ (∀ n cmd, Watch n cmd ∉ usage name).
Proof.
  intros Hin Hkey. split; [|split].
  - unfold main. rewrite parse_args_help; [done|].
    apply existsb_exists. exists key. split; [by apply list_elem_of_In|].
    unfold is_help. by destruct Hkey as [-> | ->].
  - intros cmd Hc. apply elem_of_cons in Hc. destruct Hc as [[=]|Hc].
    by apply list_elem_of_singleton in Hc.
  - intros n cmd Hc. apply elem_of_cons in Hc. destruct Hc as [[=]|Hc].
    by apply list_elem_of_singleton in Hc.
Qed.

Lemma help_wins_witness :
  main "smnb-start" ["nb"; "--"; "--profile"; "dev"; "-h"] "other" false
    = (usage "smnb-start", Exit 0).
Proof.
  apply (help_wins "smnb-start" ["nb"; "--"; "--profile"; "dev"; "-h"]
           "other" false "-h").
  - repeat constructor.
  - by left.
Defined.

Lemma parse_args_cons name key rest v :
  parse_args name (key :: rest) v =
  if is_help key then (usage name, inl 0)
  else if is_no_watch key then
    parse_args name rest
      (Vars (AWS_CLI_OPTS v) (ALL_FOR_AWS_CLI v) 0 (NB_NAME v))
  else if is_separator key then
    parse_args name rest (Vars (AWS_CLI_OPTS v) 1 (WATCH v) (NB_NAME v))
  else if String.prefix "-" key || (0 <? ALL_FOR_AWS_CLI v) then
    parse_args name rest
      (Vars (AWS_CLI_OPTS v ++ words key) (ALL_FOR_AWS_CLI v) (WATCH v)
            (NB_NAME v))
  else
    parse_args name rest
      (Vars (AWS_CLI_OPTS v) (ALL_FOR_AWS_CLI v) (WATCH v) key).
Proof.
  simpl. unfold is_help, is_no_watch, is_separator.
  repeat case_match; simpl in *; try done.
Qed.

Lemma no_watch_facts key :
  is_no_watch key = true →
  is_separator key = false ∧ String.prefix "-" key = true.
Proof.
  unfold is_no_watch, is_separator.
  intros [H|H]%orb_true_iff; apply bool_decide_eq_true in H; by subst.
Qed.

Lemma separator_facts key :
  is_separator key = true → String.prefix "-" key = true.
Proof.
  unfold is_separator. intros H%bool_decide_eq_true. by subst.
Qed.

Lemma default_last_cons (d x : string) l :
  default d (last (x :: l)) = default x (last l).
Proof.
  destruct l as [|y l]; [done|].
  change (last (x :: y :: l)) with (last (y :: l)).
  destruct (last (y :: l)) eqn:E; [done|]. by apply last_None in E.
Qed.

Lemma parse_args_after name args v :
  ALL_FOR_AWS_CLI v = 1 → existsb is_help args = false →
  parse_args name args v =
  ([], inr (Vars (AWS_CLI_OPTS v ++ flat_map words (List.filter is_passed args))
                 1 (if existsb is_no_watch args then 0 else WATCH v)
                 (NB_NAME v))).
Proof.
  revert v. induction args as [|key args IH]; intros v Hall Hhelp.
  - simpl. rewrite app_nil_r. destruct v. simpl in *. by subst.
  - simpl in Hhelp. apply orb_false_iff in Hhelp as [Hk Hhelp].
    rewrite parse_args_cons, Hk. simpl existsb. simpl List.filter.
    destruct (is_no_watch key) eqn:Hn.
    + rewrite IH by done. simpl.
      replace (is_passed key) with false by (unfold is_passed; by rewrite Hn).
      by destruct (existsb is_no_watch args).
    + destruct (is_separator key) eqn:Hs.
      * rewrite IH by done.
        replace (is_passed key) with false
          by (unfold is_passed; by rewrite Hn, Hs).
        done.
      * rewrite Hall, orb_true_r, IH by done. simpl.
        replace (is_passed key) with true
          by (unfold is_passed; by rewrite Hn, Hs).
        simpl. by rewrite <- app_assoc.
Qed.

Lemma parse_args_before name args v :
  ALL_FOR_AWS_CLI v = 0 → existsb is_help args = false →
  parse_args name args v =
  ([], inr (Vars (AWS_CLI_OPTS v
                    ++ flat_map words (List.filter is_option (before_separator args))
                    ++ flat_map words (List.filter is_passed (after_separator args)))
                 (if existsb is_separator args then 1 else 0)
                 (if existsb is_no_watch args then 0 else WATCH v)
                 (default (NB_NAME v)
                    (last (List.filter is_name (before_separator args)))))).
Proof.
  revert v. induction args as [|key args IH]; intros v Hall Hhelp.
  - simpl. rewrite app_nil_r. destruct v. simpl in *. by subst.
  - simpl in Hhelp. apply orb_false_iff in Hhelp as [Hk Hhelp].
    rewrite parse_args_cons, Hk. simpl.
    destruct (is_no_watch key) eqn:Hn.
    + destruct (no_watch_facts _ Hn) as [Hs Hp]. rewrite Hs.
      rewrite IH by done. simpl.
      replace (is_option key) with false by (unfold is_option; by rewrite Hn, Hp).
      replace (is_name key) with false by (unfold is_name; by rewrite Hp).
      by destruct (existsb is_no_watch args).
    + destruct (is_separator key) eqn:Hs.
      * rewrite parse_args_after by done. done.
      * rewrite Hall. simpl. rewrite orb_false_r.
        destruct (String.prefix "-" key) eqn:Hp.
        -- rewrite IH by done. simpl.
           replace (is_option key) with true
             by (unfold is_option; by rewrite Hn, Hp).
           replace (is_name key) with false by (unfold is_name; by rewrite Hp).
           simpl. by rewrite <- !app_assoc.
        -- rewrite IH by done. simpl.
           replace (is_option key) with false
             by (unfold is_option; by rewrite Hp).
           replace (is_name key) with true by (unfold is_name; by rewrite Hp).
           by rewrite default_last_cons.
Qed.

(** X10. What the loop over the arguments computes, for a command line
    without a help flag.  The notebook name is the last argument before the
    first [--] that does not start with a dash, and the environment's
    [NB_NAME] if there is none.  The options for aws are, in order, the
    words of the arguments before [--] that start with a dash and of all
    arguments after it, except [-n], [--no-watch] and further [--], which
    are never passed on.  A [-n] or [--no-watch] anywhere turns watching
    off.  Nothing is printed. *)
Theorem parse_args_parsed name args env_nb_name :
  existsb is_help args = false →
  parse_args name args (initial env_nb_name)
    = ([], inr (parsed args env_nb_name)).
Proof. intros H. by rewrite parse_args_before. Qed.

Lemma parse_args_parsed_witness :
  parse_args "smnb-stop"
    ["first"; "--region=eu-west-1"; "nb"; "--"; "--profile"; "dev"; "-n";
     "--"; "--debug x"] (initial "envnb")
  = ([], inr (Vars ["--region=eu-west-1"; "--profile"; "dev"; "--debug"; "x"]
                   1 0 "nb")).
Proof.
  apply (parse_args_parsed "smnb-stop"
           ["first"; "--region=eu-west-1"; "nb"; "--"; "--profile"; "dev";
            "-n"; "--"; "--debug x"] "envnb").
  vm_compute. reflexivity.
Defined.

Lemma main_parsed name args env_nb_name watch_returns :
  existsb is_help args = false →
  main name args env_nb_name watch_returns =
  let v := parsed args env_nb_name in
  if bool_decide (NB_NAME v = EmptyString) then ([], Exit 0)
  else if negb (WATCH v <? 1) && negb watch_returns then
    (task name v ++ show_status v, Interrupted)
  else if contains "start" name then
    (task name v ++ show_status v ++ create_presigned_url v,
     EndWithStatusOf (aws_cmd v "create-presigned-notebook-instance-url"))
  else (task name v ++ show_status v, End 1).
Proof.
  intros H. unfold main. by rewrite parse_args_before.
Qed.

Lemma task_nonempty name v : task name v ≠ [].
Proof. unfold task. by repeat case_match. Qed.

(** X11. The script does something exactly when it has a notebook name:
    for a command line without a help flag it exits with status 0 right
    after reading its arguments, having printed and run nothing, if and only
    if the name it ends up with is empty; in particular when no argument
    before [--] is a name and [NB_NAME] is not set in the environment, even
    if options for aws were given. *)
Theorem no_name_runs_nothing name args env_nb_name watch_returns :
  existsb is_help args = false →
  (main name args env_nb_name watch_returns = ([], Exit 0)
   ↔ NB_NAME (parsed args env_nb_name) = EmptyString) ∧
  (List.filter is_name (before_separator args) = [] →
   env_nb_name = EmptyString →
   main name args env_nb_name watch_returns = ([], Exit 0)).
Proof.
  intros H. rewrite (main_parsed _ _ _ _ H). cbv zeta.
  assert (List.filter is_name (before_separator args) = [] →
          env_nb_name = EmptyString →
          NB_NAME (parsed args env_nb_name) = EmptyString) as Hnone.
  { intros Hf ->. simpl. by rewrite Hf. }
  split.
  - case_bool_decide as Hnb; [done|]. split; [|done].
    pose proof (task_nonempty name (parsed args env_nb_name)) as Ht.
    repeat case_match; intros [= Hout]; exfalso;
      by destruct (task name (parsed args env_nb_name)).
  - intros Hf Henv. by rewrite bool_decide_eq_true_2 by by apply Hnone.
Qed.

Lemma no_name_runs_nothing_witness :
  main "smnb-start" ["--region=eu-west-1"; "-n"; "--"; "nb"] EmptyString true
    = ([], Exit 0).
Proof.
  destruct (no_name_runs_nothing "smnb-start"
              ["--region=eu-west-1"; "-n"; "--"; "nb"] EmptyString true)
    as [_ Hnone]; [done|].
  by apply Hnone.
Defined.

Lemma append_assoc_r (a b c : string) : (a +:+ b) +:+ c = a +:+ b +:+ c.
Proof.
  induction a as [|x a IH]; [done|].
  change (String x ((a +:+ b) +:+ c) = String x (a +:+ b +:+ c)).
  by rewrite IH.
Qed.
Lemma append_nil_r (a : string) : a +:+ EmptyString = a.
Proof.
  induction a as [|x a IH]; [done|].
  change (String x (a +:+ EmptyString) = String x a). by rewrite IH.
Qed.
Lemma append_cancel_l (p a b : string) : p +:+ a = p +:+ b → a = b.
Proof.
  induction p as [|c p IH]; [done|].
  change (String c (p +:+ a) = String c (p +:+ b) → a = b).
  intros [= H]. by apply IH.
Qed.

Lemma aws_cmd_cancel v a b ta tb :
  aws_cmd v a +:+ ta = aws_cmd v b +:+ tb →
  a +:+ " --notebook-instance-name " +:+ NB_NAME v +:+ ta
  = b +:+ " --notebook-instance-name " +:+ NB_NAME v +:+ tb.
Proof.
  unfold aws_cmd. rewrite !append_assoc_r. intros H.
  apply (append_cancel_l "aws ") in H.
  apply (append_cancel_l (String.concat " " (AWS_CLI_OPTS v))) in H.
  by apply (append_cancel_l " sagemaker ") in H.
Qed.

Lemma aws_cmd_verbs v a b :
  aws_cmd v a = aws_cmd v b →
  a +:+ " --notebook-instance-name " +:+ NB_NAME v
  = b +:+ " --notebook-instance-name " +:+ NB_NAME v.
Proof.
  intros H. rewrite <- (append_nil_r (aws_cmd v a)) in H.
  rewrite <- (append_nil_r (aws_cmd v b)) in H.
  apply aws_cmd_cancel in H. by rewrite !append_nil_r in H.
Qed.

Lemma aws_cmd_describe v a :
  aws_cmd v a = describe_cmd v →
  a +:+ " --notebook-instance-name " +:+ NB_NAME v
  = "describe-notebook-instance" +:+ " --notebook-instance-name "
      +:+ NB_NAME v
      +:+ " | egrep --color=always '^.*NotebookInstanceStatus.*$|$'".
Proof.
  intros H. rewrite <- (append_nil_r (aws_cmd v a)) in H. unfold describe_cmd in H.
  apply aws_cmd_cancel in H. by rewrite !append_nil_r in H.
Qed.

(** Membership of a command in a list of actions, decided by comparing the
    verbs. *)
Lemma Eval_inj a b : Eval a = Eval b → a = b.
Proof. by intros [= ->]. Qed.

Ltac cmd_absurd H :=
  first [ discriminate H
        | apply Eval_inj in H;
          first [ apply aws_cmd_verbs in H | apply aws_cmd_describe in H
                | symmetry in H; apply aws_cmd_describe in H ];
          simpl in H; discriminate H ].

Ltac among :=
  repeat first [apply list_elem_of_here | apply list_elem_of_further].

Ltac not_among :=
  let H := fresh "H" in
  intros H;
  repeat (apply elem_of_cons in H; destruct H as [H|H]; [cmd_absurd H|]);
  by apply elem_of_nil in H.

Lemma watch_cases args env_nb_name :
  WATCH (parsed args env_nb_name) = 0 ∨ WATCH (parsed args env_nb_name) = 1.
Proof. simpl. destruct (existsb is_no_watch args); auto. Qed.

(** X12. What the script does once it has a notebook name (and no help
    flag was given), with [v] the variables read from the command line.  It
    issues the start command exactly when its own name contains [start], and
    the stop command exactly when its name contains [stop] but not [start];
    under any name, also an unknown one, it then asks for the status of the
    instance, once or under [watch].  It is interrupted exactly when it
    watches and [watch] does not return.  Otherwise, called as a start
    script it last creates the presigned URL and ends with the status of
    that command; under any other name it never creates the URL and ends
    with status 1, also after a stop that went well. *)
Theorem task_by_name name args env_nb_name watch_returns out fin :
  existsb is_help args = false →
  NB_NAME (parsed args env_nb_name) ≠ EmptyString →
  main name args env_nb_name watch_returns = (out, fin) →
  (Eval (aws_cmd (parsed args env_nb_name) "start-notebook-instance") ∈ out
   ↔ contains "start" name = true) ∧
  (Eval (aws_cmd (parsed args env_nb_name) "stop-notebook-instance") ∈ out
   ↔ contains "start" name = false ∧ contains "stop" name = true) ∧
  (Eval (describe_cmd (parsed args env_nb_name)) ∈ out ∨
   Watch 30 (describe_cmd (parsed args env_nb_name)) ∈ out) ∧
  (fin = Interrupted
   ↔ WATCH (parsed args env_nb_name) = 1 ∧ watch_returns = false) ∧
  (fin ≠ Interrupted →
   if contains "start" name then
     fin = EndWithStatusOf
             (aws_cmd (parsed args env_nb_name)
                "create-presigned-notebook-instance-url") ∧
     last out = Some (Eval (aws_cmd (parsed args env_nb_name)
                              "create-presigned-notebook-instance-url"))
   else
     fin = End 1 ∧
     Eval (aws_cmd (parsed args env_nb_name)
             "create-presigned-notebook-instance-url") ∉ out).
Proof.
  intros Hhelp Hnb. rewrite (main_parsed _ _ _ _ Hhelp). cbv zeta.
  rewrite bool_decide_eq_false_2 by done.
  pose proof (watch_cases args env_nb_name) as Hw.
  remember (parsed args env_nb_name) as v eqn:Hv. clear Hv Hnb Hhelp.
  unfold task, show_status, start_smnb, stop_smnb, create_presigned_url.
  destruct Hw as [Hw|Hw]; rewrite Hw; simpl Nat.ltb; simpl negb;
    destruct watch_returns; simpl andb; cbv iota;
    destruct (contains "start" name); destruct (contains "stop" name);
    intros [= <- <-]; simpl app.
  all: repeat match goal with
       | |- _ ∧ _ => split
       | |- _ ↔ _ => split
       end.
  all: try (left; by among).
  all: try (right; by among).
  all: try by among.
  all: try by not_among.
  all: try by (intros H; first [done | among | exfalso; revert H; not_among]).
  all: try by (intros [? ?]; first [done | lia | among]).
  all: try by (intros _; split; [done | first [done | not_among]]).
  all: try by (intros H; exfalso; by apply H).
Qed.

(** Called as [smnb-stop nb -n]: the stop command is issued and the script
    ends with status 1. *)
Lemma task_by_name_witness :
  Eval (aws_cmd (parsed ["nb"; "-n"] EmptyString) "stop-notebook-instance")
    ∈ (main "smnb-stop" ["nb"; "-n"] EmptyString true).1 ∧
  (main "smnb-stop" ["nb"; "-n"] EmptyString true).2 = End 1.
Proof.
  destruct (task_by_name "smnb-stop" ["nb"; "-n"] EmptyString true
              (main "smnb-stop" ["nb"; "-n"] EmptyString true).1
              (main "smnb-stop" ["nb"; "-n"] EmptyString true).2)
    as (_ & Hstop & _ & _ & Hfin);
    [done | done | apply surjective_pairing |].
  split.
  - apply Hstop. by vm_compute.
  - apply Hfin. by vm_compute.
Defined.
